(** * Decision execution and composition pipeline of the chart backend

    A shallow embedding of
      - [models/decision.py]      (the decision contract),
      - [core/errors.py]          (the error classes),
      - [services/composer.py]    (decision -> Vega-Lite specification),
      - [services/llm_decider.py] (the heuristic fallback decision),
      - [services/executor.py]    (the Polars transform executor),
      - [utils/files.py]          (path validation),
    followed by the properties established about them.

    Conventions.  Python [str] is [string]; [int] is [Z]; [float] is an exact
    rational [Q] (rounding is not modelled); [None] is [None] of an [option],
    or [VNull] inside a cell of a table; a raised exception is the [Err]
    branch of [result]. *)

From Stdlib Require Import List String Ascii ZArith QArith Bool Lia Permutation.
From Stdlib Require Import Qround.
Import ListNotations.
Open Scope string_scope.

(* ================================================================== *)
(** * Errors ([core/errors.py]) and the exception monad *)

(** The exception classes that can leave the embedded functions.  The four
    [BackendException] subclasses keep their names; [ValidationError] is
    pydantic's and [PolarsError] stands for any exception raised by the data
    frame library when a plan is collected. *)
Inductive error : Type :=
| InvalidRequestError (message : string)
| DataTooLargeError (message : string)
| SchemaValidationFailedError (message : string)
| ModelDecisionFailedError (message : string)
| ValidationError (message : string)
| PolarsError (message : string).

(** [error_code] class attribute of each [BackendException] subclass. *)
Definition error_code (e : error) : string :=
  match e with
  | InvalidRequestError _ => "INVALID_REQUEST"
  | DataTooLargeError _ => "DATA_TOO_LARGE"
  | SchemaValidationFailedError _ => "SCHEMA_VALIDATION_FAILED"
  | ModelDecisionFailedError _ => "MODEL_DECISION_FAILED"
  | ValidationError _ => "INTERNAL"
  | PolarsError _ => "INTERNAL"
  end.

Definition is_invalid_request (e : error) : bool :=
  match e with InvalidRequestError _ => true | _ => false end.

Inductive result (A : Type) : Type :=
| Ok (a : A)
| Err (e : error).
Arguments Ok {A} a.
Arguments Err {A} e.

Definition bind {A B : Type} (m : result A) (k : A -> result B) : result B :=
  match m with
  | Ok a => k a
  | Err e => Err e
  end.

Definition raise {A : Type} (e : error) : result A := Err e.

Notation "x <- m ;; k" := (bind m (fun x => k))
  (at level 61, m at next level, right associativity).

(** A [for] loop whose body may raise: the accumulator is threaded through
    the elements in list order and the first exception stops the loop. *)
Fixpoint for_each {A S : Type} (body : S -> A -> result S) (xs : list A) (s : S)
  : result S :=
  match xs with
  | [] => Ok s
  | x :: xs' => s' <- body s x ;; for_each body xs' s'
  end.

(* ================================================================== *)
(** * Values *)

(** A JSON scalar carried by a filter ([value: Any]) and a cell of a table.
    [VDatetime us] is a timestamp in microseconds since the Unix epoch, the
    default resolution of [pl.Datetime]. *)
Inductive scalar : Type :=
| VNull
| VBool (b : bool)
| VInt (z : Z)
| VFloat (q : Q)
| VStr (s : string)
| VDatetime (us : Z).

(** Python truthiness of the objects the code tests with [if x:] / [not x]. *)
Definition truthy_str (s : string) : bool :=
  match s with EmptyString => false | _ => true end.

Definition truthy_opt_list {A : Type} (l : option (list A)) : bool :=
  match l with Some (_ :: _) => true | _ => false end.

Definition truthy_Z (z : Z) : bool := negb (Z.eqb z 0).

Definition truthy_Q (q : Q) : bool := negb (Qeq_bool q 0).

(** [x or []] *)
Definition or_empty {A : Type} (l : option (list A)) : list A :=
  match l with Some l' => l' | None => [] end.

(* ================================================================== *)
(** * The decision contract ([models/decision.py]) *)

Module ChartType.
Inductive t : Type :=
| bar | column | line | area | scatter | histogram | boxplot
| stacked_bar | diverging_stacked_bar | pie | heatmap | hexbin
| geo_choropleth.

Definition value (c : t) : string :=
  match c with
  | bar => "bar" | column => "column" | line => "line" | area => "area"
  | scatter => "scatter" | histogram => "histogram" | boxplot => "boxplot"
  | stacked_bar => "stacked_bar"
  | diverging_stacked_bar => "diverging_stacked_bar"
  | pie => "pie" | heatmap => "heatmap" | hexbin => "hexbin"
  | geo_choropleth => "geo_choropleth"
  end.
End ChartType.

Module SemanticType.
Inductive t : Type :=
| nominal | ordinal | quantitative | temporal | geospatial.

Definition value (s : t) : string :=
  match s with
  | nominal => "nominal" | ordinal => "ordinal"
  | quantitative => "quantitative" | temporal => "temporal"
  | geospatial => "geospatial"
  end.
End SemanticType.

Module FieldRole.
Inductive t : Type :=
| dimension | measure | time | series | geo | value | x | y.
End FieldRole.

Module AggregateOp.
Inductive t : Type :=
| sum | mean | median | min | max | count | auto.

Definition value (a : t) : string :=
  match a with
  | sum => "sum" | mean => "mean" | median => "median" | min => "min"
  | max => "max" | count => "count" | auto => "auto"
  end.
End AggregateOp.

Module TimeUnit.
Inductive t : Type :=
| auto | second | minute | hour | day | week | month | quarter | year.

Definition value (u : t) : string :=
  match u with
  | auto => "auto" | second => "second" | minute => "minute"
  | hour => "hour" | day => "day" | week => "week" | month => "month"
  | quarter => "quarter" | year => "year"
  end.

Definition eqb (a b : t) : bool :=
  match a, b with
  | auto, auto | second, second | minute, minute | hour, hour
  | day, day | week, week | month, month | quarter, quarter
  | year, year => true
  | _, _ => false
  end.

(** Enum lookup by value, as pydantic does when it validates a string. *)
Definition of_value (s : string) : option t :=
  if String.eqb s "auto" then Some auto
  else if String.eqb s "second" then Some second
  else if String.eqb s "minute" then Some minute
  else if String.eqb s "hour" then Some hour
  else if String.eqb s "day" then Some day
  else if String.eqb s "week" then Some week
  else if String.eqb s "month" then Some month
  else if String.eqb s "quarter" then Some quarter
  else if String.eqb s "year" then Some year
  else None.
End TimeUnit.

Module FieldSpec.
Record t : Type := mk {
  name : string;
  role : FieldRole.t;
  type : SemanticType.t;
  aggregate : option AggregateOp.t;
  time_unit : option TimeUnit.t;
  binned : option bool;
  description : option string }.
End FieldSpec.

Module BinParam.
(** [strategy] is one of the literals auto, fd, sturges, scott. *)
Record t : Type := mk {
  strategy : option string;
  maxbins : option Z;
  step : option Q }.
End BinParam.

Module BinSpec.
Record t : Type := mk {
  field : string;
  params : option BinParam.t }.
End BinSpec.

Module TimeUnitSpec.
Record t : Type := mk {
  field : string;
  unit : TimeUnit.t }.
End TimeUnitSpec.

Module DeriveSpec.
Record t : Type := mk {
  as_ : string;
  expr : string }.
End DeriveSpec.

Module AggregateMeasure.
Record t : Type := mk {
  field : string;
  op : AggregateOp.t;
  as_ : option string }.
End AggregateMeasure.

Module AggregateSpec.
Record t : Type := mk {
  groupby : list string;
  measures : list AggregateMeasure.t }.
End AggregateSpec.

Module FilterOp.
Inductive t : Type :=
| is_null | is_not_null | eq | ne | gt | gte | lt | lte
| in_ | not_in | between | regex.

Definition value (o : t) : string :=
  match o with
  | is_null => "is_null" | is_not_null => "is_not_null"
  | eq => "eq" | ne => "ne" | gt => "gt" | gte => "gte"
  | lt => "lt" | lte => "lte" | in_ => "in" | not_in => "not_in"
  | between => "between" | regex => "regex"
  end.
End FilterOp.

Module FilterSpec.
(** [value: Any | None = None]: an absent value and JSON null are both
    [VNull].  [FilterSpecRequest] is an empty subclass and shares this
    record. *)
Record t : Type := mk {
  field : string;
  op : FilterOp.t;
  value : scalar;
  values : option (list scalar) }.

(** The [values] field validator: a present list must not be empty. *)
Definition validate_values (v : option (list scalar))
  : result (option (list scalar)) :=
  match v with
  | Some [] => raise (ValidationError "values cannot be empty")
  | _ => Ok v
  end.
End FilterSpec.

Module Transform.
(** The five single-clause base classes contribute one optional list each. *)
Record t : Type := mk {
  aggregate : option (list AggregateSpec.t);
  bin : option (list BinSpec.t);
  time_unit : option (list TimeUnitSpec.t);
  derive : option (list DeriveSpec.t);
  filter : option (list FilterSpec.t) }.
End Transform.

Module Clause.
(** One member of the JSON object a [Transform] is validated from. *)
Inductive t : Type :=
| aggregate (specs : list AggregateSpec.t)
| bin (specs : list BinSpec.t)
| time_unit (specs : list TimeUnitSpec.t)
| derive (specs : list DeriveSpec.t)
| filter (specs : list FilterSpec.t).

Definition key (c : t) : string :=
  match c with
  | aggregate _ => "aggregate"
  | bin _ => "bin"
  | time_unit _ => "time_unit"
  | derive _ => "derive"
  | filter _ => "filter"
  end.

Definition as_aggregate (c : t) : option (list AggregateSpec.t) :=
  match c with aggregate l => Some l | _ => None end.
Definition as_bin (c : t) : option (list BinSpec.t) :=
  match c with bin l => Some l | _ => None end.
Definition as_time_unit (c : t) : option (list TimeUnitSpec.t) :=
  match c with time_unit l => Some l | _ => None end.
Definition as_derive (c : t) : option (list DeriveSpec.t) :=
  match c with derive l => Some l | _ => None end.
Definition as_filter (c : t) : option (list FilterSpec.t) :=
  match c with filter l => Some l | _ => None end.

(** The member a model field is read from: the first one of its kind. *)
Fixpoint member {A : Type} (sel : t -> option A) (payload : list t) : option A :=
  match payload with
  | [] => None
  | c :: payload' =>
      match sel c with
      | Some a => Some a
      | None => member sel payload'
      end
  end.
End Clause.

(** [Transform.model_validate] on the members of a JSON object, listed in
    the order they appear in the payload: every field of the model is read
    by its key and defaults to [None]. *)
Definition transform_of_payload (payload : list Clause.t) : Transform.t :=
  Transform.mk (Clause.member Clause.as_aggregate payload)
               (Clause.member Clause.as_bin payload)
               (Clause.member Clause.as_time_unit payload)
               (Clause.member Clause.as_derive payload)
               (Clause.member Clause.as_filter payload).

Module ChannelBin.
(** [bin: bool | BinParam | None] of a channel, without the [None]. *)
Inductive t : Type :=
| flag (b : bool)
| param (p : BinParam.t).
End ChannelBin.

Module Channel.
Record t : Type := mk {
  field : option string;
  aggregate : option AggregateOp.t;
  time_unit : option TimeUnit.t;
  bin : option ChannelBin.t;
  type : option SemanticType.t }.
End Channel.

Module FacetChannel.
Record t : Type := mk {
  field : option string;
  type : option string;
  max_columns : option Z }.
End FacetChannel.

Module OrderChannel.
Record t : Type := mk {
  by_ : option string;
  direction : option string }.
End OrderChannel.

Module Encoding.
Record t : Type := mk {
  x : option Channel.t;
  y : option Channel.t;
  color : option Channel.t;
  size : option Channel.t;
  shape : option Channel.t;
  row : option FacetChannel.t;
  column : option FacetChannel.t;
  order : option OrderChannel.t }.
End Encoding.

Module ColumnProfile.
Record t : Type := mk {
  name : string;
  inferred_type : SemanticType.t;
  unique : option Z;
  missing : option Z;
  outliers : option Z }.
End ColumnProfile.

Module DatasetProfile.
Record t : Type := mk {
  row_count : option Z;
  columns : option (list ColumnProfile.t);
  issues : option (list string);
  time_granularity : option (list (string * TimeUnit.t)) }.
End DatasetProfile.

Module ChartAlternate.
Record t : Type := mk {
  type : ChartType.t;
  score : Q;
  why : option string }.
End ChartAlternate.

Module Chart.
Record t : Type := mk {
  type : ChartType.t;
  score : Q;
  alternates : option (list ChartAlternate.t) }.
End Chart.

Module VisualizationDecision.
(** [data_checks], [render_hints], [warnings] and [errors] are optional
    members that none of the embedded functions reads or writes; they are
    left out of the record. *)
Record t : Type := mk {
  chart : Chart.t;
  fields : list FieldSpec.t;
  transform : option Transform.t;
  encoding : Encoding.t;
  assumptions : option (list string);
  justification : string;
  profile : option DatasetProfile.t }.
End VisualizationDecision.

(* ================================================================== *)
(** * JSON-like output values *)

(** What [compose] returns: Python dicts (insertion ordered), lists and
    scalars. *)
#[warnings="-register-all"]
Inductive json : Type :=
| JNull
| JBool (b : bool)
| JInt (z : Z)
| JFloat (q : Q)
| JStr (s : string)
| JList (items : list json)
| JDict (entries : list (string * json)).

Definition pydict : Type := list (string * json).

(** [d[k] = v]: replaces the value of an existing key in place, appends a
    new key at the end. *)
Fixpoint dict_set (d : pydict) (k : string) (v : json) : pydict :=
  match d with
  | [] => [(k, v)]
  | (k', v') :: d' =>
      if String.eqb k' k then (k', v) :: d' else (k', v') :: dict_set d' k v
  end.

(** [d.get(k)] *)
Fixpoint dict_get (d : pydict) (k : string) : option json :=
  match d with
  | [] => None
  | (k', v) :: d' => if String.eqb k' k then Some v else dict_get d' k
  end.

Definition dict_keys (d : pydict) : list string := map fst d.

Definition json_of_scalar (v : scalar) : json :=
  match v with
  | VNull => JNull
  | VBool b => JBool b
  | VInt z => JInt z
  | VFloat q => JFloat q
  | VStr s => JStr s
  | VDatetime us => JInt us
  end.

(** One element of [df.to_dicts()]: a row as column name / cell pairs. *)
Definition row_dict : Type := list (string * scalar).

Definition json_of_row (r : row_dict) : json :=
  JDict (map (fun kv => (fst kv, json_of_scalar (snd kv))) r).

(* ================================================================== *)
(** * The composer ([services/composer.py]) *)

Module Composer.

(** [Composer._map_mark]: [mapping.get(mark_type, mark_type)]. *)
Definition map_mark (mark_type : string) : json :=
  if String.eqb mark_type "stacked_bar"
  then JDict [("type", JStr "bar"); ("stack", JStr "normal")]
  else if String.eqb mark_type "diverging_stacked_bar"
  then JDict [("type", JStr "bar"); ("stack", JStr "normalize")]
  else JStr mark_type.

(** [BinParam.dict(exclude_none=True)]: the non-null members, in
    declaration order. *)
Definition bin_param_dict (p : BinParam.t) : pydict :=
  ((match BinParam.strategy p with Some s => [("strategy", JStr s)] | None => [] end)
   ++ (match BinParam.maxbins p with Some m => [("maxbins", JInt m)] | None => [] end)
   ++ (match BinParam.step p with Some q => [("step", JFloat q)] | None => [] end))%list.

(** Truthiness of [channel.bin]: [False] is falsy, a [BinParam] instance
    is an object without [__bool__] and therefore truthy. *)
Definition truthy_bin (b : option ChannelBin.t) : bool :=
  match b with
  | None => false
  | Some (ChannelBin.flag f) => f
  | Some (ChannelBin.param _) => true
  end.

(** [Composer._encode_channel].  Each [if channel.m:] tests truthiness:
    for the string member that excludes the empty string, for the enum
    members (string enums with non-empty values) only [None]. *)
Definition encode_channel (channel : Channel.t) : pydict :=
  let spec : pydict := [] in
  let spec :=
    match Channel.field channel with
    | Some f => if truthy_str f then dict_set spec "field" (JStr f) else spec
    | None => spec
    end in
  let spec :=
    match Channel.type channel with
    | Some t =>
        if truthy_str (SemanticType.value t)
        then dict_set spec "type" (JStr (SemanticType.value t)) else spec
    | None => spec
    end in
  let spec :=
    match Channel.aggregate channel with
    | Some a =>
        if truthy_str (AggregateOp.value a)
        then dict_set spec "aggregate" (JStr (AggregateOp.value a)) else spec
    | None => spec
    end in
  let spec :=
    match Channel.time_unit channel with
    | Some u =>
        if truthy_str (TimeUnit.value u)
        then dict_set spec "timeUnit" (JStr (TimeUnit.value u)) else spec
    | None => spec
    end in
  let spec :=
    if truthy_bin (Channel.bin channel) then
      dict_set spec "bin"
        (match Channel.bin channel with
         | Some (ChannelBin.param p) => JDict (bin_param_dict p)
         | _ => JBool true
         end)
    else spec in
  spec.

(** [Composer._build_encoding].  A [Channel] instance is always truthy,
    so [if decision.encoding.x:] tests for [None]. *)
Definition build_encoding (decision : VisualizationDecision.t) : pydict :=
  let enc := VisualizationDecision.encoding decision in
  let encoding : pydict := [] in
  let encoding :=
    match Encoding.x enc with
    | Some c => dict_set encoding "x" (JDict (encode_channel c))
    | None => encoding
    end in
  let encoding :=
    match Encoding.y enc with
    | Some c => dict_set encoding "y" (JDict (encode_channel c))
    | None => encoding
    end in
  let encoding :=
    match Encoding.color enc with
    | Some c => dict_set encoding "color" (JDict (encode_channel c))
    | None => encoding
    end in
  let encoding :=
    match Encoding.size enc with
    | Some c => dict_set encoding "size" (JDict (encode_channel c))
    | None => encoding
    end in
  let encoding :=
    match Encoding.shape enc with
    | Some c => dict_set encoding "shape" (JDict (encode_channel c))
    | None => encoding
    end in
  encoding.

(** [Composer.compose] *)
Definition compose (decision : VisualizationDecision.t) (data : list row_dict)
  : pydict :=
  let mark := ChartType.value (Chart.type (VisualizationDecision.chart decision)) in
  [ ("$schema", JStr "https://vega.github.io/schema/vega-lite/v5.json");
    ("data", JDict [("values", JList (map json_of_row data))]);
    ("mark", map_mark mark);
    ("encoding", JDict (build_encoding decision));
    ("config", JDict [("axis", JDict [("labelAngle", JInt 0)])]) ].

End Composer.

(* ================================================================== *)
(** * The heuristic fallback ([services/llm_decider.py]) *)

(** [str.lower()] on the ASCII range.  Code points outside it are stored as
    bytes of at least 128, which this function leaves alone; none of them
    folds to a letter of the three type names compared below. *)
Definition lower_ascii (c : ascii) : ascii :=
  let n := nat_of_ascii c in
  if (65 <=? n)%nat && (n <=? 90)%nat then ascii_of_nat (n + 32) else c.

Fixpoint lower (s : string) : string :=
  match s with
  | EmptyString => EmptyString
  | String c s' => String (lower_ascii c) (lower s')
  end.

Module Payload.
(** One entry of [payload["columns"]]: the keys the fallback reads,
    [col["name"]] and [col.get("type")]. *)
Record column : Type := mk_column {
  name : string;
  type : option string }.

(** [payload["profile"]], a dumped [DatasetProfileResponse]: granularity
    units are still plain strings. *)
Record profile : Type := mk_profile {
  row_count : option Z;
  profile_columns : list ColumnProfile.t;
  issues : option (list string);
  time_granularity : option (list (string * string)) }.

Record t : Type := mk {
  payload_profile : option profile;
  columns : option (list column) }.
End Payload.

Module LLMDecider.

Definition nonneg (z : option Z) : bool :=
  match z with Some n => (0 <=? n)%Z | None => true end.

Definition column_profile_ok (c : ColumnProfile.t) : bool :=
  nonneg (ColumnProfile.unique c) && nonneg (ColumnProfile.missing c)
  && nonneg (ColumnProfile.outliers c).

Fixpoint validate_granularity (g : list (string * string))
  : option (list (string * TimeUnit.t)) :=
  match g with
  | [] => Some []
  | (k, u) :: g' =>
      match TimeUnit.of_value u, validate_granularity g' with
      | Some u', Some r => Some ((k, u') :: r)
      | _, _ => None
      end
  end.

(** Validation of the copied profile against [DatasetProfile] inside
    [VisualizationDecision.model_validate]: the [ge=0] bounds and the
    [TimeUnit] membership of every granularity. *)
Definition validate_profile (p : Payload.profile) : result DatasetProfile.t :=
  if nonneg (Payload.row_count p)
     && forallb column_profile_ok (Payload.profile_columns p)
  then
    match Payload.time_granularity p with
    | None =>
        Ok (DatasetProfile.mk (Payload.row_count p)
              (Some (Payload.profile_columns p)) (Payload.issues p) None)
    | Some g =>
        match validate_granularity g with
        | Some g' =>
            Ok (DatasetProfile.mk (Payload.row_count p)
                  (Some (Payload.profile_columns p)) (Payload.issues p) (Some g'))
        | None => raise (ValidationError "profile.time_granularity")
        end
    end
  else raise (ValidationError "profile").

(** The local function [cols_of_type]. *)
Definition cols_of_type (columns : list Payload.column) (col_type : string)
  : list Payload.column :=
  filter (fun col =>
            String.eqb
              (lower (match Payload.type col with
                      | Some s => if truthy_str s then s else ""
                      | None => ""
                      end))
              col_type)
         columns.

(** The decision payload before the profile and the assumptions are added:
    chart type, fields, the x and y channels, justification. *)
Record draft : Type := mk_draft {
  d_chart : Chart.t;
  d_fields : list FieldSpec.t;
  d_x : Channel.t;
  d_y : Channel.t;
  d_justification : string }.

Definition field_spec (name : string) (role : FieldRole.t)
           (type : SemanticType.t) (aggregate : option AggregateOp.t)
  : FieldSpec.t :=
  FieldSpec.mk name role type aggregate None None None.

Definition channel (field : string) (type : SemanticType.t)
           (aggregate : option AggregateOp.t) (bin : option ChannelBin.t)
  : Channel.t :=
  Channel.mk (Some field) aggregate None bin (Some type).

(** The [if / elif] cascade that fills [decision_payload]. *)
Definition choose (columns : list Payload.column) : option draft :=
  let quantitative := cols_of_type columns "quantitative" in
  let temporal := cols_of_type columns "temporal" in
  let nominal := cols_of_type columns "nominal" in
  match temporal, quantitative with
  | t :: _, q :: _ =>
      let t_field := Payload.name t in
      let q_field := Payload.name q in
      Some (mk_draft
        (Chart.mk ChartType.line (3 # 10) None)
        [ field_spec t_field FieldRole.time SemanticType.temporal None;
          field_spec q_field FieldRole.measure SemanticType.quantitative
                     (Some AggregateOp.sum) ]
        (channel t_field SemanticType.temporal None None)
        (channel q_field SemanticType.quantitative (Some AggregateOp.sum) None)
        "LLM unavailable; fallback line chart showing quantitative trend over time.")
  | _, _ =>
  match nominal, quantitative with
  | n :: _, q :: _ =>
      let n_field := Payload.name n in
      let q_field := Payload.name q in
      Some (mk_draft
        (Chart.mk ChartType.bar (3 # 10) None)
        [ field_spec n_field FieldRole.dimension SemanticType.nominal None;
          field_spec q_field FieldRole.measure SemanticType.quantitative
                     (Some AggregateOp.sum) ]
        (channel n_field SemanticType.nominal None None)
        (channel q_field SemanticType.quantitative (Some AggregateOp.sum) None)
        "LLM unavailable; fallback bar chart comparing quantitative values across categories.")
  | _, _ =>
  match quantitative with
  | x :: y :: _ =>
      let x_field := Payload.name x in
      let y_field := Payload.name y in
      Some (mk_draft
        (Chart.mk ChartType.scatter (3 # 10) None)
        [ field_spec x_field FieldRole.measure SemanticType.quantitative None;
          field_spec y_field FieldRole.measure SemanticType.quantitative None ]
        (channel x_field SemanticType.quantitative None None)
        (channel y_field SemanticType.quantitative None None)
        "LLM unavailable; fallback scatter plot to observe relationship between two measures.")
  | [q] =>
      let q_field := Payload.name q in
      Some (mk_draft
        (Chart.mk ChartType.histogram (3 # 10) None)
        [ field_spec q_field FieldRole.measure SemanticType.quantitative None ]
        (channel q_field SemanticType.quantitative None
                 (Some (ChannelBin.flag true)))
        (channel q_field SemanticType.quantitative (Some AggregateOp.count) None)
        "LLM unavailable; fallback histogram to show distribution of the measure.")
  | [] => None
  end end end.

(** [LLMDecider._fallback_decision] *)
Definition fallback_decision (payload : Payload.t) (reason : string)
  : result (option VisualizationDecision.t) :=
  let columns := or_empty (Payload.columns payload) in
  match choose columns with
  | None => Ok None
  | Some d =>
      profile <-
        match Payload.payload_profile payload with
        | Some p => p' <- validate_profile p ;; Ok (Some p')
        | None => Ok None
        end ;;
      let assumptions :=
        [ "Heuristic fallback applied because model decision failed";
          "Reason: " ++ reason ] in
      Ok (Some (VisualizationDecision.mk
                  (d_chart d) (d_fields d) None
                  (Encoding.mk (Some (d_x d)) (Some (d_y d))
                               None None None None None None)
                  (Some assumptions) (d_justification d) profile))
  end.

End LLMDecider.

(* ================================================================== *)
(** * The data frame library, as far as the executor uses it

    The executor never touches data itself: it builds a lazy plan out of
    Polars expressions and collects it at the end.  Plans and expressions
    are therefore kept as syntax ([LazyFrame], [Expr]) and [collect] gives
    them the meaning the library documents.  Only the calls made by
    [services/executor.py] are present. *)

Module pl.

Inductive DataType : Type := Datetime.

(** Comparison operators of [Expr]: [==], [!=], [>], [>=], [<], [<=]. *)
Inductive CmpOp : Type := op_eq | op_ne | op_gt | op_ge | op_lt | op_le.

Inductive Expr : Type :=
| col (name : string)
| cmp (o : CmpOp) (e : Expr) (other : scalar)
| is_in (e : Expr) (other : list scalar)
| invert (e : Expr)
| is_between (e : Expr) (lower_bound upper_bound : scalar)
| is_null (e : Expr)
| is_not_null (e : Expr)
| cast (e : Expr) (dtype : DataType)
| dt_truncate (e : Expr) (every : string)
| alias (e : Expr) (name : string)
| truediv (e : Expr) (other : Q)
| floor (e : Expr)
| mul (e : Expr) (other : Q)
| cut (e : Expr) (bin_count : option Z)
| sum (e : Expr)
| mean (e : Expr)
| median (e : Expr)
| min (e : Expr)
| max (e : Expr)
| count (e : Expr).

Inductive LazyFrame : Type :=
| scan_csv (path : string) (separator : string)
| scan_ndjson (path : string)
| scan_parquet (path : string)
| filter (lf : LazyFrame) (predicate : Expr)
| with_columns (lf : LazyFrame) (e : Expr)
| group_by_agg (lf : LazyFrame) (by_ : list Expr) (aggs : list Expr)
| limit (lf : LazyFrame) (n : Z).

(** A materialised table: the column names and the rows, each row holding
    one cell per column in column order. *)
Record DataFrame : Type := mkDataFrame {
  columns : list string;
  rows : list (list scalar) }.

Definition height (df : DataFrame) : Z := Z.of_nat (List.length (rows df)).

(** [df.to_dicts()] *)
Definition to_dicts (df : DataFrame) : list row_dict :=
  map (fun r => combine (columns df) r) (rows df).

(** ** Cells *)

Fixpoint index_of (name : string) (names : list string) : option nat :=
  match names with
  | [] => None
  | n :: names' =>
      if String.eqb n name then Some O
      else match index_of name names' with
           | Some i => Some (S i)
           | None => None
           end
  end.

Definition cell (j : nat) (r : list scalar) : scalar := nth j r VNull.

Definition get_column (df : DataFrame) (name : string) : result (list scalar) :=
  match index_of name (columns df) with
  | Some j => Ok (map (cell j) (rows df))
  | None => raise (PolarsError ("ColumnNotFoundError: " ++ name))
  end.

(** Order of two cells; [None] when either is null, an error when the two
    types have no common order. *)
Definition compare_scalar (a b : scalar) : result (option comparison) :=
  match a, b with
  | VNull, _ | _, VNull => Ok None
  | VInt x, VInt y => Ok (Some (x ?= y)%Z)
  | VInt x, VFloat y => Ok (Some (inject_Z x ?= y)%Q)
  | VFloat x, VInt y => Ok (Some (x ?= inject_Z y)%Q)
  | VFloat x, VFloat y => Ok (Some (x ?= y)%Q)
  | VBool x, VBool y => Ok (Some (Bool.compare x y))
  | VStr x, VStr y => Ok (Some (String.compare x y))
  | VDatetime x, VDatetime y => Ok (Some (x ?= y)%Z)
  | _, _ => raise (PolarsError "ComputeError: cannot compare the two types")
  end.

Definition cmp_holds (o : CmpOp) (c : comparison) : bool :=
  match o, c with
  | op_eq, Eq => true
  | op_ne, (Lt | Gt) => true
  | op_gt, Gt => true
  | op_ge, (Gt | Eq) => true
  | op_lt, Lt => true
  | op_le, (Lt | Eq) => true
  | _, _ => false
  end.

(** One cell of a comparison mask: null stays null. *)
Definition cmp_cell (o : CmpOp) (other v : scalar) : result scalar :=
  c <- compare_scalar v other ;;
  Ok (match c with Some c' => VBool (cmp_holds o c') | None => VNull end).

(** Three-valued conjunction of two mask cells. *)
Definition and_cell (a b : scalar) : result scalar :=
  match a, b with
  | VBool false, (VBool _ | VNull) => Ok (VBool false)
  | (VBool _ | VNull), VBool false => Ok (VBool false)
  | VBool true, VBool true => Ok (VBool true)
  | VBool true, VNull | VNull, VBool true | VNull, VNull => Ok VNull
  | _, _ => raise (PolarsError "InvalidOperationError: not a boolean")
  end.

Definition not_cell (a : scalar) : result scalar :=
  match a with
  | VBool b => Ok (VBool (negb b))
  | VNull => Ok VNull
  | _ => raise (PolarsError "InvalidOperationError: not a boolean")
  end.

Fixpoint is_in_cell (other : list scalar) (v : scalar) : result scalar :=
  match v with
  | VNull => Ok VNull
  | _ =>
      match other with
      | [] => Ok (VBool false)
      | w :: other' =>
          c <- compare_scalar v w ;;
          match c with
          | Some Eq => Ok (VBool true)
          | _ => is_in_cell other' v
          end
      end
  end.

Definition is_between_cell (lower_bound upper_bound v : scalar) : result scalar :=
  a <- cmp_cell op_ge lower_bound v ;;
  b <- cmp_cell op_le upper_bound v ;;
  and_cell a b.

(** The cells a bound of [is_between] stands for on a table of [n] rows.
    The bound is parsed as an expression: a string names a column of the
    table, any other value is a literal, the same for every row. *)
Definition bound_cells (df : DataFrame) (n : nat) (bound : scalar)
  : result (list scalar) :=
  match bound with
  | VStr name => get_column df name
  | _ => Ok (repeat bound n)
  end.

Fixpoint between_cells (lower_bounds upper_bounds vs : list scalar)
  : result (list scalar) :=
  match lower_bounds, upper_bounds, vs with
  | lo :: los, hi :: his, v :: vs' =>
      m <- is_between_cell lo hi v ;;
      ms <- between_cells los his vs' ;;
      Ok (m :: ms)
  | _, _, _ => Ok []
  end.

Definition is_null_cell (v : scalar) : scalar :=
  match v with VNull => VBool true | _ => VBool false end.

Definition cast_cell (dtype : DataType) (v : scalar) : result scalar :=
  match dtype, v with
  | Datetime, VNull => Ok VNull
  | Datetime, VDatetime us => Ok (VDatetime us)
  | Datetime, VInt z => Ok (VDatetime z)
  | Datetime, _ => raise (PolarsError "InvalidOperationError: cast to Datetime")
  end.

(** ** Calendar arithmetic for [dt.truncate] *)

Definition us_per_second : Z := 1000000.
Definition us_per_day : Z := 86400 * us_per_second.

(** Proleptic Gregorian date of a day number counted from 1970-01-01. *)
Definition civil_from_days (days : Z) : Z * Z * Z :=
  let z := (days + 719468)%Z in
  let era := (z / 146097)%Z in
  let doe := (z - era * 146097)%Z in
  let yoe := ((doe - doe / 1460 + doe / 36524 - doe / 146096) / 365)%Z in
  let y := (yoe + era * 400)%Z in
  let doy := (doe - (365 * yoe + yoe / 4 - yoe / 100))%Z in
  let mp := ((5 * doy + 2) / 153)%Z in
  let d := (doy - (153 * mp + 2) / 5 + 1)%Z in
  let m := (if mp <? 10 then mp + 3 else mp - 9)%Z in
  ((if m <=? 2 then y + 1 else y)%Z, m, d).

Definition days_from_civil (y m d : Z) : Z :=
  let y := (if m <=? 2 then y - 1 else y)%Z in
  let era := (y / 400)%Z in
  let yoe := (y - era * 400)%Z in
  let mp := (if 2 <? m then m - 3 else m + 9)%Z in
  let doy := ((153 * mp + 2) / 5 + d - 1)%Z in
  let doe := (yoe * 365 + yoe / 4 - yoe / 100 + doy)%Z in
  (era * 146097 + doe - 719468)%Z.

Definition truncate_every (width : Z) (us : Z) : Z := (us - us mod width)%Z.

(** Weeks start on Monday; day 0 of the epoch is a Thursday. *)
Definition truncate_week (us : Z) : Z :=
  let day := (us / us_per_day)%Z in
  ((day - (day + 3) mod 7) * us_per_day)%Z.

(** Start of the block of [n] months (n dividing 12) that holds [us]. *)
Definition truncate_months (n : Z) (us : Z) : Z :=
  let '(y, m, _) := civil_from_days (us / us_per_day) in
  let m0 := ((m - 1) / n * n + 1)%Z in
  (days_from_civil y m0 1 * us_per_day)%Z.

(** [dt.truncate(every)] on one timestamp, for the duration strings the
    executor produces. *)
Definition truncate_us (every : string) (us : Z) : result Z :=
  if String.eqb every "1s" then Ok (truncate_every us_per_second us)
  else if String.eqb every "1m" then Ok (truncate_every (60 * us_per_second) us)
  else if String.eqb every "1h" then Ok (truncate_every (3600 * us_per_second) us)
  else if String.eqb every "1d" then Ok (truncate_every us_per_day us)
  else if String.eqb every "1w" then Ok (truncate_week us)
  else if String.eqb every "1mo" then Ok (truncate_months 1 us)
  else if String.eqb every "3mo" then Ok (truncate_months 3 us)
  else if String.eqb every "1y" then Ok (truncate_months 12 us)
  else raise (PolarsError ("ComputeError: duration " ++ every)).

Definition truncate_cell (every : string) (v : scalar) : result scalar :=
  match v with
  | VNull => Ok VNull
  | VDatetime us => us' <- truncate_us every us ;; Ok (VDatetime us')
  | _ => raise (PolarsError "InvalidOperationError: dt.truncate on a non-temporal column")
  end.

(** ** Arithmetic cells *)

Definition truediv_cell (other : Q) (v : scalar) : result scalar :=
  if Qeq_bool other 0
  then raise (PolarsError "division by zero is not modelled")
  else match v with
       | VNull => Ok VNull
       | VInt z => Ok (VFloat (inject_Z z / other))
       | VFloat q => Ok (VFloat (q / other))
       | _ => raise (PolarsError "InvalidOperationError: arithmetic on a non-numeric column")
       end.

Definition floor_cell (v : scalar) : result scalar :=
  match v with
  | VNull => Ok VNull
  | VInt z => Ok (VInt z)
  | VFloat q => Ok (VFloat (inject_Z (Qfloor q)))
  | _ => raise (PolarsError "InvalidOperationError: floor on a non-numeric column")
  end.

Definition mul_cell (other : Q) (v : scalar) : result scalar :=
  match v with
  | VNull => Ok VNull
  | VInt z => Ok (VFloat (inject_Z z * other))
  | VFloat q => Ok (VFloat (q * other))
  | _ => raise (PolarsError "InvalidOperationError: arithmetic on a non-numeric column")
  end.

(** Cell-wise application of a fallible function to a column. *)
Fixpoint map_cells (f : scalar -> result scalar) (vs : list scalar)
  : result (list scalar) :=
  match vs with
  | [] => Ok []
  | v :: vs' => w <- f v ;; ws <- map_cells f vs' ;; Ok (w :: ws)
  end.

(** ** Aggregations of one column *)

Definition as_Q (v : scalar) : option Q :=
  match v with
  | VInt z => Some (inject_Z z)
  | VFloat q => Some q
  | _ => None
  end.

Definition null_cell (v : scalar) : bool :=
  match v with VNull => true | _ => false end.

Definition drop_nulls (vs : list scalar) : list scalar :=
  List.filter (fun v => negb (null_cell v)) vs.

(** The numeric contents of a column without its nulls; an error when a
    cell is neither a number nor null. *)
Fixpoint numbers (vs : list scalar) : result (list Q) :=
  match vs with
  | [] => Ok []
  | VNull :: vs' => numbers vs'
  | v :: vs' =>
      match as_Q v with
      | Some q => qs <- numbers vs' ;; Ok (q :: qs)
      | None => raise (PolarsError "InvalidOperationError: aggregation of a non-numeric column")
      end
  end.

Definition all_int (vs : list scalar) : bool :=
  forallb (fun v => match v with VInt _ | VNull => true | _ => false end) vs.

Definition int_of (v : scalar) : Z :=
  match v with VInt z => z | _ => 0%Z end.

Definition Qsum (qs : list Q) : Q := fold_right Qplus 0%Q qs.

Definition sum_column (vs : list scalar) : result scalar :=
  if all_int vs
  then Ok (VInt (fold_right Z.add 0%Z (map int_of vs)))
  else qs <- numbers vs ;; Ok (VFloat (Qred (Qsum qs))).

Definition mean_column (vs : list scalar) : result scalar :=
  qs <- numbers vs ;;
  match qs with
  | [] => Ok VNull
  | _ => Ok (VFloat (Qred (Qsum qs / inject_Z (Z.of_nat (List.length qs)))))
  end.

Fixpoint insert_sorted (q : Q) (qs : list Q) : list Q :=
  match qs with
  | [] => [q]
  | p :: qs' => if Qle_bool q p then q :: qs else p :: insert_sorted q qs'
  end.

Definition sort_Q (qs : list Q) : list Q := fold_right insert_sorted [] qs.

Definition median_column (vs : list scalar) : result scalar :=
  qs <- numbers vs ;;
  let sorted := sort_Q qs in
  let n := List.length sorted in
  match n with
  | O => Ok VNull
  | _ =>
      if Nat.even n
      then Ok (VFloat (Qred ((nth (n / 2 - 1) sorted 0%Q + nth (n / 2) sorted 0%Q)
                             / inject_Z 2)))
      else Ok (VFloat (Qred (nth (n / 2) sorted 0%Q)))
  end.

(** The extreme cell of a column under [compare_scalar], nulls skipped:
    [want] is [Lt] for the minimum and [Gt] for the maximum. *)
Fixpoint extreme_column (want : comparison) (vs : list scalar) : result scalar :=
  match vs with
  | [] => Ok VNull
  | v :: vs' =>
      best <- extreme_column want vs' ;;
      c <- compare_scalar v best ;;
      match c with
      | None => Ok (if null_cell v then best else v)
      | Some c' =>
          Ok (match c', want with
              | Lt, Lt | Gt, Gt | Eq, _ => v
              | _, _ => best
              end)
      end
  end.

Definition count_column (vs : list scalar) : scalar :=
  VInt (Z.of_nat (List.length (drop_nulls vs))).

(** ** Expressions *)

(** What the library cannot be asked to do through this model: read a
    file, and bin a column with [Expr.cut].  Both are supplied from
    outside. *)
Record Backend : Type := mkBackend {
  read_csv : string -> string -> result DataFrame;
  read_ndjson : string -> result DataFrame;
  read_parquet : string -> result DataFrame;
  cut_column : option Z -> list scalar -> result (list scalar) }.

(** The name of the column an expression writes: its alias, else the name
    of the column it starts from. *)
Fixpoint output_name (e : Expr) : string :=
  match e with
  | col name => name
  | alias _ name => name
  | cmp _ e' _ | is_in e' _ | invert e' | is_between e' _ _
  | is_null e' | is_not_null e' | cast e' _ | dt_truncate e' _
  | truediv e' _ | floor e' | mul e' _ | cut e' _
  | sum e' | mean e' | median e' | min e' | max e' | count e' => output_name e'
  end.

Section Eval.
Variable B : Backend.

(** The column an expression yields on a table: one cell per row, or a
    single cell for an aggregation. *)
Fixpoint eval (df : DataFrame) (e : Expr) : result (list scalar) :=
  match e with
  | col name => get_column df name
  | cmp o e' other => vs <- eval df e' ;; map_cells (cmp_cell o other) vs
  | is_in e' other => vs <- eval df e' ;; map_cells (is_in_cell other) vs
  | invert e' => vs <- eval df e' ;; map_cells not_cell vs
  | is_between e' lo hi =>
      vs <- eval df e' ;;
      los <- bound_cells df (List.length vs) lo ;;
      his <- bound_cells df (List.length vs) hi ;;
      between_cells los his vs
  | is_null e' => vs <- eval df e' ;; Ok (map is_null_cell vs)
  | is_not_null e' =>
      vs <- eval df e' ;; Ok (map (fun v => VBool (negb (null_cell v))) vs)
  | cast e' dtype => vs <- eval df e' ;; map_cells (cast_cell dtype) vs
  | dt_truncate e' every => vs <- eval df e' ;; map_cells (truncate_cell every) vs
  | alias e' _ => eval df e'
  | truediv e' other => vs <- eval df e' ;; map_cells (truediv_cell other) vs
  | floor e' => vs <- eval df e' ;; map_cells floor_cell vs
  | mul e' other => vs <- eval df e' ;; map_cells (mul_cell other) vs
  | cut e' bin_count => vs <- eval df e' ;; cut_column B bin_count vs
  | sum e' => vs <- eval df e' ;; v <- sum_column vs ;; Ok [v]
  | mean e' => vs <- eval df e' ;; v <- mean_column vs ;; Ok [v]
  | median e' => vs <- eval df e' ;; v <- median_column vs ;; Ok [v]
  | min e' => vs <- eval df e' ;; v <- extreme_column Lt vs ;; Ok [v]
  | max e' => vs <- eval df e' ;; v <- extreme_column Gt vs ;; Ok [v]
  | count e' => vs <- eval df e' ;; Ok [count_column vs]
  end.

(** ** Eager operations on a table *)

(** Rows kept by a mask: those whose mask cell is true; false and null
    drop the row. *)
Fixpoint select_rows (mask : list scalar) (rs : list (list scalar))
  : result (list (list scalar)) :=
  match mask, rs with
  | m :: mask', r :: rs' =>
      match m with
      | VBool true => rs'' <- select_rows mask' rs' ;; Ok (r :: rs'')
      | VBool false | VNull => select_rows mask' rs'
      | _ => raise (PolarsError "ComputeError: filter predicate is not boolean")
      end
  | _, _ => Ok []
  end.

Definition df_filter (df : DataFrame) (predicate : Expr) : result DataFrame :=
  mask <- eval df predicate ;;
  rs <- select_rows mask (rows df) ;;
  Ok (mkDataFrame (columns df) rs).

Fixpoint replace_nth (j : nat) (v : scalar) (r : list scalar) : list scalar :=
  match j, r with
  | O, _ :: r' => v :: r'
  | S j', w :: r' => w :: replace_nth j' v r'
  | _, [] => []
  end.

Fixpoint zip_rows (f : list scalar -> scalar -> list scalar)
         (rs : list (list scalar)) (vs : list scalar) : list (list scalar) :=
  match rs, vs with
  | r :: rs', v :: vs' => f r v :: zip_rows f rs' vs'
  | _, _ => []
  end.

(** Writes a column: over the column of that name when there is one,
    as a new last column otherwise. *)
Definition set_column (df : DataFrame) (name : string) (vs : list scalar)
  : DataFrame :=
  match index_of name (columns df) with
  | Some j => mkDataFrame (columns df) (zip_rows (fun r v => replace_nth j v r) (rows df) vs)
  | None =>
      mkDataFrame (columns df ++ [name])%list
                  (zip_rows (fun r v => r ++ [v])%list (rows df) vs)
  end.

Definition df_with_columns (df : DataFrame) (e : Expr) : result DataFrame :=
  vs <- eval df e ;;
  if Nat.eqb (List.length vs) (List.length (rows df))
  then Ok (set_column df (output_name e) vs)
  else raise (PolarsError "ShapeError: column length differs from the table height").

Definition scalar_eqb (a b : scalar) : bool :=
  match a, b with
  | VNull, VNull => true
  | VBool x, VBool y => Bool.eqb x y
  | VInt x, VInt y => Z.eqb x y
  | VFloat x, VFloat y => Qeq_bool x y
  | VStr x, VStr y => String.eqb x y
  | VDatetime x, VDatetime y => Z.eqb x y
  | _, _ => false
  end.

Fixpoint key_eqb (k1 k2 : list scalar) : bool :=
  match k1, k2 with
  | [], [] => true
  | a :: k1', b :: k2' => scalar_eqb a b && key_eqb k1' k2'
  | _, _ => false
  end.

Fixpoint eval_all (df : DataFrame) (es : list Expr) : result (list (list scalar)) :=
  match es with
  | [] => Ok []
  | e :: es' => c <- eval df e ;; cs <- eval_all df es' ;; Ok (c :: cs)
  end.

(** The key of each row: its cells in the key columns. *)
Definition row_keys (key_cols : list (list scalar)) (n : nat)
  : list (list scalar) :=
  map (fun i => map (fun c => nth i c VNull) key_cols) (seq 0 n).

(** Distinct keys, in order of first appearance. *)
Fixpoint distinct_keys (seen : list (list scalar)) (ks : list (list scalar))
  : list (list scalar) :=
  match ks with
  | [] => []
  | k :: ks' =>
      if existsb (key_eqb k) seen then distinct_keys seen ks'
      else k :: distinct_keys (k :: seen) ks'
  end.

Definition group_rows (k : list scalar)
           (keyed : list (list scalar * list scalar)) : list (list scalar) :=
  map snd (List.filter (fun kr => key_eqb k (fst kr)) keyed).

Fixpoint aggregate_groups (cols : list string) (aggs : list Expr)
         (keyed : list (list scalar * list scalar)) (ks : list (list scalar))
  : result (list (list scalar)) :=
  match ks with
  | [] => Ok []
  | k :: ks' =>
      outs <- eval_all (mkDataFrame cols (group_rows k keyed)) aggs ;;
      rest <- aggregate_groups cols aggs keyed ks' ;;
      Ok ((k ++ map (fun c => hd VNull c) outs)%list :: rest)
  end.

(** [group_by(by).agg(aggs)]: one output row per distinct key, holding
    the key cells followed by one cell per aggregation.  Groups come
    out in order of first appearance. *)
Definition df_group_by_agg (df : DataFrame) (by_ aggs : list Expr)
  : result DataFrame :=
  key_cols <- eval_all df by_ ;;
  let keys := row_keys key_cols (List.length (rows df)) in
  let keyed := combine keys (rows df) in
  out <- aggregate_groups (columns df) aggs keyed (distinct_keys [] keys) ;;
  Ok (mkDataFrame (map output_name by_ ++ map output_name aggs)%list out).

Definition df_limit (df : DataFrame) (n : Z) : result DataFrame :=
  if (n <? 0)%Z
  then raise (PolarsError "OverflowError: negative row count")
  else Ok (mkDataFrame (columns df) (firstn (Z.to_nat n) (rows df))).

(** ** Collecting a plan *)

Fixpoint collect (lf : LazyFrame) : result DataFrame :=
  match lf with
  | scan_csv path separator => read_csv B path separator
  | scan_ndjson path => read_ndjson B path
  | scan_parquet path => read_parquet B path
  | filter lf' predicate => df <- collect lf' ;; df_filter df predicate
  | with_columns lf' e => df <- collect lf' ;; df_with_columns df e
  | group_by_agg lf' by_ aggs => df <- collect lf' ;; df_group_by_agg df by_ aggs
  | limit lf' n => df <- collect lf' ;; df_limit df n
  end.
End Eval.

End pl.

(* ================================================================== *)
(** * Path validation ([utils/files.py]) *)

(** What [pathlib] answers about the file system. *)
Record FileSystem : Type := mkFileSystem {
  expanduser : string -> string;
  path_exists : string -> bool;
  path_is_dir : string -> bool;
  (** [Path(p).resolve().is_relative_to(Path(root).resolve())] *)
  resolved_is_relative_to : string -> string -> bool;
  (** [Path(p).suffix] *)
  path_suffix : string -> string }.

(** The one setting read here ([core/config.py]). *)
Record Settings : Type := mkSettings {
  allowed_data_roots : option (list string) }.

Definition validate_data_path (fs : FileSystem) (settings : Settings)
           (path_str : string) : result string :=
  let path := expanduser fs path_str in
  if negb (path_exists fs path)
  then raise (InvalidRequestError ("Path not found: " ++ path))
  else if path_is_dir fs path
  then raise (InvalidRequestError "Expected a file path, received directory")
  else
    let allowed_roots := allowed_data_roots settings in
    if truthy_opt_list allowed_roots
    then
      if existsb (resolved_is_relative_to fs path) (or_empty allowed_roots)
      then Ok path
      else raise (InvalidRequestError "Path not allowed by server configuration")
    else Ok path.

(* ================================================================== *)
(** * The transform executor ([services/executor.py]) *)

Module TransformExecutor.

(** The [meta] dictionary returned next to the table. *)
Record meta : Type := mkMeta {
  rows_after_filter : Z;
  applied_filters : Z }.

(** [_read_lazy] *)
Definition read_lazy (fs : FileSystem) (path : string) : result pl.LazyFrame :=
  let suffix := lower (path_suffix fs path) in
  if String.eqb suffix ".csv" || String.eqb suffix ".tsv"
  then Ok (pl.scan_csv path
             (if String.eqb suffix ".csv" then "," else String "009"%char ""))
  else if String.eqb suffix ".json" || String.eqb suffix ".ndjson"
  then Ok (pl.scan_ndjson path)
  else if String.eqb suffix ".parquet"
  then Ok (pl.scan_parquet path)
  else raise (InvalidRequestError ("Unsupported file type: " ++ suffix)).

(** Body of the loop of [_apply_filters]: one filter specification. *)
Definition filter_step (lazy_frame : pl.LazyFrame) (spec : FilterSpec.t)
  : result pl.LazyFrame :=
  let column := FilterSpec.field spec in
  let col_expr := pl.col column in
  match FilterSpec.op spec with
  | FilterOp.eq =>
      Ok (pl.filter lazy_frame (pl.cmp pl.op_eq col_expr (FilterSpec.value spec)))
  | FilterOp.ne =>
      Ok (pl.filter lazy_frame (pl.cmp pl.op_ne col_expr (FilterSpec.value spec)))
  | FilterOp.gt =>
      Ok (pl.filter lazy_frame (pl.cmp pl.op_gt col_expr (FilterSpec.value spec)))
  | FilterOp.gte =>
      Ok (pl.filter lazy_frame (pl.cmp pl.op_ge col_expr (FilterSpec.value spec)))
  | FilterOp.lt =>
      Ok (pl.filter lazy_frame (pl.cmp pl.op_lt col_expr (FilterSpec.value spec)))
  | FilterOp.lte =>
      Ok (pl.filter lazy_frame (pl.cmp pl.op_le col_expr (FilterSpec.value spec)))
  | FilterOp.in_ =>
      Ok (pl.filter lazy_frame
            (pl.is_in col_expr (or_empty (FilterSpec.values spec))))
  | FilterOp.not_in =>
      Ok (pl.filter lazy_frame
            (pl.invert (pl.is_in col_expr (or_empty (FilterSpec.values spec)))))
  | FilterOp.between =>
      match FilterSpec.values spec with
      | Some [lower_bound; upper_bound] =>
          Ok (pl.filter lazy_frame
                (pl.is_between col_expr lower_bound upper_bound))
      | _ => raise (InvalidRequestError "between filter expects two values")
      end
  | FilterOp.is_null => Ok (pl.filter lazy_frame (pl.is_null col_expr))
  | FilterOp.is_not_null => Ok (pl.filter lazy_frame (pl.is_not_null col_expr))
  | FilterOp.regex =>
      raise (InvalidRequestError
               ("Unsupported filter operation: "
                  ++ FilterOp.value (FilterSpec.op spec)))
  end.

(** [_apply_filters] *)
Definition apply_filters (lazy_frame : pl.LazyFrame)
           (filters : option (list FilterSpec.t)) : result pl.LazyFrame :=
  if negb (truthy_opt_list filters)
  then Ok lazy_frame
  else for_each filter_step (or_empty filters) lazy_frame.

(** [_time_unit_to_pl_duration]: [mapping.get(unit, "1d")]. *)
Definition time_unit_to_pl_duration (unit : TimeUnit.t) : string :=
  match unit with
  | TimeUnit.second => "1s"
  | TimeUnit.minute => "1m"
  | TimeUnit.hour => "1h"
  | TimeUnit.day => "1d"
  | TimeUnit.week => "1w"
  | TimeUnit.month => "1mo"
  | TimeUnit.quarter => "3mo"
  | TimeUnit.year => "1y"
  | _ => "1d"
  end.

(** Body of the [time_unit] loop of [_apply_transforms]. *)
Definition time_unit_step (lazy_frame : pl.LazyFrame) (spec : TimeUnitSpec.t)
  : pl.LazyFrame :=
  let alias :=
    if TimeUnit.eqb (TimeUnitSpec.unit spec) TimeUnit.auto
    then TimeUnitSpec.field spec
    else TimeUnitSpec.field spec ++ ":" ++ TimeUnit.value (TimeUnitSpec.unit spec) in
  pl.with_columns lazy_frame
    (pl.alias
       (pl.dt_truncate
          (pl.cast (pl.col (TimeUnitSpec.field spec)) pl.Datetime)
          (time_unit_to_pl_duration (TimeUnitSpec.unit spec)))
       alias).

(** The [bin_count] argument handed to [cut]:
    [params.maxbins if params else 10]. *)
Definition bin_count_arg (params : option BinParam.t) : option Z :=
  match params with
  | Some p => BinParam.maxbins p
  | None => Some 10%Z
  end.

(** [_apply_bin].  [params and params.step] is truthy when [params] is
    present and its step is neither [None] nor zero. *)
Definition apply_bin (lazy_frame : pl.LazyFrame) (spec : BinSpec.t)
  : pl.LazyFrame :=
  let field := BinSpec.field spec in
  let params := BinSpec.params spec in
  match
    match params with
    | Some p =>
        match BinParam.step p with
        | Some s => if truthy_Q s then Some s else None
        | None => None
        end
    | None => None
    end
  with
  | Some step =>
      pl.with_columns lazy_frame
        (pl.mul (pl.floor (pl.truediv (pl.col field) step)) step)
  | None =>
      pl.with_columns lazy_frame (pl.cut (pl.col field) (bin_count_arg params))
  end.

(** [_aggregate_expression] *)
Definition aggregate_expression (measure : AggregateMeasure.t) : result pl.Expr :=
  let field := AggregateMeasure.field measure in
  let op := AggregateMeasure.op measure in
  let alias :=
    match AggregateMeasure.as_ measure with
    | Some a => if truthy_str a then a else field ++ "_" ++ AggregateOp.value op
    | None => field ++ "_" ++ AggregateOp.value op
    end in
  match op with
  | AggregateOp.sum => Ok (pl.alias (pl.sum (pl.col field)) alias)
  | AggregateOp.mean => Ok (pl.alias (pl.mean (pl.col field)) alias)
  | AggregateOp.median => Ok (pl.alias (pl.median (pl.col field)) alias)
  | AggregateOp.min => Ok (pl.alias (pl.min (pl.col field)) alias)
  | AggregateOp.max => Ok (pl.alias (pl.max (pl.col field)) alias)
  | AggregateOp.count => Ok (pl.alias (pl.count (pl.col field)) alias)
  | AggregateOp.auto =>
      raise (InvalidRequestError
               ("Unsupported aggregate operation: " ++ AggregateOp.value op))
  end.

(** The loop of [_apply_aggregate] that collects the measure expressions. *)
Fixpoint aggregate_expressions (measures : list AggregateMeasure.t)
  : result (list pl.Expr) :=
  match measures with
  | [] => Ok []
  | m :: measures' =>
      e <- aggregate_expression m ;;
      es <- aggregate_expressions measures' ;;
      Ok (e :: es)
  end.

(** [_apply_aggregate] *)
Definition apply_aggregate (lazy_frame : pl.LazyFrame) (spec : AggregateSpec.t)
  : result pl.LazyFrame :=
  let groupby_exprs := map pl.col (AggregateSpec.groupby spec) in
  agg_exprs <- aggregate_expressions (AggregateSpec.measures spec) ;;
  Ok (pl.group_by_agg lazy_frame groupby_exprs agg_exprs).

(** Body of the [derive] loop: the first element raises. *)
Definition derive_step (lazy_frame : pl.LazyFrame) (derive : DeriveSpec.t)
  : result pl.LazyFrame :=
  raise (InvalidRequestError "derive transform not implemented in v1").

(** [_apply_transforms].  A [Transform] instance is always truthy, so
    [if not transform] tests for [None]; each [if transform.c:] skips an
    absent or empty list. *)
Definition apply_transforms (lazy_frame : pl.LazyFrame)
           (decision : VisualizationDecision.t) : result pl.LazyFrame :=
  match VisualizationDecision.transform decision with
  | None => Ok lazy_frame
  | Some transform =>
      lazy_frame <-
        (if truthy_opt_list (Transform.filter transform)
         then apply_filters lazy_frame (Transform.filter transform)
         else Ok lazy_frame) ;;
      let lazy_frame :=
        if truthy_opt_list (Transform.time_unit transform)
        then fold_left time_unit_step (or_empty (Transform.time_unit transform))
                       lazy_frame
        else lazy_frame in
      lazy_frame <-
        (if truthy_opt_list (Transform.derive transform)
         then for_each derive_step (or_empty (Transform.derive transform))
                       lazy_frame
         else Ok lazy_frame) ;;
      let lazy_frame :=
        if truthy_opt_list (Transform.bin transform)
        then fold_left apply_bin (or_empty (Transform.bin transform)) lazy_frame
        else lazy_frame in
      lazy_frame <-
        (if truthy_opt_list (Transform.aggregate transform)
         then for_each apply_aggregate (or_empty (Transform.aggregate transform))
                       lazy_frame
         else Ok lazy_frame) ;;
      Ok lazy_frame
  end.

(** [execute].  [if limit_rows:] skips [None] and zero. *)
Definition execute (fs : FileSystem) (settings : Settings) (B : pl.Backend)
           (path : string) (decision : VisualizationDecision.t)
           (filters : option (list FilterSpec.t)) (limit_rows : option Z)
  : result (pl.DataFrame * meta) :=
  file_path <- validate_data_path fs settings path ;;
  lazy_frame <- read_lazy fs file_path ;;
  lazy_frame <- apply_filters lazy_frame filters ;;
  lazy_frame <- apply_transforms lazy_frame decision ;;
  let lazy_frame :=
    match limit_rows with
    | Some n => if truthy_Z n then pl.limit lazy_frame n else lazy_frame
    | None => lazy_frame
    end in
  df <- pl.collect B lazy_frame ;;
  Ok (df, mkMeta (pl.height df) (Z.of_nat (List.length (or_empty filters)))).

End TransformExecutor.

(* ================================================================== *)
(** * The render route ([routers/render.py]) *)

Module RenderRequest.
Record t : Type := mk {
  path : string;
  decision : VisualizationDecision.t;
  filters : option (list FilterSpec.t);
  limit_rows : option Z }.
End RenderRequest.

Module RenderResponse.
Record t : Type := mk {
  vega_lite : pydict;
  data : list row_dict;
  meta : TransformExecutor.meta }.
End RenderResponse.

(** [render]: execute, turn the table into dictionaries, compose. *)
Definition render (fs : FileSystem) (settings : Settings) (B : pl.Backend)
           (request : RenderRequest.t) : result RenderResponse.t :=
  r <- TransformExecutor.execute fs settings B
         (RenderRequest.path request) (RenderRequest.decision request)
         (RenderRequest.filters request) (RenderRequest.limit_rows request) ;;
  let data_values := pl.to_dicts (fst r) in
  let spec := Composer.compose (RenderRequest.decision request) data_values in
  Ok (RenderResponse.mk spec data_values (snd r)).

(* ================================================================== *)
(** * The model call and [decide] ([services/llm_decider.py]) *)

Module OpenAI.
(** The parts of a response object the decider looks at.  A block without
    [content] attribute has [content = None]; an item without [type]
    attribute has [item_type = None]. *)
Record item : Type := mk_item {
  item_type : option string;
  text : string }.

Record block : Type := mk_block {
  content : option (list item) }.

Record response : Type := mk_response {
  output_text : option string;
  output : option (list block) }.
End OpenAI.

(** What the decider is given from outside: the two settings it reads, the
    client call (a failure of the call or of the message building is
    [None]), the JSON parser and the pydantic validation of a decision. *)
Record ModelEnv : Type := mkModelEnv {
  openai_api_key : option string;
  openai_model_fast : string;
  responses_create : string -> Payload.t -> option OpenAI.response;
  json_loads : string -> option json;
  model_validate : json -> option VisualizationDecision.t }.

Definition truthy_opt_str (s : option string) : bool :=
  match s with Some s' => truthy_str s' | None => false end.

Module LLMCall.

(** The text items of the output blocks, in order. *)
Definition segments (blocks : list OpenAI.block) : list string :=
  flat_map
    (fun b =>
       match OpenAI.content b with
       | Some items =>
           flat_map
             (fun it =>
                match OpenAI.item_type it with
                | Some ty => if String.eqb ty "output_text" then [OpenAI.text it] else []
                | None => []
                end)
             items
       | None => []
       end)
    blocks.

(** [LLMDecider._call_openai] *)
Definition call_openai (env : ModelEnv) (model_name : string) (payload : Payload.t)
  : result json :=
  if negb (truthy_opt_str (openai_api_key env))
  then raise (ModelDecisionFailedError "OpenAI API key not configured")
  else
    match responses_create env model_name payload with
    | None => raise (ModelDecisionFailedError "OpenAI request failed")
    | Some response =>
        let raw_output := OpenAI.output_text response in
        let raw_output :=
          if negb (truthy_opt_str raw_output)
             && truthy_opt_list (OpenAI.output response)
          then Some (String.concat "" (segments (or_empty (OpenAI.output response))))
          else raw_output in
        match raw_output with
        | Some raw =>
            if truthy_str raw
            then match json_loads env raw with
                 | Some j => Ok j
                 | None => raise (ModelDecisionFailedError "Failed to parse OpenAI response")
                 end
            else raise (ModelDecisionFailedError "Failed to parse OpenAI response")
        | None => raise (ModelDecisionFailedError "Failed to parse OpenAI response")
        end
    end.

(** [LLMDecider.decide].  [str(err)] of a backend exception is its
    message. *)
Definition decide (env : ModelEnv) (payload : Payload.t)
           (prefer_model : option string) : result VisualizationDecision.t :=
  let model_name :=
    match prefer_model with
    | Some m => if truthy_str m then m else openai_model_fast env
    | None => openai_model_fast env
    end in
  match call_openai env model_name payload with
  | Err (ModelDecisionFailedError msg) =>
      fallback <- LLMDecider.fallback_decision payload msg ;;
      match fallback with
      | Some d => Ok d
      | None => raise (ModelDecisionFailedError msg)
      end
  | Err e => raise e
  | Ok response =>
      match model_validate env response with
      | Some d => Ok d
      | None => raise (SchemaValidationFailedError "Invalid decision")
      end
  end.

End LLMCall.

(* ================================================================== *)
(** * Reference definitions used by the statements below *)

(** ** Composer *)

(** The five optional entries of an encoded channel, in emission order. *)
Definition field_entry (c : Channel.t) : pydict :=
  match Channel.field c with
  | Some (String a s) => [("field", JStr (String a s))]
  | _ => []
  end.

Definition type_entry (c : Channel.t) : pydict :=
  match Channel.type c with
  | Some t => [("type", JStr (SemanticType.value t))]
  | None => []
  end.

Definition aggregate_entry (c : Channel.t) : pydict :=
  match Channel.aggregate c with
  | Some a => [("aggregate", JStr (AggregateOp.value a))]
  | None => []
  end.

Definition time_unit_entry (c : Channel.t) : pydict :=
  match Channel.time_unit c with
  | Some u => [("timeUnit", JStr (TimeUnit.value u))]
  | None => []
  end.

Definition bin_entry (c : Channel.t) : pydict :=
  match Channel.bin c with
  | Some (ChannelBin.flag true) => [("bin", JBool true)]
  | Some (ChannelBin.param p) => [("bin", JDict (Composer.bin_param_dict p))]
  | _ => []
  end.

(** The channel of an encoding that the composer reads for an output key. *)
Definition channel_of (enc : Encoding.t) (k : string) : option Channel.t :=
  if String.eqb "x" k then Encoding.x enc
  else if String.eqb "y" k then Encoding.y enc
  else if String.eqb "color" k then Encoding.color enc
  else if String.eqb "size" k then Encoding.size enc
  else if String.eqb "shape" k then Encoding.shape enc
  else None.

Definition channel_entry (k : string) (o : option Channel.t) : pydict :=
  match o with
  | Some c => [(k, JDict (Composer.encode_channel c))]
  | None => []
  end.

(** ** Fallback *)

(** The type signal of a column: its type name in lower case, the empty
    string when the column has none. *)
Definition type_signal (c : Payload.column) : string :=
  lower (match Payload.type c with Some s => s | None => "" end).

Definition count_signal (ty : string) (signals : list string) : nat :=
  count_occ string_dec signals ty.

(** The rule table of the fallback, on type signals alone: the first rule
    whose condition holds gives the chart type. *)
Definition rule_chart (signals : list string) : option ChartType.t :=
  let t := count_signal "temporal" signals in
  let q := count_signal "quantitative" signals in
  let n := count_signal "nominal" signals in
  if (1 <=? t)%nat && (1 <=? q)%nat then Some ChartType.line
  else if (1 <=? n)%nat && (1 <=? q)%nat then Some ChartType.bar
  else if (2 <=? q)%nat then Some ChartType.scatter
  else if (q =? 1)%nat then Some ChartType.histogram
  else None.

(** Name of the [k]-th column (from 0) whose type signal is [ty]. *)
Fixpoint nth_of_type (ty : string) (k : nat) (cols : list Payload.column)
  : option string :=
  match cols with
  | [] => None
  | c :: cols' =>
      if String.eqb (type_signal c) ty
      then match k with
           | O => Some (Payload.name c)
           | S k' => nth_of_type ty k' cols'
           end
      else nth_of_type ty k cols'
  end.

(** ** Executor *)

(** The predicate a filter specification stands for, or the error that
    rejects it. *)
Definition filter_predicate (spec : FilterSpec.t) : result pl.Expr :=
  let c := pl.col (FilterSpec.field spec) in
  match FilterSpec.op spec with
  | FilterOp.eq => Ok (pl.cmp pl.op_eq c (FilterSpec.value spec))
  | FilterOp.ne => Ok (pl.cmp pl.op_ne c (FilterSpec.value spec))
  | FilterOp.gt => Ok (pl.cmp pl.op_gt c (FilterSpec.value spec))
  | FilterOp.gte => Ok (pl.cmp pl.op_ge c (FilterSpec.value spec))
  | FilterOp.lt => Ok (pl.cmp pl.op_lt c (FilterSpec.value spec))
  | FilterOp.lte => Ok (pl.cmp pl.op_le c (FilterSpec.value spec))
  | FilterOp.in_ => Ok (pl.is_in c (or_empty (FilterSpec.values spec)))
  | FilterOp.not_in => Ok (pl.invert (pl.is_in c (or_empty (FilterSpec.values spec))))
  | FilterOp.between =>
      match FilterSpec.values spec with
      | Some [a; b] => Ok (pl.is_between c a b)
      | _ => raise (InvalidRequestError "between filter expects two values")
      end
  | FilterOp.is_null => Ok (pl.is_null c)
  | FilterOp.is_not_null => Ok (pl.is_not_null c)
  | FilterOp.regex =>
      raise (InvalidRequestError "Unsupported filter operation: regex")
  end.

(** The column expression of a time-unit clause and of a bin clause. *)
Definition time_unit_expr (spec : TimeUnitSpec.t) : pl.Expr :=
  let f := TimeUnitSpec.field spec in
  let u := TimeUnitSpec.unit spec in
  pl.alias
    (pl.dt_truncate (pl.cast (pl.col f) pl.Datetime)
                    (TransformExecutor.time_unit_to_pl_duration u))
    (match u with
     | TimeUnit.auto => f
     | _ => f ++ ":" ++ TimeUnit.value u
     end).

Definition bin_expr (spec : BinSpec.t) : pl.Expr :=
  let c := pl.col (BinSpec.field spec) in
  match BinSpec.params spec with
  | None => pl.cut c (Some 10%Z)
  | Some p =>
      match BinParam.step p with
      | Some s =>
          if Qeq_bool s 0 then pl.cut c (BinParam.maxbins p)
          else pl.mul (pl.floor (pl.truediv c s)) s
      | None => pl.cut c (BinParam.maxbins p)
      end
  end.

(** The stages of an execution, each applied to a materialised table. *)
Section Stages.
Variable B : pl.Backend.

Definition stage_filter (specs : option (list FilterSpec.t)) (df : pl.DataFrame)
  : result pl.DataFrame :=
  for_each (fun df spec => e <- filter_predicate spec ;; pl.df_filter B df e)
           (or_empty specs) df.

Definition stage_time_unit (specs : option (list TimeUnitSpec.t))
           (df : pl.DataFrame) : result pl.DataFrame :=
  for_each (fun df spec => pl.df_with_columns B df (time_unit_expr spec))
           (or_empty specs) df.

Definition stage_bin (specs : option (list BinSpec.t)) (df : pl.DataFrame)
  : result pl.DataFrame :=
  for_each (fun df spec => pl.df_with_columns B df (bin_expr spec))
           (or_empty specs) df.

Definition stage_aggregate (specs : option (list AggregateSpec.t))
           (df : pl.DataFrame) : result pl.DataFrame :=
  for_each (fun df spec =>
              aggs <- TransformExecutor.aggregate_expressions
                        (AggregateSpec.measures spec) ;;
              pl.df_group_by_agg B df (map pl.col (AggregateSpec.groupby spec)) aggs)
           (or_empty specs) df.

Definition stage_limit (limit_rows : option Z) (df : pl.DataFrame)
  : result pl.DataFrame :=
  match limit_rows with
  | Some n => pl.df_limit df n
  | None => Ok df
  end.

(** The fixed order: request filters, clause filters, time units, bins,
    aggregates, row limit. *)
Definition staged_execute (fs : FileSystem) (settings : Settings)
           (path : string) (filters : option (list FilterSpec.t))
           (t : Transform.t) (limit_rows : option Z)
  : result (pl.DataFrame * TransformExecutor.meta) :=
  file_path <- validate_data_path fs settings path ;;
  lf <- TransformExecutor.read_lazy fs file_path ;;
  df <- pl.collect B lf ;;
  df <- stage_filter filters df ;;
  df <- stage_filter (Transform.filter t) df ;;
  df <- stage_time_unit (Transform.time_unit t) df ;;
  df <- stage_bin (Transform.bin t) df ;;
  df <- stage_aggregate (Transform.aggregate t) df ;;
  df <- stage_limit limit_rows df ;;
  Ok (df, TransformExecutor.mkMeta (pl.height df)
            (Z.of_nat (List.length (or_empty filters)))).
End Stages.

(** A plan-building step [m], started from the plan [lf], refines the eager
    step [g]: when it yields a plan, collecting that plan is collecting
    [lf] and then running [g]; when it raises, [g] fails on every table. *)
Definition refines (B : pl.Backend) (m : result pl.LazyFrame) (lf : pl.LazyFrame)
           (g : pl.DataFrame -> result pl.DataFrame) : Prop :=
  match m with
  | Ok lf' => pl.collect B lf' = bind (pl.collect B lf) g
  | Err _ => forall df r, g df <> Ok r
  end.

(** A filter specification the executor accepts. *)
Definition accepted (spec : FilterSpec.t) : Prop :=
  exists p, filter_predicate spec = Ok p.

(** The clauses of a decision; a decision without transform has none. *)
Definition clauses_of (decision : VisualizationDecision.t) : Transform.t :=
  match VisualizationDecision.transform decision with
  | Some t => t
  | None => Transform.mk None None None None None
  end.

(** [limit_rows] as request validation admits it: absent or at least 1. *)
Definition limit_rows_valid (limit_rows : option Z) : Prop :=
  match limit_rows with
  | Some n => (1 <= n)%Z
  | None => True
  end.

(** ** Between filters *)






(** A cell that can be compared with a bound. *)
Definition comparable (v w : scalar) : Prop :=
  exists c, pl.compare_scalar v w = Ok c.


(** The request of the sample data with a string as lower bound. *)
Definition between_from_column (name : string) (upper_bound : scalar) : FilterSpec.t :=
  FilterSpec.mk "level" FilterOp.between VNull (Some [VStr name; upper_bound]).

(** ** Time units *)

(** Start of the bucket of width [u] that holds the timestamp [us]
    (microseconds): second 1s, minute 1m, hour 1h, day 1d, week 1w from
    Monday, month, quarter (3 months), year.  [auto] buckets by day. *)
Definition bucket_start (u : TimeUnit.t) (us : Z) : Z :=
  match u with
  | TimeUnit.second => pl.truncate_every 1000000 us
  | TimeUnit.minute => pl.truncate_every 60000000 us
  | TimeUnit.hour => pl.truncate_every 3600000000 us
  | TimeUnit.day => pl.truncate_every 86400000000 us
  | TimeUnit.week => pl.truncate_week us
  | TimeUnit.month => pl.truncate_months 1 us
  | TimeUnit.quarter => pl.truncate_months 3 us
  | TimeUnit.year => pl.truncate_months 12 us
  | TimeUnit.auto => pl.truncate_every 86400000000 us
  end.

(** A cell that casts to a timestamp: a timestamp, an integer count of
    microseconds, or null. *)
Definition temporal_cell (v : scalar) : Prop :=
  match v with
  | VNull | VDatetime _ | VInt _ => True
  | _ => False
  end.

Definition bucket_cell (u : TimeUnit.t) (v : scalar) : scalar :=
  match v with
  | VDatetime us | VInt us => VDatetime (bucket_start u us)
  | _ => VNull
  end.

(** The column a time-unit clause writes. *)
Definition time_unit_alias (spec : TimeUnitSpec.t) : string :=
  match TimeUnitSpec.unit spec with
  | TimeUnit.auto => TimeUnitSpec.field spec
  | u => TimeUnitSpec.field spec ++ ":" ++ TimeUnit.value u
  end.

(** ** Sample data

    The data set of the end-to-end test: order dates and sales.  Every path
    names an existing regular csv file that holds the table; no directory
    restriction is configured; [cut] is never reached and returns its
    column. *)
Definition fs_sample : FileSystem :=
  mkFileSystem (fun p => p) (fun _ => true) (fun _ => false) (fun _ _ => true)
               (fun _ => ".csv").

Definition settings_sample : Settings := mkSettings None.

Definition backend_of (table : pl.DataFrame) : pl.Backend :=
  pl.mkBackend (fun _ _ => Ok table) (fun _ => Ok table) (fun _ => Ok table)
               (fun _ vs => Ok vs).

Definition sample_sales : pl.DataFrame :=
  pl.mkDataFrame ["order_date"; "sales"]
    [ [VStr "2024-01-01"; VInt 50];
      [VStr "2024-01-01"; VInt 120];
      [VStr "2024-01-02"; VInt 75];
      [VStr "2024-01-02"; VInt 95] ].

Definition decision_with (t : option Transform.t) : VisualizationDecision.t :=
  VisualizationDecision.mk
    (Chart.mk ChartType.bar (9 # 10) None) [] t
    (Encoding.mk None None None None None None None None)
    None "Bar chart compares sales by date." None.

Definition sum_sales_by_date : AggregateSpec.t :=
  AggregateSpec.mk ["order_date"]
    [AggregateMeasure.mk "sales" AggregateOp.sum (Some "sales_sum")].

Definition sales_above_90 : FilterSpec.t :=
  FilterSpec.mk "sales" FilterOp.gt (VInt 90) None.

(** Three measurements and two event times (01:30:00 on 1970-01-01 and
    one microsecond into 1970-01-02). *)
Definition sample_levels : pl.DataFrame :=
  pl.mkDataFrame ["level"] [ [VInt 1]; [VInt 5]; [VInt 10] ].

Definition sample_events : pl.DataFrame :=
  pl.mkDataFrame ["ts"] [ [VDatetime 5400000000]; [VDatetime 86400000001] ].


Definition decision_with_time_unit (u : TimeUnit.t) : VisualizationDecision.t :=
  decision_with
    (Some (Transform.mk None None (Some [TimeUnitSpec.mk "ts" u]) None None)).

Definition decision_with_derive : VisualizationDecision.t :=
  decision_with
    (Some (Transform.mk (Some [sum_sales_by_date]) None None
             (Some [DeriveSpec.mk "double" "sales * 2"])
             (Some [sales_above_90]))).

(** ** Further sample data *)

(** A file system whose files all carry the suffix [.XLSX]. *)
Definition fs_spreadsheet : FileSystem :=
  mkFileSystem (fun p => p) (fun _ => true) (fun _ => false) (fun _ _ => true)
               (fun _ => ".XLSX").

(** A file system that knows the file [/data/sales.csv] and the directory
    [/data], and in which a path lies under a root when the root is a
    prefix of it. *)
Definition fs_data : FileSystem :=
  mkFileSystem (fun p => p)
               (fun p => String.eqb p "/data/sales.csv" || String.eqb p "/data")
               (fun p => String.eqb p "/data")
               (fun p root => String.prefix root p)
               (fun _ => ".csv").

(** A decider without API key; its client and parsers are never reached. *)
Definition model_env_without_key : ModelEnv :=
  mkModelEnv None "gpt-5-mini"
             (fun _ _ => Some (OpenAI.mk_response (Some "{}") None))
             (fun _ => Some (JDict []))
             (fun _ => None).

(** The model a call of [decide] names: [prefer_model or openai_model_fast]. *)
Definition model_name_of (env : ModelEnv) (prefer_model : option string) : string :=
  match prefer_model with
  | Some m => if truthy_str m then m else openai_model_fast env
  | None => openai_model_fast env
  end.

(** ** Further reference definitions *)

(** Whether the comparison of a filter operator holds between a cell and
    the filter's value: false when either is null. *)
Definition comparison_holds (op : FilterOp.t) (v value : scalar) : bool :=
  match pl.compare_scalar v value with
  | Ok (Some c) =>
      match op, c with
      | FilterOp.eq, Eq => true
      | FilterOp.ne, (Lt | Gt) => true
      | FilterOp.gt, Gt => true
      | FilterOp.gte, (Gt | Eq) => true
      | FilterOp.lt, Lt => true
      | FilterOp.lte, (Lt | Eq) => true
      | _, _ => false
      end
  | _ => false
  end.

(** The six comparison operators. *)
Definition is_comparison (op : FilterOp.t) : bool :=
  match op with
  | FilterOp.eq | FilterOp.ne | FilterOp.gt | FilterOp.gte
  | FilterOp.lt | FilterOp.lte => true
  | _ => false
  end.

(** A validated granularity table written back as strings. *)
Definition granularity_strings (g : list (string * TimeUnit.t))
  : list (string * string) :=
  map (fun kv => (fst kv, TimeUnit.value (snd kv))) g.

(** The table of a result, the metadata dropped. *)
Definition table_of {A : Type} (r : result (pl.DataFrame * A)) : result pl.DataFrame :=
  match r with
  | Ok (df, _) => Ok df
  | Err e => Err e
  end.

(** The file suffixes the executor reads. *)
Definition supported_suffixes : list string :=
  [".csv"; ".tsv"; ".json"; ".ndjson"; ".parquet"].

(** The output column of a measure: its [as] name when that is a non-empty
    string, else field, underscore, operation. *)
Definition measure_alias (m : AggregateMeasure.t) : string :=
  match AggregateMeasure.as_ m with
  | Some (String c a) => String c a
  | _ => AggregateMeasure.field m ++ "_" ++ AggregateOp.value (AggregateMeasure.op m)
  end.

(** What [_apply_transforms] does after the clause filters. *)
Definition after_filters (t : Transform.t) (lf : pl.LazyFrame) : result pl.LazyFrame :=
  lf <- for_each TransformExecutor.derive_step (or_empty (Transform.derive t))
          (fold_left TransformExecutor.time_unit_step
                     (or_empty (Transform.time_unit t)) lf) ;;
  for_each TransformExecutor.apply_aggregate (or_empty (Transform.aggregate t))
           (fold_left TransformExecutor.apply_bin (or_empty (Transform.bin t)) lf).

(** The plan [execute] collects once the clauses are applied. *)
Definition limited (limit_rows : option Z) (lf : pl.LazyFrame) : pl.LazyFrame :=
  match limit_rows with
  | Some n => if truthy_Z n then pl.limit lf n else lf
  | None => lf
  end.

(** The plan [execute] builds before it collects anything. *)
Definition build_plan (fs : FileSystem) (settings : Settings) (path : string)
           (decision : VisualizationDecision.t)
           (filters : option (list FilterSpec.t)) (limit_rows : option Z)
  : result pl.LazyFrame :=
  file_path <- validate_data_path fs settings path ;;
  lf <- TransformExecutor.read_lazy fs file_path ;;
  lf <- TransformExecutor.apply_filters lf filters ;;
  lf <- TransformExecutor.apply_transforms lf decision ;;
  Ok (limited limit_rows lf).

(** A decision with the filter clause of its transform replaced. *)
Definition with_clause_filter (decision : VisualizationDecision.t)
           (specs : option (list FilterSpec.t)) : VisualizationDecision.t :=
  let t := clauses_of decision in
  VisualizationDecision.mk
    (VisualizationDecision.chart decision)
    (VisualizationDecision.fields decision)
    (Some (Transform.mk (Transform.aggregate t) (Transform.bin t)
                        (Transform.time_unit t) (Transform.derive t) specs))
    (VisualizationDecision.encoding decision)
    (VisualizationDecision.assumptions decision)
    (VisualizationDecision.justification decision)
    (VisualizationDecision.profile decision).

(** [l1] is [l2] with some elements left out, the order kept. *)
Inductive subseq {A : Type} : list A -> list A -> Prop :=
| subseq_nil : subseq [] []
| subseq_skip (x : A) (l1 l2 : list A) : subseq l1 l2 -> subseq l1 (x :: l2)
| subseq_keep (x : A) (l1 l2 : list A) : subseq l1 l2 -> subseq (x :: l1) (x :: l2).

(** A cell that holds a number or null. *)
Definition numeric_cell (v : scalar) : Prop :=
  match v with
  | VNull | VInt _ | VFloat _ => True
  | _ => False
  end.

(** [w] is the bin of the cell [v] for step [step]: null for null, and for
    a number [q] a multiple [k * step] with [k * step <= q < k * step + step]. *)
Definition step_bin_of (step : Q) (v w : scalar) : Prop :=
  match pl.as_Q v with
  | Some q =>
      exists k : Z,
        w = VFloat (inject_Z k * step)
        /\ inject_Z k * step <= q
        /\ q < inject_Z k * step + step
  | None => w = VNull
  end.

(** A cell that holds null or an integer of magnitude at most 2^31.  On
    such cells, with a whole step in the same range, the quotient, its
    floor and the product are the same numbers in double precision as in
    exact arithmetic. *)
Definition int32_cell (v : scalar) : Prop :=
  match v with
  | VNull => True
  | VInt z => (Z.abs z <= 2147483648)%Z
  | _ => False
  end.

(** The bin of an integer cell for the whole step [s]: the greatest
    multiple of [s] that is not above it. *)
Definition whole_step_bin (s : Z) (v : scalar) : scalar :=
  match v with
  | VInt z => VFloat (inject_Z (z / s * s))
  | _ => VNull
  end.

(** ** Requests whose plan the library builds *)

(** The executor's calls into the data frame library are kept in [pl] as
    the syntax of a plan, and writing syntax cannot fail.  Three of the
    calls can fail in the library as soon as they are made, before anything
    is collected: a membership test over values of several types, which
    are gathered in one typed series; [cut] with [bin_count], a parameter
    it does not have; and [limit] with a negative number of rows.  The
    statements about the errors of plan building are made for requests
    without them. *)
Definition scalar_kind (v : scalar) : nat :=
  match v with
  | VNull => 0
  | VBool _ => 1
  | VInt _ => 2
  | VFloat _ => 3
  | VStr _ => 4
  | VDatetime _ => 5
  end.

(** The values that are not null all have one type. *)
Definition single_typed (vs : list scalar) : bool :=
  match filter (fun v => negb (pl.null_cell v)) vs with
  | [] => true
  | v :: rest => forallb (fun w => Nat.eqb (scalar_kind w) (scalar_kind v)) rest
  end.

Definition membership_single_typed (spec : FilterSpec.t) : bool :=
  match FilterSpec.op spec with
  | FilterOp.in_ | FilterOp.not_in => single_typed (or_empty (FilterSpec.values spec))
  | _ => true
  end.

(** The executor's own test for step binning, [params and params.step]. *)
Definition has_step (spec : BinSpec.t) : bool :=
  match BinSpec.params spec with
  | Some p =>
      match BinParam.step p with
      | Some s => truthy_Q s
      | None => false
      end
  | None => false
  end.

Definition library_builds_plan (filters : option (list FilterSpec.t))
           (decision : VisualizationDecision.t) : Prop :=
  Forall (fun spec => membership_single_typed spec = true)
         (or_empty filters ++ or_empty (Transform.filter (clauses_of decision)))%list
  /\ Forall (fun spec => has_step spec = true)
            (or_empty (Transform.bin (clauses_of decision))).

Definition limit_not_negative (limit_rows : option Z) : Prop :=
  match limit_rows with
  | Some n => (0 <= n)%Z
  | None => True
  end.

(** A request of the sample data with every kind of clause the executor
    runs: a membership filter, a step bin and an aggregate. *)
Definition binned_sales_by_date : VisualizationDecision.t :=
  decision_with
    (Some (Transform.mk
             (Some [sum_sales_by_date])
             (Some [BinSpec.mk "sales" (Some (BinParam.mk None None (Some (inject_Z 50))))])
             None None
             (Some [FilterSpec.mk "sales" FilterOp.in_ VNull
                      (Some [VInt 50; VInt 120; VNull])]))).

(* ================================================================== *)
(** * Properties of the composer *)

Section ComposerFacts.

Lemma semantic_type_truthy (t : SemanticType.t) :
  truthy_str (SemanticType.value t) = true.
Proof. destruct t; reflexivity. Qed.

Lemma aggregate_op_truthy (a : AggregateOp.t) :
  truthy_str (AggregateOp.value a) = true.
Proof. destruct a; reflexivity. Qed.

Lemma time_unit_truthy (u : TimeUnit.t) :
  truthy_str (TimeUnit.value u) = true.
Proof. destruct u; reflexivity. Qed.

Lemma encode_channel_entries (c : Channel.t) :
  Composer.encode_channel c =
    (field_entry c ++ type_entry c ++ aggregate_entry c
       ++ time_unit_entry c ++ bin_entry c)%list.
Proof.
  destruct c as [f a u b t].
  unfold Composer.encode_channel, field_entry, type_entry, aggregate_entry,
    time_unit_entry, bin_entry; cbn [Channel.field Channel.type
    Channel.aggregate Channel.time_unit Channel.bin].
  destruct f as [[|ch s]|]; destruct t as [t|]; destruct a as [a|];
    destruct u as [u|]; destruct b as [[[|]|p]|];
    rewrite ?semantic_type_truthy, ?aggregate_op_truthy, ?time_unit_truthy;
    reflexivity.
Qed.

Lemma build_encoding_entries (d : VisualizationDecision.t) :
  Composer.build_encoding d =
    (let enc := VisualizationDecision.encoding d in
     channel_entry "x" (Encoding.x enc) ++ channel_entry "y" (Encoding.y enc)
       ++ channel_entry "color" (Encoding.color enc)
       ++ channel_entry "size" (Encoding.size enc)
       ++ channel_entry "shape" (Encoding.shape enc))%list.
Proof.
  unfold Composer.build_encoding.
  destruct (VisualizationDecision.encoding d) as [x y co si sh r cl o].
  cbn [Encoding.x Encoding.y Encoding.color Encoding.size Encoding.shape].
  destruct x, y, co, si, sh; reflexivity.
Qed.

Lemma build_encoding_get (d : VisualizationDecision.t) (k : string) :
  dict_get (Composer.build_encoding d) k =
    option_map (fun c => JDict (Composer.encode_channel c))
               (channel_of (VisualizationDecision.encoding d) k).
Proof.
  rewrite build_encoding_entries. unfold channel_of, channel_entry.
  destruct (VisualizationDecision.encoding d) as [x y co si sh r cl o].
  cbn [Encoding.x Encoding.y Encoding.color Encoding.size Encoding.shape].
  destruct x, y, co, si, sh;
    cbn [app dict_get Encoding.x Encoding.y Encoding.color Encoding.size Encoding.shape];
    destruct (String.eqb "x" k) eqn:Ex;
    destruct (String.eqb "y" k) eqn:Ey;
    destruct (String.eqb "color" k) eqn:Ec;
    destruct (String.eqb "size" k) eqn:Es;
    destruct (String.eqb "shape" k) eqn:Eh;
    try reflexivity;
    repeat match goal with
           | H : String.eqb _ k = true |- _ => apply String.eqb_eq in H
           end;
    congruence.
Qed.

Lemma build_encoding_keys (d : VisualizationDecision.t) :
  incl (dict_keys (Composer.build_encoding d)) ["x"; "y"; "color"; "size"; "shape"]
  /\ NoDup (dict_keys (Composer.build_encoding d)).
Proof.
  rewrite build_encoding_entries. unfold channel_entry.
  destruct (VisualizationDecision.encoding d) as [x y co si sh r cl o].
  cbn [Encoding.x Encoding.y Encoding.color Encoding.size Encoding.shape].
  destruct x, y, co, si, sh; cbn; split;
    try (intros k Hk; cbn in *; tauto);
    repeat constructor; cbn; intuition discriminate.
Qed.

Lemma encode_channel_keys (c : Channel.t) :
  incl (dict_keys (Composer.encode_channel c))
       ["field"; "type"; "aggregate"; "timeUnit"; "bin"]
  /\ NoDup (dict_keys (Composer.encode_channel c)).
Proof.
  rewrite encode_channel_entries.
  destruct c as [f a u b t].
  unfold field_entry, type_entry, aggregate_entry, time_unit_entry, bin_entry;
    cbn [Channel.field Channel.type Channel.aggregate Channel.time_unit Channel.bin].
  destruct f as [[|ch s]|]; destruct t as [t|]; destruct a as [a|];
    destruct u as [u|]; destruct b as [[[|]|p]|]; cbn; split;
    try (intros k Hk; cbn in *; tauto);
    repeat constructor; cbn; intuition discriminate.
Qed.

End ComposerFacts.

(** C6.  The mark of the composed specification: [stacked_bar] and
    [diverging_stacked_bar] become a bar mark with stacking [normal] and
    [normalize]; each of the eleven other chart types is emitted as its own
    name.  On an arbitrary mark name the mapping returns the name itself
    unless it is one of the two mapped names, so no name is rejected. *)
Theorem compose_mark_mapping :
  (forall (decision : VisualizationDecision.t) (data : list row_dict),
      dict_get (Composer.compose decision data) "mark" =
        Some (match Chart.type (VisualizationDecision.chart decision) with
              | ChartType.stacked_bar =>
                  JDict [("type", JStr "bar"); ("stack", JStr "normal")]
              | ChartType.diverging_stacked_bar =>
                  JDict [("type", JStr "bar"); ("stack", JStr "normalize")]
              | ChartType.bar => JStr "bar"
              | ChartType.column => JStr "column"
              | ChartType.line => JStr "line"
              | ChartType.area => JStr "area"
              | ChartType.scatter => JStr "scatter"
              | ChartType.histogram => JStr "histogram"
              | ChartType.boxplot => JStr "boxplot"
              | ChartType.pie => JStr "pie"
              | ChartType.heatmap => JStr "heatmap"
              | ChartType.hexbin => JStr "hexbin"
              | ChartType.geo_choropleth => JStr "geo_choropleth"
              end))
  /\ Composer.map_mark "stacked_bar"
     = JDict [("type", JStr "bar"); ("stack", JStr "normal")]
  /\ Composer.map_mark "diverging_stacked_bar"
     = JDict [("type", JStr "bar"); ("stack", JStr "normalize")]
  /\ (forall mark_type : string,
         mark_type = "stacked_bar" \/ mark_type = "diverging_stacked_bar"
         \/ Composer.map_mark mark_type = JStr mark_type).
Proof.
  split; [| split; [reflexivity | split; [reflexivity |]]].
  - intros decision data. unfold Composer.compose.
    cbn [dict_get String.eqb Ascii.eqb Bool.eqb].
    destruct (Chart.type (VisualizationDecision.chart decision)); reflexivity.
  - intros mark_type. unfold Composer.map_mark.
    destruct (String.eqb mark_type "stacked_bar") eqn:E1.
    + left. now apply String.eqb_eq.
    + destruct (String.eqb mark_type "diverging_stacked_bar") eqn:E2.
      * right; left. now apply String.eqb_eq.
      * right; right. reflexivity.
Qed.

(** C7.  [compose] is a total function of the decision and the rows.  The
    [encoding] object of its output holds, for each of the keys x, y,
    color, size and shape, the encoded channel when the decision has that
    channel and no entry when it has not, and it holds no other key.  An
    encoded channel holds [field], [type], [aggregate], [timeUnit] and
    [bin] only, each absent when its source member is absent; [bin: true]
    is emitted as [true] and a structured bin parameter as the object of
    its non-null members. *)
Theorem compose_encoding_channels :
  forall (decision : VisualizationDecision.t) (data : list row_dict),
    let enc := Composer.build_encoding decision in
    dict_get (Composer.compose decision data) "encoding" = Some (JDict enc)
    /\ (forall k : string,
           dict_get enc k =
             option_map (fun c => JDict (Composer.encode_channel c))
                        (channel_of (VisualizationDecision.encoding decision) k))
    /\ incl (dict_keys enc) ["x"; "y"; "color"; "size"; "shape"]
    /\ NoDup (dict_keys enc)
    /\ (forall c : Channel.t,
           let spec := Composer.encode_channel c in
           incl (dict_keys spec) ["field"; "type"; "aggregate"; "timeUnit"; "bin"]
           /\ NoDup (dict_keys spec)
           /\ dict_get spec "field" =
                match Channel.field c with
                | Some f => if truthy_str f then Some (JStr f) else None
                | None => None
                end
           /\ dict_get spec "type" =
                option_map (fun t => JStr (SemanticType.value t)) (Channel.type c)
           /\ dict_get spec "aggregate" =
                option_map (fun a => JStr (AggregateOp.value a)) (Channel.aggregate c)
           /\ dict_get spec "timeUnit" =
                option_map (fun u => JStr (TimeUnit.value u)) (Channel.time_unit c)
           /\ dict_get spec "bin" =
                match Channel.bin c with
                | None => None
                | Some (ChannelBin.flag false) => None
                | Some (ChannelBin.flag true) => Some (JBool true)
                | Some (ChannelBin.param p) =>
                    Some (JDict (Composer.bin_param_dict p))
                end)
    /\ (forall p : BinParam.t,
           let flat := Composer.bin_param_dict p in
           dict_get flat "strategy" = option_map JStr (BinParam.strategy p)
           /\ dict_get flat "maxbins" = option_map JInt (BinParam.maxbins p)
           /\ dict_get flat "step" = option_map JFloat (BinParam.step p)
           /\ incl (dict_keys flat) ["strategy"; "maxbins"; "step"]).
Proof.
  intros decision data enc.
  split; [reflexivity |].
  split; [intros k; apply build_encoding_get |].
  split; [apply build_encoding_keys |].
  split; [apply build_encoding_keys |].
  split.
  - intros c spec.
    split; [apply encode_channel_keys |].
    split; [apply encode_channel_keys |].
    subst spec. rewrite encode_channel_entries.
    destruct c as [f a u b t].
    unfold field_entry, type_entry, aggregate_entry, time_unit_entry, bin_entry;
      cbn [Channel.field Channel.type Channel.aggregate Channel.time_unit Channel.bin].
    destruct f as [[|ch s]|]; destruct t as [t|]; destruct a as [a|];
      destruct u as [u|]; destruct b as [[[|]|p]|];
      repeat split; reflexivity.
  - intros p flat. subst flat. unfold Composer.bin_param_dict.
    destruct p as [[s|] [m|] [q|]]; cbn;
      repeat split; try reflexivity; intros k Hk; cbn in *; tauto.
Qed.

(* ================================================================== *)
(** * Properties of the fallback decision *)

Section FallbackFacts.

Lemma cols_of_type_filter (cols : list Payload.column) (ty : string) :
  LLMDecider.cols_of_type cols ty =
    filter (fun c => String.eqb (type_signal c) ty) cols.
Proof.
  unfold LLMDecider.cols_of_type, type_signal.
  apply filter_ext. intros c.
  destruct (Payload.type c) as [[|a s]|]; reflexivity.
Qed.

Lemma count_signal_length (cols : list Payload.column) (ty : string) :
  count_signal ty (map type_signal cols) =
    List.length (LLMDecider.cols_of_type cols ty).
Proof.
  rewrite cols_of_type_filter. unfold count_signal.
  induction cols as [|c cols IH]; [reflexivity |].
  cbn [map count_occ filter].
  destruct (string_dec (type_signal c) ty) as [E|E].
  - rewrite (proj2 (String.eqb_eq _ _) E). cbn [List.length]. now rewrite IH.
  - rewrite (proj2 (String.eqb_neq _ _) E). exact IH.
Qed.

Lemma nth_of_type_nth_error (cols : list Payload.column) (ty : string) (k : nat) :
  nth_of_type ty k cols =
    nth_error (map Payload.name (LLMDecider.cols_of_type cols ty)) k.
Proof.
  rewrite cols_of_type_filter. revert k.
  induction cols as [|c cols IH]; intros k.
  - destruct k; reflexivity.
  - cbn [nth_of_type filter].
    destruct (String.eqb (type_signal c) ty).
    + destruct k; [reflexivity | apply IH].
    + apply IH.
Qed.

(** What [choose] leaves undecided is decided by the three filtered
    column lists alone. *)
Lemma choose_chart (cols : list Payload.column) :
  option_map (fun d => Chart.type (LLMDecider.d_chart d)) (LLMDecider.choose cols)
  = rule_chart (map type_signal cols).
Proof.
  unfold rule_chart. rewrite !count_signal_length. unfold LLMDecider.choose.
  destruct (LLMDecider.cols_of_type cols "temporal") as [|t T];
    destruct (LLMDecider.cols_of_type cols "quantitative") as [|q [|q' Q]];
    destruct (LLMDecider.cols_of_type cols "nominal") as [|n N];
    reflexivity.
Qed.

End FallbackFacts.

(** C5.  The fallback decision is decided by the type signals of the
    columns (type names compared in lower case): the chart type of the
    result is the one the rule table [rule_chart] gives for the signals, and
    the result is null exactly when no rule applies.  Rule by rule: a
    temporal and a quantitative column give a line chart with x the first
    temporal column and y the first quantitative column summed; else a
    nominal and a quantitative column give a bar chart; else two or more
    quantitative columns give a scatter of the first two; else one
    quantitative column gives a histogram, x binned and y counted.  Every
    decision returned has score 0.3 and an assumption that ends with the
    reason string.  The call fails only when a rule applies and the profile
    carried by the payload does not validate. *)
Theorem fallback_decision_rules :
  forall (payload : Payload.t) (reason : string),
    let cols := or_empty (Payload.columns payload) in
    let signals := map type_signal cols in
    match LLMDecider.fallback_decision payload reason with
    | Ok None => rule_chart signals = None
    | Ok (Some d) =>
        let enc := VisualizationDecision.encoding d in
        let quantitative k := nth_of_type "quantitative" k cols in
        rule_chart signals = Some (Chart.type (VisualizationDecision.chart d))
        /\ Chart.score (VisualizationDecision.chart d) = 3 # 10
        /\ In ("Reason: " ++ reason)
              (or_empty (VisualizationDecision.assumptions d))
        /\ match Chart.type (VisualizationDecision.chart d) with
           | ChartType.line =>
               nth_of_type "temporal" 0 cols <> None
               /\ quantitative 0%nat <> None
               /\ Encoding.x enc =
                    Some (Channel.mk (nth_of_type "temporal" 0 cols) None None None
                            (Some SemanticType.temporal))
               /\ Encoding.y enc =
                    Some (Channel.mk (quantitative 0%nat) (Some AggregateOp.sum)
                            None None (Some SemanticType.quantitative))
           | ChartType.bar =>
               nth_of_type "nominal" 0 cols <> None
               /\ quantitative 0%nat <> None
               /\ Encoding.x enc =
                    Some (Channel.mk (nth_of_type "nominal" 0 cols) None None None
                            (Some SemanticType.nominal))
               /\ Encoding.y enc =
                    Some (Channel.mk (quantitative 0%nat) (Some AggregateOp.sum)
                            None None (Some SemanticType.quantitative))
           | ChartType.scatter =>
               quantitative 0%nat <> None
               /\ quantitative 1%nat <> None
               /\ Encoding.x enc =
                    Some (Channel.mk (quantitative 0%nat) None None None
                            (Some SemanticType.quantitative))
               /\ Encoding.y enc =
                    Some (Channel.mk (quantitative 1%nat) None None None
                            (Some SemanticType.quantitative))
           | ChartType.histogram =>
               quantitative 0%nat <> None
               /\ Encoding.x enc =
                    Some (Channel.mk (quantitative 0%nat) None None
                            (Some (ChannelBin.flag true))
                            (Some SemanticType.quantitative))
               /\ Encoding.y enc =
                    Some (Channel.mk (quantitative 0%nat) (Some AggregateOp.count)
                            None None (Some SemanticType.quantitative))
           | _ => False
           end
    | Err e =>
        rule_chart signals <> None
        /\ exists p, Payload.payload_profile payload = Some p
                     /\ LLMDecider.validate_profile p = Err e
    end.
Proof.
  intros payload reason cols signals.
  subst signals. rewrite <- choose_chart.
  unfold LLMDecider.fallback_decision. fold cols.
  assert (Hd : forall d,
             LLMDecider.choose cols = Some d ->
             match Chart.type (LLMDecider.d_chart d) with
             | ChartType.line =>
                 nth_of_type "temporal" 0 cols <> None
                 /\ nth_of_type "quantitative" 0 cols <> None
                 /\ LLMDecider.d_x d =
                      Channel.mk (nth_of_type "temporal" 0 cols) None None None
                        (Some SemanticType.temporal)
                 /\ LLMDecider.d_y d =
                      Channel.mk (nth_of_type "quantitative" 0 cols)
                        (Some AggregateOp.sum) None None
                        (Some SemanticType.quantitative)
             | ChartType.bar =>
                 nth_of_type "nominal" 0 cols <> None
                 /\ nth_of_type "quantitative" 0 cols <> None
                 /\ LLMDecider.d_x d =
                      Channel.mk (nth_of_type "nominal" 0 cols) None None None
                        (Some SemanticType.nominal)
                 /\ LLMDecider.d_y d =
                      Channel.mk (nth_of_type "quantitative" 0 cols)
                        (Some AggregateOp.sum) None None
                        (Some SemanticType.quantitative)
             | ChartType.scatter =>
                 nth_of_type "quantitative" 0 cols <> None
                 /\ nth_of_type "quantitative" 1 cols <> None
                 /\ LLMDecider.d_x d =
                      Channel.mk (nth_of_type "quantitative" 0 cols) None None None
                        (Some SemanticType.quantitative)
                 /\ LLMDecider.d_y d =
                      Channel.mk (nth_of_type "quantitative" 1 cols) None None None
                        (Some SemanticType.quantitative)
             | ChartType.histogram =>
                 nth_of_type "quantitative" 0 cols <> None
                 /\ LLMDecider.d_x d =
                      Channel.mk (nth_of_type "quantitative" 0 cols) None None
                        (Some (ChannelBin.flag true))
                        (Some SemanticType.quantitative)
                 /\ LLMDecider.d_y d =
                      Channel.mk (nth_of_type "quantitative" 0 cols)
                        (Some AggregateOp.count) None None
                        (Some SemanticType.quantitative)
             | _ => False
             end /\ Chart.score (LLMDecider.d_chart d) = 3 # 10).
  { intros d. rewrite !nth_of_type_nth_error. unfold LLMDecider.choose.
    destruct (LLMDecider.cols_of_type cols "temporal") as [|t T];
      destruct (LLMDecider.cols_of_type cols "quantitative") as [|q [|q' Q]];
      destruct (LLMDecider.cols_of_type cols "nominal") as [|n N];
      intros H; inversion H; subst d; cbn;
      repeat split; try discriminate; reflexivity. }
  destruct (LLMDecider.choose cols) as [d|] eqn:Hc; cbn [option_map].
  - specialize (Hd d eq_refl). destruct Hd as [Hshape Hscore].
    destruct (Payload.payload_profile payload) as [p|] eqn:Hp.
    + destruct (LLMDecider.validate_profile p) as [p'|e] eqn:Hv; cbn.
      * split; [reflexivity |]. split; [exact Hscore |].
        split; [right; left; reflexivity |].
        destruct (Chart.type (LLMDecider.d_chart d)); try exact Hshape;
          intuition congruence.
      * split; [discriminate |]. exists p. split; [reflexivity | exact Hv].
    + cbn. split; [reflexivity |]. split; [exact Hscore |].
      split; [right; left; reflexivity |].
      destruct (Chart.type (LLMDecider.d_chart d)); try exact Hshape;
        intuition congruence.
  - reflexivity.
Qed.

(* ================================================================== *)
(** * Properties of the executor *)

Section MonadFacts.
Context {A B C : Type}.

Lemma bind_ok_r (m : result A) : bind m Ok = m.
Proof. destruct m; reflexivity. Qed.

Lemma bind_assoc (m : result A) (k : A -> result B) (h : B -> result C) :
  bind (bind m k) h = bind m (fun a => bind (k a) h).
Proof. destruct m; reflexivity. Qed.

Lemma bind_ok_inv (m : result A) (k : A -> result B) (b : B) :
  bind m k = Ok b -> exists a, m = Ok a /\ k a = Ok b.
Proof. destruct m as [a|e]; cbn; [eauto | discriminate]. Qed.
End MonadFacts.

Lemma bind_ext {A B : Type} (m : result A) (k k' : A -> result B) :
  (forall a, k a = k' a) -> bind m k = bind m k'.
Proof. intros H. destruct m; cbn; [apply H | reflexivity]. Qed.

Lemma for_each_pure {A S : Type} (f : S -> A -> S) (xs : list A) (s : S) :
  for_each (fun s x => Ok (f s x)) xs s = Ok (fold_left f xs s).
Proof.
  revert s. induction xs as [|x xs IH]; intros s; [reflexivity |].
  cbn. apply IH.
Qed.

Section Refinement.
Variable B : pl.Backend.

Lemma refines_ret (lf : pl.LazyFrame) : refines B (Ok lf) lf Ok.
Proof. unfold refines. now rewrite bind_ok_r. Qed.

Lemma refines_bind (m : result pl.LazyFrame) (lf : pl.LazyFrame)
      (k : pl.LazyFrame -> result pl.LazyFrame)
      (g h : pl.DataFrame -> result pl.DataFrame) :
  refines B m lf g ->
  (forall lf', refines B (k lf') lf' h) ->
  refines B (bind m k) lf (fun df => bind (g df) h).
Proof.
  unfold refines. intros Hm Hk. destruct m as [lf'|e]; cbn.
  - specialize (Hk lf'). destruct (k lf') as [lf''|e'].
    + rewrite Hk, Hm. apply bind_assoc.
    + intros df r H. apply bind_ok_inv in H. destruct H as (df' & _ & H).
      exact (Hk _ _ H).
  - intros df r H. apply bind_ok_inv in H. destruct H as (df' & H & _).
    exact (Hm _ _ H).
Qed.

Lemma refines_for_each {A : Type}
      (body : pl.LazyFrame -> A -> result pl.LazyFrame)
      (eager : pl.DataFrame -> A -> result pl.DataFrame) (xs : list A) :
  (forall lf x, refines B (body lf x) lf (fun df => eager df x)) ->
  forall lf, refines B (for_each body xs lf) lf (for_each eager xs).
Proof.
  intros Hstep. induction xs as [|x xs IH]; intros lf.
  - apply refines_ret.
  - cbn [for_each].
    exact (refines_bind _ lf _ (fun df => eager df x) _ (Hstep lf x) IH).
Qed.

Lemma filter_step_predicate (lf : pl.LazyFrame) (spec : FilterSpec.t) :
  TransformExecutor.filter_step lf spec =
    bind (filter_predicate spec) (fun e => Ok (pl.filter lf e)).
Proof.
  unfold TransformExecutor.filter_step, filter_predicate.
  destruct spec as [f o v vs]; cbn.
  destruct o; try reflexivity.
  destruct vs as [[|a [|b [|c vs]]]|]; reflexivity.
Qed.

Lemma time_unit_step_expr (lf : pl.LazyFrame) (spec : TimeUnitSpec.t) :
  TransformExecutor.time_unit_step lf spec = pl.with_columns lf (time_unit_expr spec).
Proof. destruct spec as [f u]; destruct u; reflexivity. Qed.

Lemma apply_bin_expr (lf : pl.LazyFrame) (spec : BinSpec.t) :
  TransformExecutor.apply_bin lf spec = pl.with_columns lf (bin_expr spec).
Proof.
  unfold TransformExecutor.apply_bin, bin_expr, TransformExecutor.bin_count_arg, truthy_Q.
  destruct spec as [f [[st mb [q|]]|]]; cbn; try reflexivity.
  destruct (Qeq_bool q 0); reflexivity.
Qed.

Lemma refines_filter_step (lf : pl.LazyFrame) (spec : FilterSpec.t) :
  refines B (TransformExecutor.filter_step lf spec) lf
          (fun df => bind (filter_predicate spec) (fun e => pl.df_filter B df e)).
Proof.
  rewrite filter_step_predicate. unfold refines.
  destruct (filter_predicate spec) as [e|err]; cbn; [reflexivity | discriminate].
Qed.

Lemma refines_apply_aggregate (lf : pl.LazyFrame) (spec : AggregateSpec.t) :
  refines B (TransformExecutor.apply_aggregate lf spec) lf
          (fun df =>
             bind (TransformExecutor.aggregate_expressions (AggregateSpec.measures spec))
                  (fun aggs =>
                     pl.df_group_by_agg B df (map pl.col (AggregateSpec.groupby spec)) aggs)).
Proof.
  unfold TransformExecutor.apply_aggregate, refines.
  destruct (TransformExecutor.aggregate_expressions (AggregateSpec.measures spec));
    cbn; [reflexivity | discriminate].
Qed.

Lemma refines_apply_filters (lf : pl.LazyFrame) (filters : option (list FilterSpec.t)) :
  refines B (TransformExecutor.apply_filters lf filters) lf (stage_filter B filters).
Proof.
  unfold TransformExecutor.apply_filters, stage_filter.
  replace (if negb (truthy_opt_list filters) then Ok lf
           else for_each TransformExecutor.filter_step (or_empty filters) lf)
    with (for_each TransformExecutor.filter_step (or_empty filters) lf)
    by (destruct filters as [[|x xs]|]; reflexivity).
  apply (refines_for_each TransformExecutor.filter_step
           (fun df spec => bind (filter_predicate spec) (fun e => pl.df_filter B df e))).
  apply refines_filter_step.
Qed.

Lemma refines_time_units (lf : pl.LazyFrame) (specs : option (list TimeUnitSpec.t)) :
  refines B (Ok (fold_left TransformExecutor.time_unit_step (or_empty specs) lf)) lf
          (stage_time_unit B specs).
Proof.
  rewrite <- for_each_pure. unfold stage_time_unit.
  apply (refines_for_each (fun lf x => Ok (TransformExecutor.time_unit_step lf x))
           (fun df spec => pl.df_with_columns B df (time_unit_expr spec))).
  intros lf' x. rewrite time_unit_step_expr. reflexivity.
Qed.

Lemma refines_bins (lf : pl.LazyFrame) (specs : option (list BinSpec.t)) :
  refines B (Ok (fold_left TransformExecutor.apply_bin (or_empty specs) lf)) lf
          (stage_bin B specs).
Proof.
  rewrite <- for_each_pure. unfold stage_bin.
  apply (refines_for_each (fun lf x => Ok (TransformExecutor.apply_bin lf x))
           (fun df spec => pl.df_with_columns B df (bin_expr spec))).
  intros lf' x. rewrite apply_bin_expr. reflexivity.
Qed.

Lemma refines_aggregates (lf : pl.LazyFrame) (specs : option (list AggregateSpec.t)) :
  refines B (for_each TransformExecutor.apply_aggregate (or_empty specs) lf) lf
          (stage_aggregate B specs).
Proof.
  unfold stage_aggregate.
  apply (refines_for_each TransformExecutor.apply_aggregate
           (fun df spec =>
              bind (TransformExecutor.aggregate_expressions (AggregateSpec.measures spec))
                   (fun aggs =>
                      pl.df_group_by_agg B df (map pl.col (AggregateSpec.groupby spec)) aggs))).
  apply refines_apply_aggregate.
Qed.

End Refinement.

Section ExecuteOrder.
Variable B : pl.Backend.

Lemma refines_ext (m : result pl.LazyFrame) (lf : pl.LazyFrame)
      (g g' : pl.DataFrame -> result pl.DataFrame) :
  (forall df, g df = g' df) -> refines B m lf g -> refines B m lf g'.
Proof.
  unfold refines. intros E H. destruct m as [lf'|e].
  - rewrite H. now apply bind_ext.
  - intros df r. rewrite <- E. apply H.
Qed.

Lemma apply_transforms_derive_free (lf : pl.LazyFrame)
      (decision : VisualizationDecision.t) :
  or_empty (Transform.derive (clauses_of decision)) = [] ->
  let t := clauses_of decision in
  TransformExecutor.apply_transforms lf decision =
    bind (TransformExecutor.apply_filters lf (Transform.filter t))
         (fun lf1 =>
            for_each TransformExecutor.apply_aggregate
              (or_empty (Transform.aggregate t))
              (fold_left TransformExecutor.apply_bin (or_empty (Transform.bin t))
                 (fold_left TransformExecutor.time_unit_step
                    (or_empty (Transform.time_unit t)) lf1))).
Proof.
  unfold TransformExecutor.apply_transforms, clauses_of.
  destruct (VisualizationDecision.transform decision) as [t|]; [| reflexivity].
  intros Hd; cbv zeta.
  assert (E : (if truthy_opt_list (Transform.filter t)
               then TransformExecutor.apply_filters lf (Transform.filter t)
               else Ok lf)
              = TransformExecutor.apply_filters lf (Transform.filter t))
    by (destruct (Transform.filter t) as [[|x xs]|]; reflexivity).
  rewrite E.
  destruct (TransformExecutor.apply_filters lf (Transform.filter t)) as [lf1|e];
    cbn [bind]; [| reflexivity].
  destruct (Transform.derive t) as [[|d ds]|]; cbn in Hd; try discriminate;
    destruct (Transform.time_unit t) as [[|u us]|];
    destruct (Transform.bin t) as [[|b bs]|];
    destruct (Transform.aggregate t) as [[|a ags]|];
    cbn [truthy_opt_list or_empty bind]; try reflexivity; apply bind_ok_r.
Qed.

Lemma refines_apply_transforms (lf : pl.LazyFrame)
      (decision : VisualizationDecision.t) :
  or_empty (Transform.derive (clauses_of decision)) = [] ->
  let t := clauses_of decision in
  refines B (TransformExecutor.apply_transforms lf decision) lf
          (fun df =>
             df <- stage_filter B (Transform.filter t) df ;;
             df <- stage_time_unit B (Transform.time_unit t) df ;;
             df <- stage_bin B (Transform.bin t) df ;;
             stage_aggregate B (Transform.aggregate t) df).
Proof.
  intros Hd t. rewrite (apply_transforms_derive_free lf decision Hd). fold t.
  apply refines_bind; [apply refines_apply_filters |].
  intros lf1.
  pose proof (refines_bind B _ lf1
                (fun lf2 => Ok (fold_left TransformExecutor.apply_bin
                                  (or_empty (Transform.bin t)) lf2))
                _ (stage_bin B (Transform.bin t))
                (refines_time_units B lf1 (Transform.time_unit t))
                (fun lf2 => refines_bins B lf2 (Transform.bin t))) as H1.
  cbn [bind] in H1.
  pose proof (refines_bind B _ lf1
                (for_each TransformExecutor.apply_aggregate
                          (or_empty (Transform.aggregate t)))
                _ (stage_aggregate B (Transform.aggregate t))
                H1
                (fun lf3 => refines_aggregates B lf3 (Transform.aggregate t))) as H2.
  cbn [bind] in H2.
  eapply refines_ext; [| exact H2].
  intros df. cbv beta. apply bind_assoc.
Qed.

(** The plan [execute] collects, as a function of the scanned source. *)
Lemma execute_plan_refines (decision : VisualizationDecision.t)
      (filters : option (list FilterSpec.t)) (limit_rows : option Z)
      (lf0 : pl.LazyFrame) :
  or_empty (Transform.derive (clauses_of decision)) = [] ->
  limit_rows_valid limit_rows ->
  let t := clauses_of decision in
  refines B
    (lf1 <- TransformExecutor.apply_filters lf0 filters ;;
     lf2 <- TransformExecutor.apply_transforms lf1 decision ;;
     Ok (match limit_rows with
         | Some n => if truthy_Z n then pl.limit lf2 n else lf2
         | None => lf2
         end))
    lf0
    (fun df =>
       df <- stage_filter B filters df ;;
       df <- stage_filter B (Transform.filter t) df ;;
       df <- stage_time_unit B (Transform.time_unit t) df ;;
       df <- stage_bin B (Transform.bin t) df ;;
       df <- stage_aggregate B (Transform.aggregate t) df ;;
       stage_limit limit_rows df).
Proof.
  intros Hd Hl t.
  apply refines_bind; [apply refines_apply_filters |].
  intros lf1.
  assert (Hlim : forall lf2,
             refines B (Ok (match limit_rows with
                            | Some n => if truthy_Z n then pl.limit lf2 n else lf2
                            | None => lf2
                            end)) lf2 (stage_limit limit_rows)).
  { intros lf2. destruct limit_rows as [n|]; [| apply refines_ret].
    cbn in Hl. unfold truthy_Z.
    destruct (Z.eqb_spec n 0) as [E|E]; [lia |]. reflexivity. }
  pose proof (refines_bind B _ lf1 _ _ _
                (refines_apply_transforms lf1 decision Hd) Hlim) as H.
  eapply refines_ext; [| exact H].
  intros df. cbv beta. fold t.
  rewrite !bind_assoc. apply bind_ext; intros df1.
  rewrite !bind_assoc. apply bind_ext; intros df2.
  rewrite !bind_assoc. reflexivity.
Qed.

End ExecuteOrder.

Section PayloadOrder.

Lemma member_permutation {A : Type} (sel : Clause.t -> option A) (K : string) :
  (forall c a, sel c = Some a -> Clause.key c = K) ->
  forall l l',
    Permutation l l' -> NoDup (map Clause.key l) ->
    Clause.member sel l = Clause.member sel l'.
Proof.
  intros Hsel l l' HP. induction HP as [| x l l' HP IH | x y l | l l' l'' HP1 IH1 HP2 IH2];
    intros ND.
  - reflexivity.
  - cbn. destruct (sel x); [reflexivity |]. apply IH. now inversion ND.
  - cbn. destruct (sel y) as [a|] eqn:Ey, (sel x) as [b|] eqn:Ex; try reflexivity.
    exfalso. apply Hsel in Ey, Ex. cbn in ND. inversion ND as [| ? ? Hn _]; subst.
    apply Hn. left. congruence.
  - rewrite IH1 by assumption. apply IH2.
    eapply Permutation_NoDup; [| exact ND]. now apply Permutation_map.
Qed.

Lemma transform_of_payload_permutation (l l' : list Clause.t) :
  Permutation l l' -> NoDup (map Clause.key l) ->
  transform_of_payload l = transform_of_payload l'.
Proof.
  intros HP ND. unfold transform_of_payload.
  rewrite (member_permutation Clause.as_aggregate "aggregate") with (l' := l');
    [| intros [] a H; (discriminate || reflexivity) | assumption | assumption].
  rewrite (member_permutation Clause.as_bin "bin") with (l' := l');
    [| intros [] a H; (discriminate || reflexivity) | assumption | assumption].
  rewrite (member_permutation Clause.as_time_unit "time_unit") with (l' := l');
    [| intros [] a H; (discriminate || reflexivity) | assumption | assumption].
  rewrite (member_permutation Clause.as_derive "derive") with (l' := l');
    [| intros [] a H; (discriminate || reflexivity) | assumption | assumption].
  rewrite (member_permutation Clause.as_filter "filter") with (l' := l');
    [| intros [] a H; (discriminate || reflexivity) | assumption | assumption].
  reflexivity.
Qed.

End PayloadOrder.

(** C1.  Execution order.  (a) The members of a transform payload are read
    by key, so two payloads listing the same clauses in different orders
    give the same transform.  (b) For a decision without derive entries and
    a row limit that is absent or at least 1, [execute] succeeds with a
    result exactly when the staged pipeline does, with the same result:
    the scanned table goes through the request-level filters, then the
    clause filters, then the time units, then the bins, then the aggregates,
    and the row limit comes last.  In particular every filter predicate is
    evaluated on rows that no aggregate has touched. *)
Theorem execute_clause_order :
  (forall payload payload' : list Clause.t,
      Permutation payload payload' ->
      NoDup (map Clause.key payload) ->
      transform_of_payload payload = transform_of_payload payload')
  /\ (forall (fs : FileSystem) (settings : Settings) (B : pl.Backend)
             (path : string) (decision : VisualizationDecision.t)
             (filters : option (list FilterSpec.t)) (limit_rows : option Z)
             (r : pl.DataFrame * TransformExecutor.meta),
         or_empty (Transform.derive (clauses_of decision)) = [] ->
         limit_rows_valid limit_rows ->
         TransformExecutor.execute fs settings B path decision filters limit_rows
           = Ok r
         <-> staged_execute B fs settings path filters (clauses_of decision)
               limit_rows = Ok r).
Proof.
  split; [exact transform_of_payload_permutation |].
  intros fs settings B path decision filters limit_rows r Hd Hl.
  unfold TransformExecutor.execute, staged_execute.
  destruct (validate_data_path fs settings path) as [fp|e]; cbn [bind];
    [| split; discriminate].
  destruct (TransformExecutor.read_lazy fs fp) as [lf0|e]; cbn [bind];
    [| split; discriminate].
  pose proof (execute_plan_refines B decision filters limit_rows lf0 Hd Hl) as HR.
  cbv zeta in HR. unfold refines in HR.
  destruct (TransformExecutor.apply_filters lf0 filters) as [lf1|e1]; cbn [bind] in *.
  - destruct (TransformExecutor.apply_transforms lf1 decision) as [lf2|e2];
      cbn [bind] in *.
    + rewrite HR. rewrite !bind_assoc.
      destruct (pl.collect B lf0) as [df0|e0]; cbn [bind]; [| split; discriminate].
      rewrite !bind_assoc.
      destruct (stage_filter B filters df0) as [df1|]; cbn [bind]; [| tauto].
      rewrite !bind_assoc.
      destruct (stage_filter B (Transform.filter (clauses_of decision)) df1) as [df2|];
        cbn [bind]; [| tauto].
      rewrite !bind_assoc.
      destruct (stage_time_unit B (Transform.time_unit (clauses_of decision)) df2)
        as [df3|]; cbn [bind]; [| tauto].
      rewrite !bind_assoc.
      destruct (stage_bin B (Transform.bin (clauses_of decision)) df3) as [df4|];
        cbn [bind]; [| tauto].
      rewrite !bind_assoc.
      destruct (stage_aggregate B (Transform.aggregate (clauses_of decision)) df4)
        as [df5|]; cbn [bind]; tauto.
    + split; [discriminate |]. intros H. exfalso.
      destruct (pl.collect B lf0) as [df0|e0]; cbn [bind] in H; [| discriminate].
      destruct (stage_filter B filters df0) as [df1|] eqn:E1; cbn [bind] in H;
        [| discriminate].
      destruct (stage_filter B (Transform.filter (clauses_of decision)) df1)
        as [df2|] eqn:E2; cbn [bind] in H; [| discriminate].
      destruct (stage_time_unit B (Transform.time_unit (clauses_of decision)) df2)
        as [df3|] eqn:E3; cbn [bind] in H; [| discriminate].
      destruct (stage_bin B (Transform.bin (clauses_of decision)) df3)
        as [df4|] eqn:E4; cbn [bind] in H; [| discriminate].
      destruct (stage_aggregate B (Transform.aggregate (clauses_of decision)) df4)
        as [df5|] eqn:E5; cbn [bind] in H; [| discriminate].
      destruct (stage_limit limit_rows df5) as [df6|] eqn:E6; cbn [bind] in H;
        [| discriminate].
      apply (HR df0 df6). rewrite E1; cbn [bind]. rewrite E2; cbn [bind].
      rewrite E3; cbn [bind]. rewrite E4; cbn [bind]. rewrite E5; cbn [bind].
      exact E6.
  - split; [discriminate |]. intros H. exfalso.
    destruct (pl.collect B lf0) as [df0|e0]; cbn [bind] in H; [| discriminate].
    destruct (stage_filter B filters df0) as [df1|] eqn:E1; cbn [bind] in H;
      [| discriminate].
    destruct (stage_filter B (Transform.filter (clauses_of decision)) df1)
      as [df2|] eqn:E2; cbn [bind] in H; [| discriminate].
    destruct (stage_time_unit B (Transform.time_unit (clauses_of decision)) df2)
      as [df3|] eqn:E3; cbn [bind] in H; [| discriminate].
    destruct (stage_bin B (Transform.bin (clauses_of decision)) df3)
      as [df4|] eqn:E4; cbn [bind] in H; [| discriminate].
    destruct (stage_aggregate B (Transform.aggregate (clauses_of decision)) df4)
      as [df5|] eqn:E5; cbn [bind] in H; [| discriminate].
    destruct (stage_limit limit_rows df5) as [df6|] eqn:E6; cbn [bind] in H;
      [| discriminate].
    apply (HR df0 df6). rewrite E1; cbn [bind]. rewrite E2; cbn [bind].
    rewrite E3; cbn [bind]. rewrite E4; cbn [bind]. rewrite E5; cbn [bind].
    exact E6.
Qed.

(** The sample data through [execute]: the request filter [sales > 90] is
    applied to the four input rows and the sums are taken over the two rows
    it keeps; [sales] no longer exists after the aggregation, so the same
    predicate applied after it would fail. *)
Example filter_sees_pre_aggregation_rows :
  TransformExecutor.execute fs_sample settings_sample (backend_of sample_sales)
    "/tmp/sample_sales.csv"
    (decision_with (Some (Transform.mk (Some [sum_sales_by_date]) None None None None)))
    (Some [sales_above_90]) (Some 100%Z)
  = Ok (pl.mkDataFrame ["order_date"; "sales_sum"]
          [ [VStr "2024-01-01"; VInt 120]; [VStr "2024-01-02"; VInt 95] ],
        TransformExecutor.mkMeta 2 1)
  /\ (df <- pl.df_group_by_agg (backend_of sample_sales) sample_sales
             [pl.col "order_date"] [pl.alias (pl.sum (pl.col "sales")) "sales_sum"] ;;
      pl.df_filter (backend_of sample_sales) df
                   (pl.cmp pl.op_gt (pl.col "sales") (VInt 90)))
     = Err (PolarsError "ColumnNotFoundError: sales").
Proof. split; vm_compute; reflexivity. Qed.

Lemma execute_clause_order_witness :
  transform_of_payload
    [Clause.aggregate [sum_sales_by_date]; Clause.filter [sales_above_90]]
  = transform_of_payload
      [Clause.filter [sales_above_90]; Clause.aggregate [sum_sales_by_date]]
  /\ staged_execute (backend_of sample_sales) fs_sample settings_sample
       "/tmp/sample_sales.csv" None
       (transform_of_payload
          [Clause.aggregate [sum_sales_by_date]; Clause.filter [sales_above_90]])
       (Some 100%Z)
     = Ok (pl.mkDataFrame ["order_date"; "sales_sum"]
             [ [VStr "2024-01-01"; VInt 120]; [VStr "2024-01-02"; VInt 95] ],
           TransformExecutor.mkMeta 2 0).
Proof.
  split.
  - apply (proj1 execute_clause_order).
    + apply perm_swap.
    + repeat constructor; cbn; intuition discriminate.
  - apply (proj2 execute_clause_order fs_sample settings_sample
             (backend_of sample_sales) "/tmp/sample_sales.csv"
             (decision_with
                (Some (transform_of_payload
                         [Clause.aggregate [sum_sales_by_date];
                          Clause.filter [sales_above_90]])))
             None (Some 100%Z)).
    + reflexivity.
    + cbn. lia.
    + vm_compute. reflexivity.
Defined.

(* ================================================================== *)
(** * Rejected requests *)

Section Rejections.

Lemma validate_data_path_error (fs : FileSystem) (settings : Settings)
      (path : string) (e : error) :
  validate_data_path fs settings path = Err e -> is_invalid_request e = true.
Proof.
  unfold validate_data_path.
  destruct (negb (path_exists fs (expanduser fs path))); [intros [= <-]; reflexivity |].
  destruct (path_is_dir fs (expanduser fs path)); [intros [= <-]; reflexivity |].
  destruct (truthy_opt_list (allowed_data_roots settings)); [| discriminate].
  destruct (existsb _ _); [discriminate | intros [= <-]; reflexivity].
Qed.

Lemma read_lazy_error (fs : FileSystem) (path : string) (e : error) :
  TransformExecutor.read_lazy fs path = Err e -> is_invalid_request e = true.
Proof.
  unfold TransformExecutor.read_lazy.
  repeat match goal with
         | |- context [if ?b then _ else _] => destruct b; try discriminate
         end.
  intros [= <-]. reflexivity.
Qed.

Lemma filter_predicate_error (spec : FilterSpec.t) (e : error) :
  filter_predicate spec = Err e -> is_invalid_request e = true.
Proof.
  unfold filter_predicate.
  destruct (FilterSpec.op spec); try discriminate.
  - destruct (FilterSpec.values spec) as [[|a [|b [|c vs]]]|];
      try discriminate; intros [= <-]; reflexivity.
  - intros [= <-]; reflexivity.
Qed.

Lemma filter_loop_error (specs : list FilterSpec.t) (lf : pl.LazyFrame) (e : error) :
  for_each TransformExecutor.filter_step specs lf = Err e ->
  is_invalid_request e = true.
Proof.
  revert lf. induction specs as [|s specs IH]; intros lf; [discriminate |].
  cbn [for_each]. rewrite filter_step_predicate.
  destruct (filter_predicate s) as [p|e'] eqn:Ep; cbn [bind].
  - apply IH.
  - intros [= <-]. exact (filter_predicate_error _ _ Ep).
Qed.

Lemma apply_filters_error (filters : option (list FilterSpec.t))
      (lf : pl.LazyFrame) (e : error) :
  TransformExecutor.apply_filters lf filters = Err e -> is_invalid_request e = true.
Proof.
  unfold TransformExecutor.apply_filters.
  destruct (negb (truthy_opt_list filters)); [discriminate |].
  apply filter_loop_error.
Qed.

(** A loop over a list that holds a rejected filter does not complete. *)
Lemma filter_loop_rejects (specs : list FilterSpec.t) (spec : FilterSpec.t)
      (e0 : error) (lf : pl.LazyFrame) :
  In spec specs -> filter_predicate spec = Err e0 ->
  exists e, for_each TransformExecutor.filter_step specs lf = Err e.
Proof.
  intros Hin Hrej. revert lf. induction specs as [|s specs IH]; intros lf;
    [contradiction |].
  cbn [for_each]. rewrite filter_step_predicate.
  destruct Hin as [-> | Hin].
  - rewrite Hrej. cbn. eauto.
  - destruct (filter_predicate s); cbn [bind]; [apply IH; assumption | eauto].
Qed.

Lemma apply_filters_rejects (filters : option (list FilterSpec.t))
      (spec : FilterSpec.t) (e0 : error) (lf : pl.LazyFrame) :
  In spec (or_empty filters) -> filter_predicate spec = Err e0 ->
  exists m, TransformExecutor.apply_filters lf filters = Err (InvalidRequestError m).
Proof.
  intros Hin Hrej.
  assert (exists e, TransformExecutor.apply_filters lf filters = Err e) as [e He].
  { unfold TransformExecutor.apply_filters.
    destruct filters as [[|s specs]|]; try contradiction.
    cbn [truthy_opt_list negb or_empty] in *.
    eapply filter_loop_rejects; eassumption. }
  pose proof (apply_filters_error _ _ _ He) as Hc.
  destruct e; try discriminate. eauto.
Qed.

(** The first rejected filter of a list decides the error. *)
Lemma apply_filters_first_rejected (pre post : list FilterSpec.t)
      (spec : FilterSpec.t) (e0 : error) (lf : pl.LazyFrame) :
  Forall (fun s => exists p, filter_predicate s = Ok p) pre ->
  filter_predicate spec = Err e0 ->
  TransformExecutor.apply_filters lf (Some (pre ++ spec :: post)%list) = Err e0.
Proof.
  intros Hpre Hrej. unfold TransformExecutor.apply_filters.
  replace (negb (truthy_opt_list (Some (pre ++ spec :: post)%list))) with false
    by (destruct pre; reflexivity).
  cbn [or_empty]. revert lf.
  induction Hpre as [| s pre [p Hp] _ IH]; intros lf; cbn [app for_each];
    rewrite filter_step_predicate.
  - rewrite Hrej. reflexivity.
  - rewrite Hp. cbn [bind]. apply IH.
Qed.

(** Where [execute] stops when a filter of the request or of the
    transform is rejected. *)
Lemma execute_rejects_filter (fs : FileSystem) (settings : Settings)
      (B : pl.Backend) (path : string) (decision : VisualizationDecision.t)
      (filters : option (list FilterSpec.t)) (limit_rows : option Z)
      (spec : FilterSpec.t) (e0 : error) :
  filter_predicate spec = Err e0 ->
  In spec (or_empty filters)
  \/ In spec (or_empty (Transform.filter (clauses_of decision))) ->
  exists m,
    TransformExecutor.execute fs settings B path decision filters limit_rows
    = Err (InvalidRequestError m).
Proof.
  intros Hrej Hin. unfold TransformExecutor.execute.
  destruct (validate_data_path fs settings path) as [fp|e] eqn:Ev; cbn [bind].
  2:{ apply validate_data_path_error in Ev. destruct e; try discriminate. eauto. }
  destruct (TransformExecutor.read_lazy fs fp) as [lf0|e] eqn:Er; cbn [bind].
  2:{ apply read_lazy_error in Er. destruct e; try discriminate. eauto. }
  destruct (TransformExecutor.apply_filters lf0 filters) as [lf1|e] eqn:Ef; cbn [bind].
  2:{ apply apply_filters_error in Ef. destruct e; try discriminate. eauto. }
  destruct Hin as [Hin | Hin].
  - destruct (apply_filters_rejects filters spec e0 lf0 Hin Hrej) as [m Hm].
    congruence.
  - unfold clauses_of in Hin. unfold TransformExecutor.apply_transforms.
    destruct (VisualizationDecision.transform decision) as [t|]; [| contradiction].
    cbn [Transform.filter] in Hin.
    destruct (apply_filters_rejects (Transform.filter t) spec e0 lf1 Hin Hrej)
      as [m Hm].
    replace (truthy_opt_list (Transform.filter t)) with true
      by (destruct (Transform.filter t) as [[|? ?]|]; try contradiction; reflexivity).
    rewrite Hm. cbn. eauto.
Qed.

End Rejections.

Section FirstRejection.
Variables (fs : FileSystem) (settings : Settings) (B : pl.Backend).
Variables (path : string) (decision : VisualizationDecision.t).
Variable limit_rows : option Z.

Lemma execute_request_filter_first (pre post : list FilterSpec.t)
      (spec : FilterSpec.t) (e0 : error) (fp : string) (lf0 : pl.LazyFrame) :
  validate_data_path fs settings path = Ok fp ->
  TransformExecutor.read_lazy fs fp = Ok lf0 ->
  Forall accepted pre ->
  filter_predicate spec = Err e0 ->
  TransformExecutor.execute fs settings B path decision
    (Some (pre ++ spec :: post)%list) limit_rows = Err e0.
Proof.
  intros Hv Hr Hpre Hrej. unfold TransformExecutor.execute.
  rewrite Hv; cbn [bind]. rewrite Hr; cbn [bind].
  rewrite (apply_filters_first_rejected pre post spec e0 lf0 Hpre Hrej).
  reflexivity.
Qed.

Lemma execute_clause_filter_first (filters : option (list FilterSpec.t))
      (pre post : list FilterSpec.t) (spec : FilterSpec.t) (e0 : error)
      (fp : string) (lf0 lf1 : pl.LazyFrame) :
  validate_data_path fs settings path = Ok fp ->
  TransformExecutor.read_lazy fs fp = Ok lf0 ->
  TransformExecutor.apply_filters lf0 filters = Ok lf1 ->
  Transform.filter (clauses_of decision) = Some (pre ++ spec :: post)%list ->
  Forall accepted pre ->
  filter_predicate spec = Err e0 ->
  TransformExecutor.execute fs settings B path decision filters limit_rows = Err e0.
Proof.
  intros Hv Hr Hf Ht Hpre Hrej. unfold TransformExecutor.execute.
  rewrite Hv; cbn [bind]. rewrite Hr; cbn [bind]. rewrite Hf; cbn [bind].
  unfold TransformExecutor.apply_transforms. unfold clauses_of in Ht.
  destruct (VisualizationDecision.transform decision) as [t|]; [| discriminate].
  rewrite Ht.
  replace (truthy_opt_list (Some (pre ++ spec :: post)%list)) with true
    by (destruct pre; reflexivity).
  rewrite (apply_filters_first_rejected pre post spec e0 lf1 Hpre Hrej).
  reflexivity.
Qed.

Lemma apply_transforms_derive (lf : pl.LazyFrame) :
  or_empty (Transform.derive (clauses_of decision)) <> [] ->
  TransformExecutor.apply_transforms lf decision =
    bind (TransformExecutor.apply_filters lf (Transform.filter (clauses_of decision)))
         (fun _ => Err (InvalidRequestError "derive transform not implemented in v1")).
Proof.
  unfold TransformExecutor.apply_transforms, clauses_of.
  destruct (VisualizationDecision.transform decision) as [t|];
    [| intros H; now contradiction H].
  intros Hd.
  assert (E : (if truthy_opt_list (Transform.filter t)
               then TransformExecutor.apply_filters lf (Transform.filter t)
               else Ok lf)
              = TransformExecutor.apply_filters lf (Transform.filter t))
    by (destruct (Transform.filter t) as [[|x xs]|]; reflexivity).
  rewrite E.
  destruct (TransformExecutor.apply_filters lf (Transform.filter t)) as [lf1|e];
    cbn [bind]; [| reflexivity].
  destruct (Transform.derive t) as [[|d ds]|]; try (now contradiction Hd).
  reflexivity.
Qed.

End FirstRejection.

(** C4.  A between filter whose value list is absent or does not hold
    exactly two entries is rejected.  (a) The filter step raises
    [InvalidRequestError] with the message of the between check, on every
    plan: no predicate is built from part of the list.  (b) [execute] on a
    request that holds such a filter, among the request filters or among the
    filters of the transform, raises an [InvalidRequestError].  (c) When the
    path is valid and readable and the filters processed before it are
    accepted, the error raised is the one of the between check. *)
Theorem between_requires_two_values :
  forall spec : FilterSpec.t,
    FilterSpec.op spec = FilterOp.between ->
    List.length (or_empty (FilterSpec.values spec)) <> 2%nat ->
    (forall lf,
        TransformExecutor.filter_step lf spec
        = Err (InvalidRequestError "between filter expects two values"))
    /\ (forall fs settings B path decision filters limit_rows,
           In spec (or_empty filters)
           \/ In spec (or_empty (Transform.filter (clauses_of decision))) ->
           exists m,
             TransformExecutor.execute fs settings B path decision filters limit_rows
             = Err (InvalidRequestError m))
    /\ (forall fs settings B path decision limit_rows pre post fp lf0,
           validate_data_path fs settings path = Ok fp ->
           TransformExecutor.read_lazy fs fp = Ok lf0 ->
           Forall accepted pre ->
           TransformExecutor.execute fs settings B path decision
             (Some (pre ++ spec :: post)%list) limit_rows
           = Err (InvalidRequestError "between filter expects two values"))
    /\ (forall fs settings B path decision filters limit_rows pre post fp lf0 lf1,
           validate_data_path fs settings path = Ok fp ->
           TransformExecutor.read_lazy fs fp = Ok lf0 ->
           TransformExecutor.apply_filters lf0 filters = Ok lf1 ->
           Transform.filter (clauses_of decision) = Some (pre ++ spec :: post)%list ->
           Forall accepted pre ->
           TransformExecutor.execute fs settings B path decision filters limit_rows
           = Err (InvalidRequestError "between filter expects two values")).
Proof.
  intros spec Hop Hlen.
  assert (Hrej : filter_predicate spec
                 = Err (InvalidRequestError "between filter expects two values")).
  { unfold filter_predicate. rewrite Hop.
    destruct (FilterSpec.values spec) as [[|a [|b [|c vs]]]|]; try reflexivity.
    now contradiction Hlen. }
  split; [| split; [| split]].
  - intros lf. rewrite filter_step_predicate, Hrej. reflexivity.
  - intros. eapply execute_rejects_filter; eassumption.
  - intros. eapply execute_request_filter_first; eassumption.
  - intros. eapply execute_clause_filter_first; eassumption.
Qed.

Lemma between_requires_two_values_witness :
  TransformExecutor.execute fs_sample settings_sample (backend_of sample_sales)
    "/tmp/sample_sales.csv" (decision_with None)
    (Some [sales_above_90;
           FilterSpec.mk "sales" FilterOp.between VNull
                         (Some [VInt 60; VInt 100; VInt 140])])
    None
  = Err (InvalidRequestError "between filter expects two values").
Proof.
  apply (proj1 (proj2 (proj2
           (between_requires_two_values
              (FilterSpec.mk "sales" FilterOp.between VNull
                             (Some [VInt 60; VInt 100; VInt 140]))
              eq_refl ltac:(cbn; lia))))
           fs_sample settings_sample (backend_of sample_sales)
           "/tmp/sample_sales.csv" (decision_with None) None
           [sales_above_90] [] "/tmp/sample_sales.csv"
           (pl.scan_csv "/tmp/sample_sales.csv" ",")).
  - reflexivity.
  - reflexivity.
  - repeat constructor. eexists. reflexivity.
Defined.

(** C10.  A filter with operator [regex] is rejected.  (a) The filter step
    raises [InvalidRequestError] naming the operation as unsupported, on
    every plan.  (b) [execute] on a request that holds such a filter, among
    the request filters or among the filters of the transform, raises an
    [InvalidRequestError]: the filter is neither applied nor skipped.
    (c) When the path is valid and readable and the filters processed
    before it are accepted, the error raised is the unsupported-operation
    error. *)
Theorem regex_filter_rejected :
  forall spec : FilterSpec.t,
    FilterSpec.op spec = FilterOp.regex ->
    (forall lf,
        TransformExecutor.filter_step lf spec
        = Err (InvalidRequestError "Unsupported filter operation: regex"))
    /\ (forall fs settings B path decision filters limit_rows,
           In spec (or_empty filters)
           \/ In spec (or_empty (Transform.filter (clauses_of decision))) ->
           exists m,
             TransformExecutor.execute fs settings B path decision filters limit_rows
             = Err (InvalidRequestError m))
    /\ (forall fs settings B path decision limit_rows pre post fp lf0,
           validate_data_path fs settings path = Ok fp ->
           TransformExecutor.read_lazy fs fp = Ok lf0 ->
           Forall accepted pre ->
           TransformExecutor.execute fs settings B path decision
             (Some (pre ++ spec :: post)%list) limit_rows
           = Err (InvalidRequestError "Unsupported filter operation: regex"))
    /\ (forall fs settings B path decision filters limit_rows pre post fp lf0 lf1,
           validate_data_path fs settings path = Ok fp ->
           TransformExecutor.read_lazy fs fp = Ok lf0 ->
           TransformExecutor.apply_filters lf0 filters = Ok lf1 ->
           Transform.filter (clauses_of decision) = Some (pre ++ spec :: post)%list ->
           Forall accepted pre ->
           TransformExecutor.execute fs settings B path decision filters limit_rows
           = Err (InvalidRequestError "Unsupported filter operation: regex")).
Proof.
  intros spec Hop.
  assert (Hrej : filter_predicate spec
                 = Err (InvalidRequestError "Unsupported filter operation: regex")).
  { unfold filter_predicate. rewrite Hop. reflexivity. }
  split; [| split; [| split]].
  - intros lf. rewrite filter_step_predicate, Hrej. reflexivity.
  - intros. eapply execute_rejects_filter; eassumption.
  - intros. eapply execute_request_filter_first; eassumption.
  - intros. eapply execute_clause_filter_first; eassumption.
Qed.

Lemma regex_filter_rejected_witness :
  TransformExecutor.execute fs_sample settings_sample (backend_of sample_sales)
    "/tmp/sample_sales.csv"
    (decision_with
       (Some (Transform.mk None None None None
                (Some [sales_above_90;
                       FilterSpec.mk "order_date" FilterOp.regex (VStr "^2024") None]))))
    (Some [sales_above_90]) None
  = Err (InvalidRequestError "Unsupported filter operation: regex").
Proof.
  apply (proj2 (proj2 (proj2
           (regex_filter_rejected
              (FilterSpec.mk "order_date" FilterOp.regex (VStr "^2024") None)
              eq_refl)))
           fs_sample settings_sample (backend_of sample_sales)
           "/tmp/sample_sales.csv" _ (Some [sales_above_90]) None
           [sales_above_90] [] "/tmp/sample_sales.csv"
           (pl.scan_csv "/tmp/sample_sales.csv" ",")
           (pl.filter (pl.scan_csv "/tmp/sample_sales.csv" ",")
                      (pl.cmp pl.op_gt (pl.col "sales") (VInt 90)))).
  - reflexivity.
  - reflexivity.
  - reflexivity.
  - reflexivity.
  - repeat constructor. eexists. reflexivity.
Defined.

(** C9.  A decision whose transform holds at least one derive entry is
    rejected: [execute] raises an [InvalidRequestError] and returns no
    table.  When the path is valid and readable and the request filters and
    the transform filters are accepted, the error is the one of the derive
    check; otherwise it is the error of the earlier check that failed. *)
Theorem derive_rejected :
  forall fs settings B path decision filters limit_rows,
    or_empty (Transform.derive (clauses_of decision)) <> [] ->
    (exists m,
        TransformExecutor.execute fs settings B path decision filters limit_rows
        = Err (InvalidRequestError m))
    /\ (forall fp lf0 lf1 lf2,
           validate_data_path fs settings path = Ok fp ->
           TransformExecutor.read_lazy fs fp = Ok lf0 ->
           TransformExecutor.apply_filters lf0 filters = Ok lf1 ->
           TransformExecutor.apply_filters lf1 (Transform.filter (clauses_of decision))
           = Ok lf2 ->
           TransformExecutor.execute fs settings B path decision filters limit_rows
           = Err (InvalidRequestError "derive transform not implemented in v1")).
Proof.
  intros fs settings B path decision filters limit_rows Hd.
  split.
  - unfold TransformExecutor.execute.
    destruct (validate_data_path fs settings path) as [fp|e] eqn:Ev; cbn [bind].
    2:{ apply validate_data_path_error in Ev. destruct e; try discriminate. eauto. }
    destruct (TransformExecutor.read_lazy fs fp) as [lf0|e] eqn:Er; cbn [bind].
    2:{ apply read_lazy_error in Er. destruct e; try discriminate. eauto. }
    destruct (TransformExecutor.apply_filters lf0 filters) as [lf1|e] eqn:Ef; cbn [bind].
    2:{ apply apply_filters_error in Ef. destruct e; try discriminate. eauto. }
    rewrite (apply_transforms_derive decision lf1 Hd).
    destruct (TransformExecutor.apply_filters lf1 _) as [lf2|e] eqn:Et; cbn [bind].
    + eauto.
    + apply apply_filters_error in Et. destruct e; try discriminate. eauto.
  - intros fp lf0 lf1 lf2 Hv Hr Hf Ht. unfold TransformExecutor.execute.
    rewrite Hv; cbn [bind]. rewrite Hr; cbn [bind]. rewrite Hf; cbn [bind].
    rewrite (apply_transforms_derive decision lf1 Hd), Ht. reflexivity.
Qed.

Lemma derive_rejected_witness :
  TransformExecutor.execute fs_sample settings_sample (backend_of sample_sales)
    "/tmp/sample_sales.csv"
    decision_with_derive None (Some 10%Z)
  = Err (InvalidRequestError "derive transform not implemented in v1").
Proof.
  apply (proj2 (derive_rejected fs_sample settings_sample (backend_of sample_sales)
                  "/tmp/sample_sales.csv" decision_with_derive None (Some 10%Z)
                  ltac:(cbn; discriminate))
           "/tmp/sample_sales.csv"
           (pl.scan_csv "/tmp/sample_sales.csv" ",")
           (pl.scan_csv "/tmp/sample_sales.csv" ",")
           (pl.filter (pl.scan_csv "/tmp/sample_sales.csv" ",")
                      (pl.cmp pl.op_gt (pl.col "sales") (VInt 90))));
    reflexivity.
Defined.

(** An empty derive list is no derive entry: the loop body never runs and
    the request is executed. *)
Example empty_derive_list_is_executed :
  TransformExecutor.execute fs_sample settings_sample (backend_of sample_sales)
    "/tmp/sample_sales.csv"
    (decision_with (Some (Transform.mk None None None (Some []) None)))
    None (Some 1%Z)
  = Ok (pl.mkDataFrame ["order_date"; "sales"] [[VStr "2024-01-01"; VInt 50]],
        TransformExecutor.mkMeta 1 0).
Proof. vm_compute. reflexivity. Qed.

(* ================================================================== *)
(** * Columns computed cell by cell *)

Lemma map_cells_map {X : Type} (f : scalar -> result scalar) (h g : X -> scalar)
      (xs : list X) :
  (forall x, In x xs -> f (h x) = Ok (g x)) ->
  pl.map_cells f (map h xs) = Ok (map g xs).
Proof.
  induction xs as [|x xs IH]; intros H; [reflexivity |].
  cbn [map pl.map_cells]. rewrite (H x (or_introl eq_refl)). cbn [bind].
  rewrite IH by (intros y Hy; apply H; now right). reflexivity.
Qed.

Lemma zip_rows_map (f : list scalar -> scalar -> list scalar) (g : list scalar -> scalar)
      (rs : list (list scalar)) :
  pl.zip_rows f rs (map g rs) = map (fun r => f r (g r)) rs.
Proof.
  induction rs as [|r rs IH]; [reflexivity |].
  cbn [map pl.zip_rows]. now rewrite IH.
Qed.

Lemma for_each_single {A S : Type} (body : S -> A -> result S) (x : A) (s : S) :
  for_each body [x] s = body s x.
Proof. cbn. apply bind_ok_r. Qed.

(* ================================================================== *)
(** * Between filters *)

Section Between.
Variables lo hi : scalar.




End Between.





(** A string given as a bound is looked up as a column: ["3"] is no column
    of the table, and the request fails instead of comparing with it; with
    ["level"] each row is compared with its own cell. *)
Example between_string_bound_is_a_column :
  TransformExecutor.execute fs_sample settings_sample (backend_of sample_levels)
    "/data/levels.csv" (decision_with None)
    (Some [between_from_column "3" (VInt 7)]) None
  = Err (PolarsError "ColumnNotFoundError: 3")
  /\ TransformExecutor.execute fs_sample settings_sample (backend_of sample_levels)
       "/data/levels.csv" (decision_with None)
       (Some [between_from_column "level" (VInt 7)]) None
     = Ok (pl.mkDataFrame ["level"] [[VInt 1]; [VInt 5]],
           TransformExecutor.mkMeta 2 1).
Proof. split; vm_compute; reflexivity. Qed.

(* ================================================================== *)
(** * Time units *)

Lemma truncate_us_bucket_start (u : TimeUnit.t) (us : Z) :
  pl.truncate_us (TransformExecutor.time_unit_to_pl_duration u) us
  = Ok (bucket_start u us).
Proof. destruct u; reflexivity. Qed.

Lemma time_unit_expr_name (spec : TimeUnitSpec.t) :
  pl.output_name (time_unit_expr spec) = time_unit_alias spec.
Proof. destruct spec as [f u]; destruct u; reflexivity. Qed.

(** The cells a time-unit expression computes from a column that casts to
    timestamps. *)
Lemma eval_time_unit_expr (B : pl.Backend) (df : pl.DataFrame)
      (spec : TimeUnitSpec.t) (j : nat) :
  pl.index_of (TimeUnitSpec.field spec) (pl.columns df) = Some j ->
  Forall (fun r => temporal_cell (pl.cell j r)) (pl.rows df) ->
  pl.eval B df (time_unit_expr spec)
  = Ok (map (fun r => bucket_cell (TimeUnitSpec.unit spec) (pl.cell j r)) (pl.rows df)).
Proof.
  intros Hj Hall. unfold time_unit_expr. cbn [pl.eval].
  unfold pl.get_column. rewrite Hj. cbn [bind].
  rewrite (map_cells_map (pl.cast_cell pl.Datetime) (pl.cell j)
             (fun r => match pl.cell j r with
                       | VInt z => VDatetime z
                       | w => w
                       end)).
  2:{ intros r Hr. rewrite Forall_forall in Hall. specialize (Hall r Hr).
      destruct (pl.cell j r); cbn in *; try reflexivity; contradiction. }
  cbn [bind].
  apply map_cells_map. intros r Hr.
  rewrite Forall_forall in Hall. specialize (Hall r Hr).
  destruct (pl.cell j r); cbn in *; try reflexivity; try contradiction;
    rewrite truncate_us_bucket_start; reflexivity.
Qed.

(** C2, as the code has it.  For every time-unit clause, [auto] included,
    the executor casts the field to timestamps, truncates each value to the
    start of its bucket and writes the column under the alias of the clause.
    The bucket is 1s for second, 1m for minute, 1h for hour, 1d for day, 1w
    for week, 1 month for month, 3 months for quarter, 1y for year, and 1d
    for auto.  The alias is ["{field}:{u}"] for every unit but auto and the
    field name itself for auto, so that with auto the original column is
    overwritten by its day buckets. *)
Theorem time_unit_bucketing :
  forall (B : pl.Backend) (df : pl.DataFrame) (spec : TimeUnitSpec.t) (j : nat),
    pl.index_of (TimeUnitSpec.field spec) (pl.columns df) = Some j ->
    Forall (fun r => temporal_cell (pl.cell j r)) (pl.rows df) ->
    let f := TimeUnitSpec.field spec in
    let u := TimeUnitSpec.unit spec in
    let buckets := map (fun r => bucket_cell u (pl.cell j r)) (pl.rows df) in
    TransformExecutor.time_unit_to_pl_duration u
    = match u with
      | TimeUnit.second => "1s" | TimeUnit.minute => "1m"
      | TimeUnit.hour => "1h" | TimeUnit.day => "1d" | TimeUnit.week => "1w"
      | TimeUnit.month => "1mo" | TimeUnit.quarter => "3mo"
      | TimeUnit.year => "1y" | TimeUnit.auto => "1d"
      end
    /\ time_unit_alias spec
       = match u with
         | TimeUnit.auto => f
         | _ => f ++ ":" ++ TimeUnit.value u
         end
    /\ stage_time_unit B (Some [spec]) df
       = Ok (pl.set_column df (time_unit_alias spec) buckets)
    /\ (forall lf, pl.collect B lf = Ok df ->
                   pl.collect B (TransformExecutor.time_unit_step lf spec)
                   = Ok (pl.set_column df (time_unit_alias spec) buckets))
    /\ (u = TimeUnit.auto ->
        pl.set_column df (time_unit_alias spec) buckets
        = pl.mkDataFrame (pl.columns df)
            (map (fun r => pl.replace_nth j (bucket_cell TimeUnit.auto (pl.cell j r)) r)
                 (pl.rows df))).
Proof.
  intros B df spec j Hj Hall f u buckets.
  assert (Hstep : pl.df_with_columns B df (time_unit_expr spec)
                  = Ok (pl.set_column df (time_unit_alias spec) buckets)).
  { unfold pl.df_with_columns. rewrite (eval_time_unit_expr B df spec j Hj Hall).
    cbn [bind]. rewrite length_map, Nat.eqb_refl, time_unit_expr_name. reflexivity. }
  split; [subst u; destruct (TimeUnitSpec.unit spec); reflexivity |].
  split; [subst u f; unfold time_unit_alias;
          destruct (TimeUnitSpec.unit spec); reflexivity |].
  split; [| split].
  - unfold stage_time_unit. cbn [or_empty]. rewrite for_each_single. exact Hstep.
  - intros lf Hc. rewrite time_unit_step_expr. cbn [pl.collect]. rewrite Hc.
    exact Hstep.
  - intros Hu. unfold time_unit_alias, pl.set_column. subst buckets u.
    rewrite Hu. fold f. unfold f. rewrite Hj. rewrite zip_rows_map. reflexivity.
Qed.

Lemma time_unit_bucketing_witness :
  stage_time_unit (backend_of sample_events)
    (Some [TimeUnitSpec.mk "ts" TimeUnit.hour]) sample_events
  = Ok (pl.mkDataFrame ["ts"; "ts:hour"]
          [ [VDatetime 5400000000; VDatetime 3600000000];
            [VDatetime 86400000001; VDatetime 86400000000] ])
  /\ pl.set_column sample_events "ts"
       (map (fun r => bucket_cell TimeUnit.auto (pl.cell 0 r)) (pl.rows sample_events))
     = pl.mkDataFrame ["ts"] [ [VDatetime 0]; [VDatetime 86400000000] ].
Proof.
  split.
  - apply (proj1 (proj2 (proj2
             (time_unit_bucketing (backend_of sample_events) sample_events
                (TimeUnitSpec.mk "ts" TimeUnit.hour) 0%nat eq_refl
                ltac:(repeat constructor))))).
  - apply (proj2 (proj2 (proj2 (proj2
             (time_unit_bucketing (backend_of sample_events) sample_events
                (TimeUnitSpec.mk "ts" TimeUnit.auto) 0%nat eq_refl
                ltac:(repeat constructor))))) eq_refl).
Defined.

(** C2, as stated, fails for [auto]: the two event times 01:30:00 and
    one microsecond past midnight of the next day come back as the two
    midnights; the column is bucketed by day, not left as it was. *)
Lemma auto_time_unit_counterexample :
  TransformExecutor.execute fs_sample settings_sample (backend_of sample_events)
    "/data/events.csv" (decision_with_time_unit TimeUnit.auto) None None
  = Ok (pl.mkDataFrame ["ts"] [ [VDatetime 0]; [VDatetime 86400000000] ],
        TransformExecutor.mkMeta 2 0)
  /\ pl.get_column sample_events "ts"
     = Ok [VDatetime 5400000000; VDatetime 86400000001].
Proof. split; vm_compute; reflexivity. Qed.

(* ================================================================== *)
(** * Bins *)

(** Step binning on one numeric cell: [floor(value / step) * step]. *)
Lemma step_bin_cell (step q : Q) :
  Qeq_bool step 0 = false ->
  (a <- pl.truediv_cell step (VFloat q) ;; b <- pl.floor_cell a ;; pl.mul_cell step b)
  = Ok (VFloat (inject_Z (Qfloor (q / step)) * step)).
Proof. intros H. unfold pl.truediv_cell. rewrite H. reflexivity. Qed.

Lemma apply_bin_step (lf : pl.LazyFrame) (field : string)
      (strategy : option string) (maxbins : option Z) (step : Q) :
  Qeq_bool step 0 = false ->
  TransformExecutor.apply_bin lf
    (BinSpec.mk field (Some (BinParam.mk strategy maxbins (Some step))))
  = pl.with_columns lf (pl.mul (pl.floor (pl.truediv (pl.col field) step)) step).
Proof.
  intros H. unfold TransformExecutor.apply_bin, truthy_Q; cbn. rewrite H. reflexivity.
Qed.

(** C8, the bucket count handed to [cut].  Without [params] it is 10 and
    with [params.maxbins] it is that number, as claimed; with [params]
    present and [maxbins] absent it is [None], not 10. *)
Theorem apply_bin_bin_count :
  (forall lf field,
      TransformExecutor.apply_bin lf (BinSpec.mk field None)
      = pl.with_columns lf (pl.cut (pl.col field) (Some 10%Z)))
  /\ (forall lf field strategy m,
         TransformExecutor.apply_bin lf
           (BinSpec.mk field (Some (BinParam.mk strategy (Some m) None)))
         = pl.with_columns lf (pl.cut (pl.col field) (Some m)))
  /\ (forall lf field strategy,
         TransformExecutor.apply_bin lf
           (BinSpec.mk field (Some (BinParam.mk strategy None None)))
         = pl.with_columns lf (pl.cut (pl.col field) None))
  /\ TransformExecutor.bin_count_arg (Some (BinParam.mk (Some "auto") None None))
     <> Some 10%Z.
Proof.
  repeat split; try reflexivity. discriminate.
Qed.

(* ================================================================== *)
(** * Worked examples *)

(** A temporal and a quantitative column, type names in mixed case: a line
    chart of the summed measure over time, score 0.3, the reason kept. *)
Example fallback_line_chart :
  LLMDecider.fallback_decision
    (Payload.mk None
       (Some [Payload.mk_column "order_date" (Some "Temporal");
              Payload.mk_column "sales" (Some "QUANTITATIVE")]))
    "OpenAI request failed"
  = Ok (Some (VisualizationDecision.mk
                (Chart.mk ChartType.line (3 # 10) None)
                [ FieldSpec.mk "order_date" FieldRole.time SemanticType.temporal
                               None None None None;
                  FieldSpec.mk "sales" FieldRole.measure SemanticType.quantitative
                               (Some AggregateOp.sum) None None None ]
                None
                (Encoding.mk
                   (Some (Channel.mk (Some "order_date") None None None
                                     (Some SemanticType.temporal)))
                   (Some (Channel.mk (Some "sales") (Some AggregateOp.sum) None None
                                     (Some SemanticType.quantitative)))
                   None None None None None None)
                (Some ["Heuristic fallback applied because model decision failed";
                       "Reason: OpenAI request failed"])
                "LLM unavailable; fallback line chart showing quantitative trend over time."
                None)).
Proof. reflexivity. Qed.

(** Two nominal columns and no measure: no rule applies. *)
Example fallback_without_measure :
  LLMDecider.fallback_decision
    (Payload.mk None
       (Some [Payload.mk_column "region" (Some "nominal");
              Payload.mk_column "segment" (Some "nominal")]))
    "OpenAI request failed"
  = Ok None.
Proof. reflexivity. Qed.

(** The composed specification of a stacked bar chart with an x channel
    only. *)
Example compose_stacked_bar :
  Composer.compose
    (VisualizationDecision.mk
       (Chart.mk ChartType.stacked_bar (9 # 10) None) [] None
       (Encoding.mk
          (Some (Channel.mk (Some "region") None None None (Some SemanticType.nominal)))
          None None None None None None None)
       None "Stacked bars by region." None)
    [[("region", VStr "EU"); ("sales", VInt 3)]]
  = [ ("$schema", JStr "https://vega.github.io/schema/vega-lite/v5.json");
      ("data", JDict [("values",
                       JList [JDict [("region", JStr "EU"); ("sales", JInt 3)]])]);
      ("mark", JDict [("type", JStr "bar"); ("stack", JStr "normal")]);
      ("encoding",
       JDict [("x", JDict [("field", JStr "region"); ("type", JStr "nominal")])]);
      ("config", JDict [("axis", JDict [("labelAngle", JInt 0)])]) ].
Proof. reflexivity. Qed.

(** The [values] validator of a filter specification refuses an empty list
    and lets every other value through. *)
Lemma validate_values_spec (v : option (list scalar)) :
  FilterSpec.validate_values v
  = match v with
    | Some [] => Err (ValidationError "values cannot be empty")
    | _ => Ok v
    end.
Proof. destruct v as [[|x xs]|]; reflexivity. Qed.

(** Step binning with step 5: 17.5 falls into the bin that starts at 15,
    4 into the bin that starts at 0, and a null stays null. *)
Example step_bin_example :
  pl.df_with_columns (backend_of sample_levels)
    (pl.mkDataFrame ["price"] [[VFloat (35 # 2)]; [VNull]; [VInt 4]])
    (bin_expr (BinSpec.mk "price" (Some (BinParam.mk None None (Some (5 # 1))))))
  = Ok (pl.mkDataFrame ["price"] [[VFloat (15 # 1)]; [VNull]; [VFloat (0 # 1)]]).
Proof. vm_compute. reflexivity. Qed.

(* ================================================================== *)
(** * Reading the source *)

Lemma apply_transforms_split (lf : pl.LazyFrame) (decision : VisualizationDecision.t) :
  TransformExecutor.apply_transforms lf decision =
    bind (TransformExecutor.apply_filters lf (Transform.filter (clauses_of decision)))
         (after_filters (clauses_of decision)).
Proof.
  unfold TransformExecutor.apply_transforms, clauses_of, after_filters.
  destruct (VisualizationDecision.transform decision) as [t|]; [| reflexivity].
  assert (E : (if truthy_opt_list (Transform.filter t)
               then TransformExecutor.apply_filters lf (Transform.filter t)
               else Ok lf)
              = TransformExecutor.apply_filters lf (Transform.filter t))
    by (destruct (Transform.filter t) as [[|x xs]|]; reflexivity).
  rewrite E.
  destruct (TransformExecutor.apply_filters lf (Transform.filter t)) as [lf1|e];
    cbn [bind]; [| reflexivity].
  destruct (Transform.derive t) as [[|d ds]|];
    destruct (Transform.time_unit t) as [[|u us]|];
    destruct (Transform.bin t) as [[|b bs]|];
    destruct (Transform.aggregate t) as [[|a ags]|];
    cbn [truthy_opt_list or_empty bind for_each TransformExecutor.derive_step raise];
    try reflexivity; apply bind_ok_r.
Qed.

(** X1.  [_read_lazy] goes by the lower-cased suffix alone: [.csv] is
    scanned with a comma, [.tsv] with a tab, [.json] and [.ndjson] as
    newline-delimited JSON, [.parquet] as parquet.  Any other suffix is
    refused with an [InvalidRequestError] that names it, and [execute] on a
    valid path with such a suffix raises that error whatever the decision
    and the filters are. *)
Theorem read_lazy_by_suffix :
  forall (fs : FileSystem) (path : string),
    let suffix := lower (path_suffix fs path) in
    (forall lf,
        TransformExecutor.read_lazy fs path = Ok lf
        <-> (suffix = ".csv" /\ lf = pl.scan_csv path ",")
            \/ (suffix = ".tsv" /\ lf = pl.scan_csv path (String "009"%char ""))
            \/ ((suffix = ".json" \/ suffix = ".ndjson") /\ lf = pl.scan_ndjson path)
            \/ (suffix = ".parquet" /\ lf = pl.scan_parquet path))
    /\ (~ In suffix supported_suffixes ->
        TransformExecutor.read_lazy fs path
        = Err (InvalidRequestError ("Unsupported file type: " ++ suffix)))
    /\ (~ In suffix supported_suffixes ->
        forall settings B p decision filters limit_rows,
          validate_data_path fs settings p = Ok path ->
          TransformExecutor.execute fs settings B p decision filters limit_rows
          = Err (InvalidRequestError ("Unsupported file type: " ++ suffix))).
Proof.
  intros fs path suffix.
  assert (Hbad : ~ In suffix supported_suffixes ->
                 TransformExecutor.read_lazy fs path
                 = Err (InvalidRequestError ("Unsupported file type: " ++ suffix))).
  { intros Hn. unfold TransformExecutor.read_lazy. fold suffix.
    unfold supported_suffixes in Hn. cbn [In] in Hn.
    destruct (String.eqb_spec suffix ".csv"); [exfalso; auto |].
    destruct (String.eqb_spec suffix ".tsv"); [exfalso; auto |].
    destruct (String.eqb_spec suffix ".json"); [exfalso; auto |].
    destruct (String.eqb_spec suffix ".ndjson"); [exfalso; auto 6 |].
    destruct (String.eqb_spec suffix ".parquet"); [exfalso; auto 7 |].
    reflexivity. }
  split; [| split; [exact Hbad |]].
  - intros lf. unfold TransformExecutor.read_lazy. fold suffix.
    destruct (String.eqb_spec suffix ".csv") as [E1|E1].
    { rewrite E1. cbn. split.
      - intros [= <-]. auto.
      - intros [[_ ->] | [[H _] | [[[H | H] _] | [H _]]]];
          try discriminate; reflexivity. }
    destruct (String.eqb_spec suffix ".tsv") as [E2|E2].
    { rewrite E2. cbn. split.
      - intros [= <-]. auto.
      - intros [[H _] | [[_ ->] | [[[H | H] _] | [H _]]]];
          try discriminate; reflexivity. }
    cbn [orb].
    destruct (String.eqb_spec suffix ".json") as [E3|E3].
    { rewrite E3. cbn. split.
      - intros [= <-]. auto 6.
      - intros [[H _] | [[H _] | [[_ ->] | [H _]]]];
          try discriminate; reflexivity. }
    destruct (String.eqb_spec suffix ".ndjson") as [E4|E4].
    { rewrite E4. cbn. split.
      - intros [= <-]. auto 6.
      - intros [[H _] | [[H _] | [[_ ->] | [H _]]]];
          try discriminate; reflexivity. }
    cbn [orb].
    destruct (String.eqb_spec suffix ".parquet") as [E5|E5].
    { rewrite E5. split.
      - intros [= <-]. auto 6.
      - intros [[H _] | [[H _] | [[[H | H] _] | [_ ->]]]];
          try discriminate; reflexivity. }
    split; [discriminate |].
    intros [[H _] | [[H _] | [[[H | H] _] | [H _]]]]; contradiction.
  - intros Hn settings B p decision filters limit_rows Hv.
    unfold TransformExecutor.execute. rewrite Hv; cbn [bind].
    rewrite (Hbad Hn). reflexivity.
Qed.

Lemma read_lazy_by_suffix_witness :
  TransformExecutor.execute fs_spreadsheet settings_sample (backend_of sample_sales)
    "/data/sales.XLSX" (decision_with None)
    (Some [FilterSpec.mk "sales" FilterOp.regex VNull None]) None
  = Err (InvalidRequestError "Unsupported file type: .xlsx").
Proof.
  apply (proj2 (proj2 (read_lazy_by_suffix fs_spreadsheet "/data/sales.XLSX"))
           ltac:(cbn; intuition discriminate)
           settings_sample (backend_of sample_sales) "/data/sales.XLSX").
  reflexivity.
Defined.

(** X2.  [validate_data_path] accepts a path exactly when, after
    [expanduser], it exists, is not a directory and, when a non-empty list
    of allowed roots is configured, lies under one of them; it then returns
    the expanded path.  An absent and an empty list of roots both mean no
    restriction. *)
Theorem validate_data_path_accepts :
  forall (fs : FileSystem) (settings : Settings) (path_str q : string),
    validate_data_path fs settings path_str = Ok q
    <-> q = expanduser fs path_str
        /\ path_exists fs q = true
        /\ path_is_dir fs q = false
        /\ (or_empty (allowed_data_roots settings) = []
            \/ exists root,
                In root (or_empty (allowed_data_roots settings))
                /\ resolved_is_relative_to fs q root = true).
Proof.
  intros fs settings path_str q. unfold validate_data_path.
  set (p := expanduser fs path_str).
  destruct (path_exists fs p) eqn:Ee; cbn [negb].
  2:{ split; [discriminate |]. intros (-> & H & _). fold p in H. congruence. }
  destruct (path_is_dir fs p) eqn:Ed.
  { split; [discriminate |]. intros (-> & _ & H & _). fold p in H. congruence. }
  destruct (allowed_data_roots settings) as [[|r roots]|] eqn:Er;
    cbn [truthy_opt_list or_empty].
  - split; [intros [= <-]; auto | intros (-> & _); reflexivity].
  - destruct (existsb (resolved_is_relative_to fs p) (r :: roots)) eqn:Ex.
    + split.
      * intros [= <-]. repeat split; auto. right.
        apply existsb_exists in Ex. exact Ex.
      * intros (-> & _); reflexivity.
    + split; [discriminate |].
      intros (-> & _ & _ & [H | (root & Hin & Hrel)]); [discriminate |].
      fold p in Hrel.
      assert (existsb (resolved_is_relative_to fs p) (r :: roots) = true)
        by (apply existsb_exists; eauto).
      congruence.
  - split; [intros [= <-]; auto | intros (-> & _); reflexivity].
Qed.

Lemma validate_data_path_accepts_witness :
  validate_data_path fs_data (mkSettings (Some ["/srv"; "/data"])) "/data/sales.csv"
  = Ok "/data/sales.csv".
Proof.
  apply (proj2 (validate_data_path_accepts fs_data (mkSettings (Some ["/srv"; "/data"]))
                  "/data/sales.csv" "/data/sales.csv")).
  repeat split; try reflexivity.
  right. exists "/data". split; [right; left; reflexivity | reflexivity].
Defined.

(* ================================================================== *)
(** * Aggregates *)

Lemma aggregate_expression_name (m : AggregateMeasure.t) (e : pl.Expr) :
  TransformExecutor.aggregate_expression m = Ok e ->
  pl.output_name e = measure_alias m /\ AggregateMeasure.op m <> AggregateOp.auto.
Proof.
  unfold TransformExecutor.aggregate_expression, measure_alias.
  destruct m as [f o a]; cbn.
  destruct o; try discriminate; intros [= <-]; cbn;
    (split; [destruct a as [[|c a]|]; reflexivity | discriminate]).
Qed.

Lemma aggregate_expression_error (m : AggregateMeasure.t) (e : error) :
  TransformExecutor.aggregate_expression m = Err e ->
  e = InvalidRequestError "Unsupported aggregate operation: auto"
  /\ AggregateMeasure.op m = AggregateOp.auto.
Proof.
  unfold TransformExecutor.aggregate_expression.
  destruct m as [f o a]; cbn. destruct o; try discriminate.
  intros [= <-]. split; reflexivity.
Qed.

Lemma aggregate_expressions_names (ms : list AggregateMeasure.t) (es : list pl.Expr) :
  TransformExecutor.aggregate_expressions ms = Ok es ->
  map pl.output_name es = map measure_alias ms
  /\ Forall (fun m => AggregateMeasure.op m <> AggregateOp.auto) ms.
Proof.
  revert es. induction ms as [|m ms IH]; intros es.
  - intros [= <-]. split; [reflexivity | constructor].
  - cbn [TransformExecutor.aggregate_expressions].
    destruct (TransformExecutor.aggregate_expression m) as [e|err] eqn:Em;
      cbn [bind]; [| discriminate].
    destruct (TransformExecutor.aggregate_expressions ms) as [es'|err] eqn:Ems;
      cbn [bind]; [| discriminate].
    intros [= <-]. destruct (IH es' eq_refl) as [Hn Hf].
    destruct (aggregate_expression_name m e Em) as [Hm Ho].
    split; [cbn; now rewrite Hm, Hn | now constructor].
Qed.

Lemma aggregate_expressions_error (ms : list AggregateMeasure.t) (e : error) :
  TransformExecutor.aggregate_expressions ms = Err e ->
  e = InvalidRequestError "Unsupported aggregate operation: auto".
Proof.
  induction ms as [|m ms IH]; [discriminate |].
  cbn [TransformExecutor.aggregate_expressions].
  destruct (TransformExecutor.aggregate_expression m) as [e'|err] eqn:Em; cbn [bind].
  - destruct (TransformExecutor.aggregate_expressions ms) as [es'|err] eqn:Ems;
      cbn [bind]; [discriminate |].
    intros [= <-]. now apply IH.
  - intros [= <-]. exact (proj1 (aggregate_expression_error m err Em)).
Qed.

Lemma aggregate_expressions_auto (ms : list AggregateMeasure.t) (m : AggregateMeasure.t) :
  In m ms -> AggregateMeasure.op m = AggregateOp.auto ->
  TransformExecutor.aggregate_expressions ms
  = Err (InvalidRequestError "Unsupported aggregate operation: auto").
Proof.
  intros Hin Hop.
  destruct (TransformExecutor.aggregate_expressions ms) as [es|e] eqn:E.
  - exfalso. destruct (aggregate_expressions_names ms es E) as [_ Hf].
    rewrite Forall_forall in Hf. exact (Hf m Hin Hop).
  - now rewrite (aggregate_expressions_error ms e E).
Qed.

(** X3.  After an aggregate clause the table has exactly the group-by
    columns, in order, followed by one column per measure, named by the
    measure's [as] when that is a non-empty string and ["{field}_{op}"]
    otherwise; no measure of an accepted clause has operation [auto]. *)
Theorem aggregate_output_columns :
  forall (B : pl.Backend) (spec : AggregateSpec.t) (lf lf' : pl.LazyFrame)
         (df' : pl.DataFrame),
    TransformExecutor.apply_aggregate lf spec = Ok lf' ->
    pl.collect B lf' = Ok df' ->
    pl.columns df'
    = (AggregateSpec.groupby spec
         ++ map measure_alias (AggregateSpec.measures spec))%list
    /\ Forall (fun m => AggregateMeasure.op m <> AggregateOp.auto)
              (AggregateSpec.measures spec).
Proof.
  intros B spec lf lf' df'. unfold TransformExecutor.apply_aggregate.
  destruct (TransformExecutor.aggregate_expressions (AggregateSpec.measures spec))
    as [aggs|e] eqn:Ea; cbn [bind]; [| discriminate].
  intros [= <-]. cbn [pl.collect].
  destruct (pl.collect B lf) as [df|e]; cbn [bind]; [| discriminate].
  unfold pl.df_group_by_agg.
  destruct (pl.eval_all B df _) as [kc|e]; cbn [bind]; [| discriminate].
  destruct (pl.aggregate_groups B _ _ _ _) as [out|e]; cbn [bind]; [| discriminate].
  intros [= <-]. cbn [pl.columns].
  destruct (aggregate_expressions_names _ _ Ea) as [Hn Hf].
  rewrite Hn, map_map. cbn [pl.output_name]. rewrite map_id. split; [reflexivity | exact Hf].
Qed.

Lemma aggregate_output_columns_witness :
  pl.columns
    (pl.mkDataFrame ["order_date"; "sales_sum"; "sales_max"]
       [ [VStr "2024-01-01"; VInt 170; VInt 120];
         [VStr "2024-01-02"; VInt 170; VInt 95] ])
  = (["order_date"]
       ++ map measure_alias
            [AggregateMeasure.mk "sales" AggregateOp.sum None;
             AggregateMeasure.mk "sales" AggregateOp.max (Some "")])%list.
Proof.
  apply (proj1 (aggregate_output_columns (backend_of sample_sales)
                  (AggregateSpec.mk ["order_date"]
                     [AggregateMeasure.mk "sales" AggregateOp.sum None;
                      AggregateMeasure.mk "sales" AggregateOp.max (Some "")])
                  (pl.scan_csv "/data/sales.csv" ",") _ _ eq_refl
                  ltac:(vm_compute; reflexivity))).
Defined.

(* ================================================================== *)
(** * The two phases of [execute] *)

Lemma for_each_app {A S : Type} (body : S -> A -> result S) (xs ys : list A) (s : S) :
  for_each body (xs ++ ys) s = bind (for_each body xs s) (for_each body ys).
Proof.
  revert s. induction xs as [|x xs IH]; intros s; [reflexivity |].
  cbn [app for_each]. rewrite bind_assoc. apply bind_ext. intros s'. apply IH.
Qed.

Lemma for_each_error {A S : Type} (body : S -> A -> result S) (P : error -> Prop)
      (xs : list A) :
  (forall s x e, body s x = Err e -> P e) ->
  forall s e, for_each body xs s = Err e -> P e.
Proof.
  intros Hb. induction xs as [|x xs IH]; intros s e; [discriminate |].
  cbn [for_each]. destruct (body s x) as [s'|e'] eqn:E; cbn [bind].
  - apply IH.
  - intros [= <-]. exact (Hb _ _ _ E).
Qed.

Lemma for_each_rejects {A S : Type} (body : S -> A -> result S) (xs : list A) (x : A) :
  In x xs -> (forall s, exists e, body s x = Err e) ->
  forall s, exists e, for_each body xs s = Err e.
Proof.
  intros Hin Hx. induction xs as [|y xs IH]; intros s; [contradiction |].
  cbn [for_each]. destruct Hin as [-> | Hin].
  - destruct (Hx s) as [e He]. rewrite He. cbn. eauto.
  - destruct (body s y); cbn [bind]; [apply IH; assumption | eauto].
Qed.

Lemma apply_aggregate_error (lf : pl.LazyFrame) (spec : AggregateSpec.t) (e : error) :
  TransformExecutor.apply_aggregate lf spec = Err e ->
  e = InvalidRequestError "Unsupported aggregate operation: auto".
Proof.
  unfold TransformExecutor.apply_aggregate.
  destruct (TransformExecutor.aggregate_expressions _) eqn:E; cbn [bind];
    [discriminate |].
  intros [= <-]. exact (aggregate_expressions_error _ _ E).
Qed.

Lemma after_filters_error (t : Transform.t) (lf : pl.LazyFrame) (e : error) :
  after_filters t lf = Err e -> is_invalid_request e = true.
Proof.
  unfold after_filters.
  destruct (for_each TransformExecutor.derive_step _ _) as [lf1|e1] eqn:Ed; cbn [bind].
  - intros H.
    apply (for_each_error TransformExecutor.apply_aggregate
             (fun e => is_invalid_request e = true)) in H; [exact H |].
    intros s x e' He. now rewrite (apply_aggregate_error s x e' He).
  - intros [= <-].
    apply (for_each_error TransformExecutor.derive_step
             (fun e => is_invalid_request e = true)) in Ed; [exact Ed |].
    intros s x e' [= <-]. reflexivity.
Qed.

Lemma build_plan_error fs settings path decision filters limit_rows (e : error) :
  build_plan fs settings path decision filters limit_rows = Err e ->
  is_invalid_request e = true.
Proof.
  unfold build_plan.
  destruct (validate_data_path fs settings path) as [fp|e0] eqn:Ev; cbn [bind].
  2:{ intros [= <-]. exact (validate_data_path_error _ _ _ _ Ev). }
  destruct (TransformExecutor.read_lazy fs fp) as [lf0|e0] eqn:Er; cbn [bind].
  2:{ intros [= <-]. exact (read_lazy_error _ _ _ Er). }
  destruct (TransformExecutor.apply_filters lf0 filters) as [lf1|e0] eqn:Ef; cbn [bind].
  2:{ intros [= <-]. exact (apply_filters_error _ _ _ Ef). }
  rewrite apply_transforms_split.
  destruct (TransformExecutor.apply_filters lf1 _) as [lf2|e0] eqn:Et; cbn [bind].
  2:{ intros [= <-]. exact (apply_filters_error _ _ _ Et). }
  destruct (after_filters (clauses_of decision) lf2) as [lf3|e0] eqn:Ea; cbn [bind].
  - discriminate.
  - intros [= <-]. exact (after_filters_error _ _ _ Ea).
Qed.

Lemma execute_build_plan fs settings B path decision filters limit_rows :
  TransformExecutor.execute fs settings B path decision filters limit_rows
  = (lf <- build_plan fs settings path decision filters limit_rows ;;
     df <- pl.collect B lf ;;
     Ok (df, TransformExecutor.mkMeta (pl.height df)
               (Z.of_nat (List.length (or_empty filters))))).
Proof.
  unfold TransformExecutor.execute, build_plan, limited.
  destruct (validate_data_path fs settings path); cbn [bind]; [| reflexivity].
  destruct (TransformExecutor.read_lazy fs a); cbn [bind]; [| reflexivity].
  destruct (TransformExecutor.apply_filters a0 filters); cbn [bind]; [| reflexivity].
  destruct (TransformExecutor.apply_transforms a1 decision); cbn [bind]; reflexivity.
Qed.

(** X4.  [execute] works in two phases.  On a request whose plan the
    library builds (every membership list of one type, every bin with a
    step, no negative row limit) it first builds the whole plan from the
    path, the filters and the transform; every failure of this phase is an
    [InvalidRequestError], it is raised before any data is read, and it
    does not depend on the data.  Only when the plan is built is it
    collected, and the result is then the collected table with its
    metadata or the error of the collection. *)
Theorem execute_two_phases :
  forall fs settings path decision filters limit_rows,
    library_builds_plan filters decision ->
    limit_not_negative limit_rows ->
    match build_plan fs settings path decision filters limit_rows with
    | Err e =>
        is_invalid_request e = true
        /\ forall B,
            TransformExecutor.execute fs settings B path decision filters limit_rows
            = Err e
    | Ok lf =>
        forall B,
          TransformExecutor.execute fs settings B path decision filters limit_rows
          = match pl.collect B lf with
            | Ok df =>
                Ok (df, TransformExecutor.mkMeta (pl.height df)
                          (Z.of_nat (List.length (or_empty filters))))
            | Err e => Err e
            end
    end.
Proof.
  intros fs settings path decision filters limit_rows _ _.
  destruct (build_plan fs settings path decision filters limit_rows) as [lf|e] eqn:Eb.
  - intros B. rewrite execute_build_plan, Eb. cbn [bind].
    destruct (pl.collect B lf); reflexivity.
  - split; [exact (build_plan_error _ _ _ _ _ _ _ Eb) |].
    intros B. rewrite execute_build_plan, Eb. reflexivity.
Qed.

Lemma execute_two_phases_witness :
  match build_plan fs_sample settings_sample "/data/sales.csv" binned_sales_by_date
          (Some [sales_above_90]) (Some 1%Z) with
  | Err e =>
      is_invalid_request e = true
      /\ forall B,
          TransformExecutor.execute fs_sample settings_sample B "/data/sales.csv"
            binned_sales_by_date (Some [sales_above_90]) (Some 1%Z)
          = Err e
  | Ok lf =>
      forall B,
        TransformExecutor.execute fs_sample settings_sample B "/data/sales.csv"
          binned_sales_by_date (Some [sales_above_90]) (Some 1%Z)
        = match pl.collect B lf with
          | Ok df =>
              Ok (df, TransformExecutor.mkMeta (pl.height df)
                        (Z.of_nat (List.length (or_empty (Some [sales_above_90])))))
          | Err e => Err e
          end
  end.
Proof.
  apply (execute_two_phases fs_sample settings_sample "/data/sales.csv"
           binned_sales_by_date (Some [sales_above_90]) (Some 1%Z)).
  - split; repeat constructor.
  - cbn. lia.
Defined.

(** X5.  A measure with operation [auto] anywhere in the aggregate clauses
    makes the aggregate step raise [InvalidRequestError] with the message
    "Unsupported aggregate operation: auto", and makes [execute] raise an
    [InvalidRequestError] on every data set, for every request whose plan
    the library builds up to that clause (every membership list of one
    type, every bin with a step): nothing is aggregated in part. *)
Theorem aggregate_auto_rejected :
  forall (spec : AggregateSpec.t) (m : AggregateMeasure.t),
    In m (AggregateSpec.measures spec) ->
    AggregateMeasure.op m = AggregateOp.auto ->
    (forall lf,
        TransformExecutor.apply_aggregate lf spec
        = Err (InvalidRequestError "Unsupported aggregate operation: auto"))
    /\ (forall fs settings path decision filters limit_rows,
           In spec (or_empty (Transform.aggregate (clauses_of decision))) ->
           library_builds_plan filters decision ->
           exists msg, forall B,
             TransformExecutor.execute fs settings B path decision filters limit_rows
             = Err (InvalidRequestError msg)).
Proof.
  intros spec m Hin Hop.
  assert (Hstep : forall lf,
             TransformExecutor.apply_aggregate lf spec
             = Err (InvalidRequestError "Unsupported aggregate operation: auto")).
  { intros lf. unfold TransformExecutor.apply_aggregate.
    rewrite (aggregate_expressions_auto _ m Hin Hop). reflexivity. }
  split; [exact Hstep |].
  intros fs settings path decision filters limit_rows Hspec _.
  destruct (build_plan fs settings path decision filters limit_rows) as [lf|e] eqn:Eb.
  - exfalso. unfold build_plan in Eb.
    destruct (validate_data_path fs settings path) as [fp|]; cbn [bind] in Eb;
      [| discriminate].
    destruct (TransformExecutor.read_lazy fs fp) as [lf0|]; cbn [bind] in Eb;
      [| discriminate].
    destruct (TransformExecutor.apply_filters lf0 filters) as [lf1|]; cbn [bind] in Eb;
      [| discriminate].
    rewrite apply_transforms_split in Eb.
    destruct (TransformExecutor.apply_filters lf1 _) as [lf2|]; cbn [bind] in Eb;
      [| discriminate].
    unfold after_filters in Eb.
    destruct (for_each TransformExecutor.derive_step _ _) as [lf3|]; cbn [bind] in Eb;
      [| discriminate].
    destruct (for_each_rejects TransformExecutor.apply_aggregate _ spec Hspec
                (fun s => ex_intro _ _ (Hstep s))
                (fold_left TransformExecutor.apply_bin
                   (or_empty (Transform.bin (clauses_of decision))) lf3)) as [e He].
    rewrite He in Eb. discriminate.
  - pose proof (build_plan_error _ _ _ _ _ _ _ Eb) as Hc.
    destruct e; try discriminate. exists message. intros B.
    rewrite execute_build_plan, Eb. reflexivity.
Qed.

Lemma aggregate_auto_rejected_witness :
  exists msg, forall B,
    TransformExecutor.execute fs_sample settings_sample B "/data/sales.csv"
      (decision_with
         (Some (Transform.mk
                  (Some [sum_sales_by_date;
                         AggregateSpec.mk ["order_date"]
                           [AggregateMeasure.mk "sales" AggregateOp.auto None]])
                  (Some [BinSpec.mk "sales"
                           (Some (BinParam.mk None None (Some (inject_Z 50))))])
                  None None None)))
      (Some [sales_above_90]) None
    = Err (InvalidRequestError msg).
Proof.
  apply (proj2 (aggregate_auto_rejected
                  (AggregateSpec.mk ["order_date"]
                     [AggregateMeasure.mk "sales" AggregateOp.auto None])
                  (AggregateMeasure.mk "sales" AggregateOp.auto None)
                  (or_introl eq_refl) eq_refl)).
  - right. left. reflexivity.
  - split; repeat constructor.
Defined.

(* ================================================================== *)
(** * Row limit and metadata *)

Lemma collect_limited_height (B : pl.Backend) (limit_rows : option Z)
      (lf : pl.LazyFrame) (df : pl.DataFrame) (n : Z) :
  pl.collect B (limited limit_rows lf) = Ok df ->
  limit_rows = Some n -> n <> 0%Z ->
  (0 < n)%Z /\ (pl.height df <= n)%Z.
Proof.
  intros Hc -> Hn. unfold limited, truthy_Z in Hc.
  destruct (Z.eqb_spec n 0) as [E|_]; [contradiction |]. cbn [negb pl.collect] in Hc.
  destruct (pl.collect B lf) as [df0|e]; cbn [bind] in Hc; [| discriminate].
  unfold pl.df_limit in Hc. destruct (Z.ltb_spec n 0) as [Hlt|Hge]; [discriminate |].
  injection Hc as <-. split; [lia |].
  unfold pl.height. cbn [pl.rows].
  pose proof (firstn_le_length (Z.to_nat n) (pl.rows df0)) as Hl. lia.
Qed.

(** X6.  The metadata of a successful execution: [rows_after_filter] is the
    height of the returned table, counted after every transform and after
    the row limit, and [applied_filters] counts the request-level filters
    only.  A row limit other than 0 is positive and bounds the number of
    returned rows.  A row limit of 0 is no limit at all: the call behaves
    as without [limit_rows]. *)
Theorem execute_meta_and_limit :
  forall fs settings B path decision filters limit_rows,
    TransformExecutor.execute fs settings B path decision filters (Some 0%Z)
    = TransformExecutor.execute fs settings B path decision filters None
    /\ (forall df meta,
           TransformExecutor.execute fs settings B path decision filters limit_rows
           = Ok (df, meta) ->
           TransformExecutor.rows_after_filter meta = pl.height df
           /\ TransformExecutor.applied_filters meta
              = Z.of_nat (List.length (or_empty filters))
           /\ (forall n, limit_rows = Some n -> n <> 0%Z ->
                         (0 < n)%Z /\ (pl.height df <= n)%Z)).
Proof.
  intros fs settings B path decision filters limit_rows.
  split; [reflexivity |].
  intros df meta. rewrite execute_build_plan.
  destruct (build_plan fs settings path decision filters limit_rows) as [lf|e] eqn:Eb;
    cbn [bind]; [| discriminate].
  destruct (pl.collect B lf) as [df0|e] eqn:Ec; cbn [bind]; [| discriminate].
  intros [= <- <-]. cbn. repeat split; try reflexivity;
    unfold build_plan in Eb;
    destruct (validate_data_path fs settings path) as [fp|]; cbn [bind] in Eb;
      try discriminate;
    destruct (TransformExecutor.read_lazy fs fp) as [lf0|]; cbn [bind] in Eb;
      try discriminate;
    destruct (TransformExecutor.apply_filters lf0 filters) as [lf1|]; cbn [bind] in Eb;
      try discriminate;
    destruct (TransformExecutor.apply_transforms lf1 decision) as [lf2|];
      cbn [bind] in Eb; try discriminate;
    injection Eb as <-;
    eapply collect_limited_height; eassumption.
Qed.

Lemma execute_meta_and_limit_witness :
  TransformExecutor.rows_after_filter (TransformExecutor.mkMeta 2 1)
  = pl.height (pl.mkDataFrame ["order_date"; "sales"]
                 [ [VStr "2024-01-01"; VInt 120]; [VStr "2024-01-02"; VInt 95] ])
  /\ (0 < 3)%Z
  /\ (pl.height (pl.mkDataFrame ["order_date"; "sales"]
                   [ [VStr "2024-01-01"; VInt 120]; [VStr "2024-01-02"; VInt 95] ])
      <= 3)%Z.
Proof.
  pose proof (proj2 (execute_meta_and_limit fs_sample settings_sample
                       (backend_of sample_sales) "/data/sales.csv" (decision_with None)
                       (Some [sales_above_90]) (Some 3%Z))
                _ _ ltac:(vm_compute; reflexivity)) as (H1 & _ & H3).
  split; [exact H1 |]. apply (H3 3%Z eq_refl). discriminate.
Defined.

(* ================================================================== *)
(** * How filters compose *)

Lemma apply_filters_or_empty (lf : pl.LazyFrame) (filters : option (list FilterSpec.t)) :
  TransformExecutor.apply_filters lf filters
  = for_each TransformExecutor.filter_step (or_empty filters) lf.
Proof. destruct filters as [[|x xs]|]; reflexivity. Qed.

Lemma after_filters_ignores_filter (a : option (list AggregateSpec.t))
      (b : option (list BinSpec.t)) (u : option (list TimeUnitSpec.t))
      (d : option (list DeriveSpec.t)) (f g : option (list FilterSpec.t))
      (lf : pl.LazyFrame) :
  after_filters (Transform.mk a b u d f) lf = after_filters (Transform.mk a b u d g) lf.
Proof. reflexivity. Qed.

(** X7.  The request-level filters and the filters of the transform are
    one list to the executor: executing with request filters [F] and clause
    filters [T] gives the table (or raises the error) that executing with
    request filters [F ++ T] and no clause filter gives.  Only
    [applied_filters] in the metadata tells the two calls apart. *)
Theorem request_and_clause_filters_concatenate :
  forall fs settings B path decision filters limit_rows,
    table_of
      (TransformExecutor.execute fs settings B path decision filters limit_rows)
    = table_of
        (TransformExecutor.execute fs settings B path
           (with_clause_filter decision None)
           (Some (or_empty filters
                    ++ or_empty (Transform.filter (clauses_of decision)))%list)
           limit_rows).
Proof.
  intros fs settings B path decision filters limit_rows.
  assert (Hplan :
            build_plan fs settings path decision filters limit_rows
            = build_plan fs settings path (with_clause_filter decision None)
                (Some (or_empty filters
                         ++ or_empty (Transform.filter (clauses_of decision)))%list)
                limit_rows).
  { unfold build_plan.
    destruct (validate_data_path fs settings path) as [fp|]; cbn [bind];
      [| reflexivity].
    destruct (TransformExecutor.read_lazy fs fp) as [lf0|]; cbn [bind];
      [| reflexivity].
    rewrite !apply_filters_or_empty. cbn [or_empty]. rewrite for_each_app.
    destruct (for_each TransformExecutor.filter_step (or_empty filters) lf0)
      as [lf1|]; cbn [bind]; [| reflexivity].
    rewrite (apply_transforms_split lf1 decision), apply_filters_or_empty.
    destruct (for_each TransformExecutor.filter_step
                (or_empty (Transform.filter (clauses_of decision))) lf1)
      as [lf2|]; cbn [bind]; [| reflexivity].
    rewrite (apply_transforms_split lf2 (with_clause_filter decision None)).
    unfold with_clause_filter.
    destruct (clauses_of decision) as [a b u d f] eqn:Ec.
    unfold clauses_of at 1 2. cbn. reflexivity. }
  rewrite !execute_build_plan, Hplan.
  destruct (build_plan fs settings path (with_clause_filter decision None) _ limit_rows)
    as [lf|]; cbn [bind]; [| reflexivity].
  destruct (pl.collect B lf); reflexivity.
Qed.

(* ================================================================== *)
(** * What filters keep *)

Lemma subseq_refl {A : Type} (l : list A) : subseq l l.
Proof. induction l; [apply subseq_nil | now apply subseq_keep]. Qed.

Lemma subseq_trans {A : Type} (l1 l2 l3 : list A) :
  subseq l1 l2 -> subseq l2 l3 -> subseq l1 l3.
Proof.
  intros H12 H23. revert l1 H12.
  induction H23 as [| x l2 l3 H IH | x l2 l3 H IH]; intros l1 H12.
  - exact H12.
  - apply subseq_skip. now apply IH.
  - inversion H12; subst.
    + apply subseq_skip. now apply IH.
    + apply subseq_keep. now apply IH.
Qed.

Lemma subseq_length {A : Type} (l1 l2 : list A) :
  subseq l1 l2 -> (List.length l1 <= List.length l2)%nat.
Proof. induction 1; cbn; lia. Qed.

Lemma select_rows_subseq (mask : list scalar) (rs rs' : list (list scalar)) :
  pl.select_rows mask rs = Ok rs' -> subseq rs' rs.
Proof.
  revert rs rs'. induction mask as [|m mask IH]; intros rs rs'.
  - destruct rs; intros [= <-]; [apply subseq_nil |].
    apply subseq_skip. clear.
    induction rs; [apply subseq_nil | now apply subseq_skip].
  - destruct rs as [|r rs]; [intros [= <-]; apply subseq_nil |].
    cbn [pl.select_rows].
    destruct m as [| [|] | | | |]; try discriminate.
    + intros H. apply subseq_skip. now apply IH.
    + destruct (pl.select_rows mask rs) as [rs''|] eqn:E; cbn [bind]; [| discriminate].
      intros [= <-]. apply subseq_keep. now apply IH.
    + intros H. apply subseq_skip. now apply IH.
Qed.

Lemma stage_filter_subseq (B : pl.Backend) (specs : list FilterSpec.t) :
  forall df df',
    stage_filter B (Some specs) df = Ok df' ->
    pl.columns df' = pl.columns df /\ subseq (pl.rows df') (pl.rows df).
Proof.
  unfold stage_filter. cbn [or_empty].
  induction specs as [|s specs IH]; intros df df'.
  - intros [= <-]. split; [reflexivity | apply subseq_refl].
  - cbn [for_each].
    destruct (filter_predicate s) as [p|]; cbn [bind]; [| discriminate].
    unfold pl.df_filter at 1.
    destruct (pl.eval B df p) as [mask|]; cbn [bind]; [| discriminate].
    destruct (pl.select_rows mask (pl.rows df)) as [rs|] eqn:Es; cbn [bind];
      [| discriminate].
    intros H. destruct (IH _ _ H) as [Hc Hr]. cbn in Hc, Hr.
    split; [exact Hc |].
    eapply subseq_trans; [exact Hr | exact (select_rows_subseq _ _ _ Es)].
Qed.

(** X8.  Filters only take rows away.  Whatever the filters are, the table
    collected after them has the columns of the table before them, and its
    rows are rows of that table in their original order, each unchanged;
    in particular it is not taller. *)
Theorem filters_only_remove_rows :
  forall (B : pl.Backend) (filters : option (list FilterSpec.t))
         (lf lf' : pl.LazyFrame) (df df' : pl.DataFrame),
    TransformExecutor.apply_filters lf filters = Ok lf' ->
    pl.collect B lf = Ok df ->
    pl.collect B lf' = Ok df' ->
    pl.columns df' = pl.columns df
    /\ subseq (pl.rows df') (pl.rows df)
    /\ (pl.height df' <= pl.height df)%Z.
Proof.
  intros B filters lf lf' df df' Hf Hc Hc'.
  pose proof (refines_apply_filters B lf filters) as HR.
  unfold refines in HR. rewrite Hf in HR. rewrite Hc', Hc in HR. cbn [bind] in HR.
  symmetry in HR.
  assert (Hs : stage_filter B (Some (or_empty filters)) df = Ok df')
    by (destruct filters; exact HR).
  destruct (stage_filter_subseq B _ _ _ Hs) as [H1 H2].
  repeat split; try assumption.
  unfold pl.height. apply subseq_length in H2. lia.
Qed.

Lemma filters_only_remove_rows_witness :
  subseq [ [VStr "2024-01-01"; VInt 120]; [VStr "2024-01-02"; VInt 95] ]
         (pl.rows sample_sales).
Proof.
  apply (proj1 (proj2
           (filters_only_remove_rows (backend_of sample_sales)
              (Some [sales_above_90])
              (pl.scan_csv "/data/sales.csv" ",") _ sample_sales
              (pl.mkDataFrame ["order_date"; "sales"]
                 [ [VStr "2024-01-01"; VInt 120]; [VStr "2024-01-02"; VInt 95] ])
              eq_refl eq_refl ltac:(vm_compute; reflexivity)))).
Defined.

Lemma select_rows_bool (p : list scalar -> bool) (rs : list (list scalar)) :
  pl.select_rows (map (fun r => VBool (p r)) rs) rs = Ok (filter p rs).
Proof.
  induction rs as [|r rs IH]; [reflexivity |].
  cbn [map pl.select_rows filter]. destruct (p r); rewrite IH; reflexivity.
Qed.

Lemma filter_complement_length {A : Type} (p : A -> bool) (l : list A) :
  (List.length (filter p l) + List.length (filter (fun x => negb (p x)) l)
   = List.length l)%nat.
Proof.
  induction l as [|x l IH]; [reflexivity |].
  cbn [filter]. destruct (p x); cbn; lia.
Qed.

(** X9.  The null tests look at the column only: whatever [value] and
    [values] a filter specification carries, [is_null] keeps exactly the
    rows whose cell is null and [is_not_null] exactly the others, so the
    two results split the table between them. *)
Theorem null_filters_split_the_rows :
  forall (B : pl.Backend) (lf : pl.LazyFrame) (df : pl.DataFrame)
         (field : string) (j : nat) (v v' : scalar) (vs vs' : option (list scalar)),
    pl.collect B lf = Ok df ->
    pl.index_of field (pl.columns df) = Some j ->
    let nulls := filter (fun r => pl.null_cell (pl.cell j r)) (pl.rows df) in
    let others := filter (fun r => negb (pl.null_cell (pl.cell j r))) (pl.rows df) in
    (exists lf',
        TransformExecutor.filter_step lf (FilterSpec.mk field FilterOp.is_null v vs)
        = Ok lf'
        /\ pl.collect B lf' = Ok (pl.mkDataFrame (pl.columns df) nulls))
    /\ (exists lf',
           TransformExecutor.filter_step lf
             (FilterSpec.mk field FilterOp.is_not_null v' vs') = Ok lf'
           /\ pl.collect B lf' = Ok (pl.mkDataFrame (pl.columns df) others))
    /\ (List.length nulls + List.length others = List.length (pl.rows df))%nat.
Proof.
  intros B lf df field j v v' vs vs' Hc Hj nulls others.
  split; [| split].
  - eexists. split; [reflexivity |].
    cbn [pl.collect FilterSpec.field]. rewrite Hc. cbn [bind].
    unfold pl.df_filter. cbn [pl.eval]. unfold pl.get_column. rewrite Hj.
    cbn [bind]. rewrite map_map.
    rewrite (map_ext _ (fun r => VBool (pl.null_cell (pl.cell j r))))
      by (intros r; destruct (pl.cell j r); reflexivity).
    rewrite select_rows_bool. reflexivity.
  - eexists. split; [reflexivity |].
    cbn [pl.collect FilterSpec.field]. rewrite Hc. cbn [bind].
    unfold pl.df_filter. cbn [pl.eval]. unfold pl.get_column. rewrite Hj.
    cbn [bind]. rewrite map_map.
    rewrite (select_rows_bool (fun r => negb (pl.null_cell (pl.cell j r)))).
    reflexivity.
  - apply filter_complement_length.
Qed.

Lemma null_filters_split_the_rows_witness :
  (List.length (filter (fun r => pl.null_cell (pl.cell 1 r)) (pl.rows sample_sales))
   + List.length (filter (fun r => negb (pl.null_cell (pl.cell 1 r)))
                         (pl.rows sample_sales))
   = List.length (pl.rows sample_sales))%nat.
Proof.
  apply (proj2 (proj2
           (null_filters_split_the_rows (backend_of sample_sales)
              (pl.scan_csv "/data/sales.csv" ",") sample_sales "sales" 1%nat
              (VInt 3) VNull (Some [VInt 1]) None eq_refl eq_refl))).
Defined.

(** X10.  An [in] filter whose [values] are absent is not rejected: the
    executor tests membership in the empty list and the filter keeps no
    row. *)
Theorem in_filter_without_values_keeps_nothing :
  forall (B : pl.Backend) (lf : pl.LazyFrame) (df : pl.DataFrame)
         (field : string) (j : nat) (v : scalar),
    pl.collect B lf = Ok df ->
    pl.index_of field (pl.columns df) = Some j ->
    exists lf',
      TransformExecutor.filter_step lf (FilterSpec.mk field FilterOp.in_ v None)
      = Ok lf'
      /\ pl.collect B lf' = Ok (pl.mkDataFrame (pl.columns df) []).
Proof.
  intros B lf df field j v Hc Hj.
  eexists. split; [reflexivity |].
  cbn [pl.collect FilterSpec.field FilterSpec.values or_empty]. rewrite Hc. cbn [bind].
  unfold pl.df_filter. cbn [pl.eval]. unfold pl.get_column. rewrite Hj. cbn [bind].
  rewrite (map_cells_map (pl.is_in_cell []) (pl.cell j)
             (fun r => if pl.null_cell (pl.cell j r) then VNull else VBool false))
    by (intros r _; destruct (pl.cell j r); reflexivity).
  cbn [bind].
  assert (E : pl.select_rows
                (map (fun r => if pl.null_cell (pl.cell j r) then VNull else VBool false)
                     (pl.rows df)) (pl.rows df) = Ok []).
  { induction (pl.rows df) as [|r rs IH]; [reflexivity |].
    cbn [map pl.select_rows]. destruct (pl.null_cell (pl.cell j r)); exact IH. }
  rewrite E. reflexivity.
Qed.

Lemma in_filter_without_values_keeps_nothing_witness :
  exists lf',
    TransformExecutor.filter_step (pl.scan_csv "/data/sales.csv" ",")
      (FilterSpec.mk "sales" FilterOp.in_ VNull None) = Ok lf'
    /\ pl.collect (backend_of sample_sales) lf'
       = Ok (pl.mkDataFrame (pl.columns sample_sales) []).
Proof.
  apply (in_filter_without_values_keeps_nothing (backend_of sample_sales)
           (pl.scan_csv "/data/sales.csv" ",") sample_sales "sales" 1%nat VNull
           eq_refl eq_refl).
Defined.

(* ================================================================== *)
(** * Step bins *)

Lemma step_bin_of_floor (step : Q) (v : scalar) :
  0 < step -> numeric_cell v ->
  step_bin_of step v
    (match pl.as_Q v with
     | Some q => VFloat (inject_Z (Qfloor (q / step)) * step)
     | None => VNull
     end).
Proof.
  intros Hs Hv. unfold step_bin_of.
  destruct (pl.as_Q v) as [q|]; [| reflexivity].
  assert (Hne : ~ step == 0) by (intros E; rewrite E in Hs; discriminate).
  assert (Hq : q / step * step == q) by (field; exact Hne).
  exists (Qfloor (q / step)). split; [reflexivity |]. split.
  - rewrite <- Hq at 2. apply Qmult_le_r; [exact Hs | apply Qfloor_le].
  - assert (Hlt : q / step * step < inject_Z (Qfloor (q / step) + 1) * step)
      by (apply Qmult_lt_r; [exact Hs | apply Qlt_floor]).
    rewrite Hq in Hlt. rewrite inject_Z_plus in Hlt.
    setoid_replace (inject_Z (Qfloor (q / step)) * step + step)
      with ((inject_Z (Qfloor (q / step)) + inject_Z 1) * step) by ring.
    exact Hlt.
Qed.

Lemma eval_step_bin (B : pl.Backend) (df : pl.DataFrame) (field : string) (j : nat)
      (step : Q) :
  Qeq_bool step 0 = false ->
  pl.index_of field (pl.columns df) = Some j ->
  Forall (fun r => numeric_cell (pl.cell j r)) (pl.rows df) ->
  pl.eval B df (pl.mul (pl.floor (pl.truediv (pl.col field) step)) step)
  = Ok (map (fun r => match pl.as_Q (pl.cell j r) with
                      | Some q => VFloat (inject_Z (Qfloor (q / step)) * step)
                      | None => VNull
                      end) (pl.rows df)).
Proof.
  intros Hs Hj Hall. cbn [pl.eval]. unfold pl.get_column. rewrite Hj. cbn [bind].
  rewrite Forall_forall in Hall.
  rewrite (map_cells_map (pl.truediv_cell step) (pl.cell j)
             (fun r => match pl.as_Q (pl.cell j r) with
                       | Some q => VFloat (q / step)
                       | None => VNull
                       end)).
  2:{ intros r Hr. specialize (Hall r Hr). unfold pl.truediv_cell. rewrite Hs.
      destruct (pl.cell j r); cbn in *; try reflexivity; contradiction. }
  cbn [bind].
  rewrite (map_cells_map pl.floor_cell _
             (fun r => match pl.as_Q (pl.cell j r) with
                       | Some q => VFloat (inject_Z (Qfloor (q / step)))
                       | None => VNull
                       end)).
  2:{ intros r _. destruct (pl.as_Q (pl.cell j r)); reflexivity. }
  cbn [bind].
  apply map_cells_map. intros r _. destruct (pl.as_Q (pl.cell j r)); reflexivity.
Qed.

Lemma int32_cell_numeric (v : scalar) : int32_cell v -> numeric_cell v.
Proof. destruct v; cbn; tauto. Qed.

Lemma whole_step_bin_floor (s : Z) (v : scalar) :
  int32_cell v ->
  match pl.as_Q v with
  | Some q => VFloat (inject_Z (Qfloor (q / inject_Z s)) * inject_Z s)
  | None => VNull
  end
  = whole_step_bin s v.
Proof.
  destruct v; cbn [int32_cell pl.as_Q whole_step_bin]; intros H;
    try reflexivity; try contradiction.
  now rewrite <- Zdiv_Qdiv, <- inject_Z_mult.
Qed.

(** X11.  Step binning of a column of integers by a positive whole step,
    both of magnitude at most 2^31 (where double precision computes the
    quotient, its floor and the product without rounding), replaces the
    column, in place, by the start of each value's bin: a null stays null,
    and an integer [z] becomes the greatest multiple of the step that is
    not above it, [z // step * step], so that with [k = z // step],
    [k * step <= z < k * step + step].  Strategy and [maxbins] play no part
    once a step is given. *)
Theorem step_bin_bounds :
  forall (B : pl.Backend) (lf : pl.LazyFrame) (df : pl.DataFrame)
         (field : string) (j : nat) (strategy : option string)
         (maxbins : option Z) (s : Z),
    (0 < s <= 2147483648)%Z ->
    pl.collect B lf = Ok df ->
    pl.index_of field (pl.columns df) = Some j ->
    Forall (fun r => int32_cell (pl.cell j r)) (pl.rows df) ->
    let bins := map (fun r => whole_step_bin s (pl.cell j r)) (pl.rows df) in
    pl.collect B
      (TransformExecutor.apply_bin lf
         (BinSpec.mk field (Some (BinParam.mk strategy maxbins (Some (inject_Z s))))))
    = Ok (pl.set_column df field bins)
    /\ Forall2 (step_bin_of (inject_Z s)) (map (pl.cell j) (pl.rows df)) bins.
Proof.
  intros B lf df field j strategy maxbins s [Hs _] Hc Hj Hall bins.
  assert (Hq : 0 < inject_Z s).
  { change 0 with (inject_Z 0). rewrite <- Zlt_Qlt. exact Hs. }
  assert (Hz : Qeq_bool (inject_Z s) 0 = false).
  { destruct (Qeq_bool (inject_Z s) 0) eqn:E; [| reflexivity].
    apply Qeq_bool_eq in E. rewrite E in Hq. discriminate. }
  assert (Hnum : Forall (fun r => numeric_cell (pl.cell j r)) (pl.rows df)).
  { eapply Forall_impl; [| exact Hall]. intros r. apply int32_cell_numeric. }
  assert (Hbins : map (fun r => match pl.as_Q (pl.cell j r) with
                                | Some q =>
                                    VFloat (inject_Z (Qfloor (q / inject_Z s)) * inject_Z s)
                                | None => VNull
                                end) (pl.rows df) = bins).
  { subst bins. apply map_ext_in. intros r Hr.
    rewrite Forall_forall in Hall. exact (whole_step_bin_floor s _ (Hall r Hr)). }
  split.
  - rewrite (apply_bin_step lf field strategy maxbins (inject_Z s) Hz).
    cbn [pl.collect]. rewrite Hc. cbn [bind]. unfold pl.df_with_columns.
    rewrite (eval_step_bin B df field j (inject_Z s) Hz Hj Hnum). cbn [bind].
    rewrite Hbins. subst bins. rewrite length_map, Nat.eqb_refl. reflexivity.
  - subst bins. clear Hbins Hnum Hc.
    induction Hall as [| r rs Hr _ IH]; cbn [map]; constructor.
    + rewrite <- (whole_step_bin_floor s _ Hr).
      exact (step_bin_of_floor (inject_Z s) _ Hq (int32_cell_numeric _ Hr)).
    + exact IH.
Qed.

Lemma step_bin_bounds_witness :
  pl.collect (backend_of sample_levels)
    (TransformExecutor.apply_bin (pl.scan_csv "/data/levels.csv" ",")
       (BinSpec.mk "level" (Some (BinParam.mk None (Some 4%Z) (Some (inject_Z 4))))))
  = Ok (pl.mkDataFrame ["level"] [[VFloat 0]; [VFloat (inject_Z 4)]; [VFloat (inject_Z 8)]])
  /\ Forall2 (step_bin_of (inject_Z 4)) [VInt 1; VInt 5; VInt 10]
             [VFloat 0; VFloat (inject_Z 4); VFloat (inject_Z 8)].
Proof.
  apply (step_bin_bounds (backend_of sample_levels) (pl.scan_csv "/data/levels.csv" ",")
           sample_levels "level" 0%nat None (Some 4%Z) 4%Z).
  - lia.
  - reflexivity.
  - reflexivity.
  - repeat constructor; cbn; lia.
Defined.

(* ================================================================== *)
(** * Time units that add a column *)

(** X12.  A time-unit clause with a unit other than [auto], whose alias
    ["{field}:{unit}"] is not yet a column, leaves every existing column
    and cell as it is and adds the bucket column as the last one. *)
Theorem time_unit_adds_last_column :
  forall (B : pl.Backend) (lf : pl.LazyFrame) (df : pl.DataFrame)
         (spec : TimeUnitSpec.t) (j : nat),
    TimeUnitSpec.unit spec <> TimeUnit.auto ->
    pl.collect B lf = Ok df ->
    pl.index_of (TimeUnitSpec.field spec) (pl.columns df) = Some j ->
    pl.index_of
      (TimeUnitSpec.field spec ++ ":" ++ TimeUnit.value (TimeUnitSpec.unit spec))
      (pl.columns df) = None ->
    Forall (fun r => temporal_cell (pl.cell j r)) (pl.rows df) ->
    pl.collect B (TransformExecutor.time_unit_step lf spec)
    = Ok (pl.mkDataFrame
            (pl.columns df
               ++ [(TimeUnitSpec.field spec ++ ":"
                      ++ TimeUnit.value (TimeUnitSpec.unit spec))%string])%list
            (map (fun r => (r ++ [bucket_cell (TimeUnitSpec.unit spec) (pl.cell j r)])%list)
                 (pl.rows df))).
Proof.
  intros B lf df spec j Hu Hc Hj Hnew Hall.
  rewrite time_unit_step_expr. cbn [pl.collect]. rewrite Hc. cbn [bind].
  unfold pl.df_with_columns.
  rewrite (eval_time_unit_expr B df spec j Hj Hall). cbn [bind].
  rewrite length_map, Nat.eqb_refl, time_unit_expr_name.
  assert (Ha : time_unit_alias spec
               = TimeUnitSpec.field spec ++ ":" ++ TimeUnit.value (TimeUnitSpec.unit spec)).
  { unfold time_unit_alias. destruct (TimeUnitSpec.unit spec); try reflexivity.
    now contradiction Hu. }
  rewrite Ha. unfold pl.set_column. rewrite Hnew, zip_rows_map. reflexivity.
Qed.

Lemma time_unit_adds_last_column_witness :
  pl.collect (backend_of sample_events)
    (TransformExecutor.time_unit_step (pl.scan_csv "/data/events.csv" ",")
       (TimeUnitSpec.mk "ts" TimeUnit.week))
  = Ok (pl.mkDataFrame
          (pl.columns sample_events
             ++ [("ts" ++ ":" ++ TimeUnit.value TimeUnit.week)%string])%list
          (map (fun r => (r ++ [bucket_cell TimeUnit.week (pl.cell 0 r)])%list)
               (pl.rows sample_events))).
Proof.
  apply (time_unit_adds_last_column (backend_of sample_events)
           (pl.scan_csv "/data/events.csv" ",") sample_events
           (TimeUnitSpec.mk "ts" TimeUnit.week) 0%nat).
  - discriminate.
  - reflexivity.
  - reflexivity.
  - reflexivity.
  - repeat constructor.
Defined.

(* ================================================================== *)
(** * What the composer reads *)

(** X13.  The composed specification depends on the chart type, on the
    channels x, y, color, size and shape of the encoding, and on the rows;
    on nothing else.  Two decisions that agree on these give the same
    specification, whatever their transform, fields, score, justification
    and their row, column and order channels are. *)
Theorem compose_reads_type_and_five_channels :
  forall (d d' : VisualizationDecision.t) (data : list row_dict),
    Chart.type (VisualizationDecision.chart d)
    = Chart.type (VisualizationDecision.chart d') ->
    Encoding.x (VisualizationDecision.encoding d)
    = Encoding.x (VisualizationDecision.encoding d') ->
    Encoding.y (VisualizationDecision.encoding d)
    = Encoding.y (VisualizationDecision.encoding d') ->
    Encoding.color (VisualizationDecision.encoding d)
    = Encoding.color (VisualizationDecision.encoding d') ->
    Encoding.size (VisualizationDecision.encoding d)
    = Encoding.size (VisualizationDecision.encoding d') ->
    Encoding.shape (VisualizationDecision.encoding d)
    = Encoding.shape (VisualizationDecision.encoding d') ->
    Composer.compose d data = Composer.compose d' data.
Proof.
  intros d d' data Ht Hx Hy Hc Hs Hh.
  unfold Composer.compose. rewrite Ht. rewrite !build_encoding_entries.
  cbv zeta. rewrite Hx, Hy, Hc, Hs, Hh. reflexivity.
Qed.

Lemma compose_reads_type_and_five_channels_witness :
  Composer.compose
    (decision_with (Some (Transform.mk (Some [sum_sales_by_date]) None None None None)))
    []
  = Composer.compose
      (VisualizationDecision.mk (Chart.mk ChartType.bar (1 # 10) None) [] None
         (Encoding.mk None None None None None
            (Some (FacetChannel.mk (Some "region") (Some "nominal") None)) None
            (Some (OrderChannel.mk (Some "sales") (Some "desc"))))
         None "" None)
      [].
Proof.
  apply compose_reads_type_and_five_channels; reflexivity.
Defined.

(* ================================================================== *)
(** * The render route *)

(** X14.  [render] is all or nothing.  When the execution fails, the
    request fails with the same error and no specification is produced;
    composing adds no failure of its own.  When it succeeds, the response
    carries the metadata of the execution, the rows of the executed table
    as dictionaries, and a specification whose data values are those same
    rows and whose encoding is the one of the decision; the metadata's
    [rows_after_filter] is the number of rows in the response. *)
Theorem render_all_or_nothing :
  forall (fs : FileSystem) (settings : Settings) (B : pl.Backend)
         (request : RenderRequest.t),
    let run :=
      TransformExecutor.execute fs settings B
        (RenderRequest.path request) (RenderRequest.decision request)
        (RenderRequest.filters request) (RenderRequest.limit_rows request) in
    match render fs settings B request with
    | Err e => run = Err e
    | Ok response =>
        let spec := RenderResponse.vega_lite response in
        let rows := RenderResponse.data response in
        exists df,
          run = Ok (df, RenderResponse.meta response)
          /\ rows = pl.to_dicts df
          /\ TransformExecutor.rows_after_filter (RenderResponse.meta response)
             = Z.of_nat (List.length rows)
          /\ dict_keys spec = ["$schema"; "data"; "mark"; "encoding"; "config"]
          /\ dict_get spec "data"
             = Some (JDict [("values", JList (map json_of_row rows))])
          /\ dict_get spec "encoding"
             = Some (JDict (Composer.build_encoding (RenderRequest.decision request)))
    end.
Proof.
  intros fs settings B request run. unfold render. fold run.
  destruct run as [[df meta]|e] eqn:Erun; cbn [bind fst snd]; [| reflexivity].
  cbn [RenderResponse.vega_lite RenderResponse.data RenderResponse.meta].
  exists df. repeat split.
  subst run. rewrite execute_build_plan in Erun.
  destruct (build_plan _ _ _ _ _ _) as [lf|]; cbn [bind] in Erun; [| discriminate].
  destruct (pl.collect B lf) as [df0|]; cbn [bind] in Erun; [| discriminate].
  injection Erun as <- <-. cbn. unfold pl.to_dicts, pl.height.
  now rewrite length_map.
Qed.

(* ================================================================== *)
(** * The fallback decision as a whole *)

(** Every chart the fallback can draft: its fields are the fields of its
    two channels, with the same types. *)
Lemma choose_consistent (cols : list Payload.column) (d : LLMDecider.draft) :
  LLMDecider.choose cols = Some d ->
  Chart.score (LLMDecider.d_chart d) = 3 # 10
  /\ (forall f, In f (LLMDecider.d_fields d) ->
                (Channel.field (LLMDecider.d_x d) = Some (FieldSpec.name f)
                 /\ Channel.type (LLMDecider.d_x d) = Some (FieldSpec.type f))
                \/ (Channel.field (LLMDecider.d_y d) = Some (FieldSpec.name f)
                    /\ Channel.type (LLMDecider.d_y d) = Some (FieldSpec.type f)))
  /\ (exists f, In f (LLMDecider.d_fields d)
                /\ Channel.field (LLMDecider.d_x d) = Some (FieldSpec.name f))
  /\ (exists f, In f (LLMDecider.d_fields d)
                /\ Channel.field (LLMDecider.d_y d) = Some (FieldSpec.name f)).
Proof.
  unfold LLMDecider.choose.
  destruct (LLMDecider.cols_of_type cols "temporal") as [|t T];
    destruct (LLMDecider.cols_of_type cols "quantitative") as [|q [|q' Q]];
    destruct (LLMDecider.cols_of_type cols "nominal") as [|n N];
    intros H; inversion H; subst d; cbn;
    (split; [reflexivity |]);
    (split;
     [intros f Hin; repeat (destruct Hin as [<- | Hin]); try contradiction;
      cbn; auto |]);
    split;
    first [ eexists; split; [left; reflexivity | reflexivity]
          | eexists; split; [right; left; reflexivity | reflexivity] ].
Qed.

Lemma fallback_decision_some (payload : Payload.t) (reason : string)
      (d : VisualizationDecision.t) :
  LLMDecider.fallback_decision payload reason = Ok (Some d) ->
  exists dr,
    LLMDecider.choose (or_empty (Payload.columns payload)) = Some dr
    /\ VisualizationDecision.chart d = LLMDecider.d_chart dr
    /\ VisualizationDecision.fields d = LLMDecider.d_fields dr
    /\ VisualizationDecision.transform d = None
    /\ VisualizationDecision.encoding d
       = Encoding.mk (Some (LLMDecider.d_x dr)) (Some (LLMDecider.d_y dr))
                     None None None None None None
    /\ VisualizationDecision.assumptions d
       = Some ["Heuristic fallback applied because model decision failed";
               "Reason: " ++ reason].
Proof.
  unfold LLMDecider.fallback_decision.
  destruct (LLMDecider.choose _) as [dr|]; [| discriminate].
  destruct (Payload.payload_profile payload) as [p|].
  - destruct (LLMDecider.validate_profile p); cbn [bind]; [| discriminate].
    intros [= <-]. exists dr. repeat split.
  - cbn [bind]. intros [= <-]. exists dr. repeat split.
Qed.

(** X15.  A decision produced by the fallback is self-consistent and goes
    through the rest of the pipeline untouched: it has no transform, its
    encoding has the x and the y channel and no other, every field it lists
    is the field of one of the two channels with the same type, and each
    channel's field is listed.  The composer therefore emits exactly the
    keys x and y for it, and the executor applies no clause. *)
Theorem fallback_decision_is_consistent :
  forall (payload : Payload.t) (reason : string) (d : VisualizationDecision.t),
    LLMDecider.fallback_decision payload reason = Ok (Some d) ->
    exists x y,
      VisualizationDecision.encoding d
      = Encoding.mk (Some x) (Some y) None None None None None None
      /\ VisualizationDecision.transform d = None
      /\ (forall f, In f (VisualizationDecision.fields d) ->
                    (Channel.field x = Some (FieldSpec.name f)
                     /\ Channel.type x = Some (FieldSpec.type f))
                    \/ (Channel.field y = Some (FieldSpec.name f)
                        /\ Channel.type y = Some (FieldSpec.type f)))
      /\ (exists f, In f (VisualizationDecision.fields d)
                    /\ Channel.field x = Some (FieldSpec.name f))
      /\ (exists f, In f (VisualizationDecision.fields d)
                    /\ Channel.field y = Some (FieldSpec.name f))
      /\ dict_keys (Composer.build_encoding d) = ["x"; "y"]
      /\ (forall lf, TransformExecutor.apply_transforms lf d = Ok lf).
Proof.
  intros payload reason d H.
  destruct (fallback_decision_some payload reason d H)
    as (dr & Hc & Hchart & Hfields & Ht & Henc & _).
  destruct (choose_consistent _ _ Hc) as (_ & Hf & Hx & Hy).
  exists (LLMDecider.d_x dr), (LLMDecider.d_y dr).
  rewrite Hfields. repeat split; try assumption.
  - rewrite build_encoding_entries, Henc. reflexivity.
  - intros lf. unfold TransformExecutor.apply_transforms. now rewrite Ht.
Qed.

Lemma fallback_decision_is_consistent_witness :
  exists x y,
    Encoding.mk
      (Some (Channel.mk (Some "price") None None (Some (ChannelBin.flag true))
                        (Some SemanticType.quantitative)))
      (Some (Channel.mk (Some "price") (Some AggregateOp.count) None None
                        (Some SemanticType.quantitative)))
      None None None None None None
    = Encoding.mk (Some x) (Some y) None None None None None None.
Proof.
  destruct (fallback_decision_is_consistent
              (Payload.mk None (Some [Payload.mk_column "price" (Some "quantitative")]))
              "no key" _ eq_refl) as (x & y & H & _).
  exists x, y. exact H.
Defined.

(* ================================================================== *)
(** * The decider *)

Lemma call_openai_error (env : ModelEnv) (model_name : string) (payload : Payload.t)
      (e : error) :
  LLMCall.call_openai env model_name payload = Err e ->
  exists msg,
    e = ModelDecisionFailedError msg
    /\ In msg ["OpenAI API key not configured"; "OpenAI request failed";
               "Failed to parse OpenAI response"].
Proof.
  unfold LLMCall.call_openai.
  destruct (negb (truthy_opt_str (openai_api_key env))).
  { intros [= <-]. eexists. split; [reflexivity | cbn; auto]. }
  destruct (responses_create env model_name payload) as [response|].
  2:{ intros [= <-]. eexists. split; [reflexivity | cbn; auto]. }
  cbv zeta.
  destruct (if negb (truthy_opt_str (OpenAI.output_text response))
               && truthy_opt_list (OpenAI.output response)
            then _ else _) as [raw|].
  2:{ intros [= <-]. eexists. split; [reflexivity | cbn; auto]. }
  destruct (truthy_str raw).
  2:{ intros [= <-]. eexists. split; [reflexivity | cbn; auto]. }
  destruct (json_loads env raw); [discriminate |].
  intros [= <-]. eexists. split; [reflexivity | cbn; auto].
Qed.

Lemma fallback_decision_none (payload : Payload.t) (reason : string) :
  LLMDecider.fallback_decision payload reason = Ok None ->
  rule_chart (map type_signal (or_empty (Payload.columns payload))) = None.
Proof.
  rewrite <- choose_chart. unfold LLMDecider.fallback_decision.
  destruct (LLMDecider.choose _) as [dr|]; [| reflexivity].
  destruct (Payload.payload_profile payload) as [p|]; cbn [bind]; [| discriminate].
  destruct (LLMDecider.validate_profile p); cbn [bind]; discriminate.
Qed.

Lemma fallback_decision_error (payload : Payload.t) (reason : string) (e : error) :
  LLMDecider.fallback_decision payload reason = Err e ->
  exists p m, Payload.payload_profile payload = Some p
              /\ LLMDecider.validate_profile p = Err e
              /\ e = ValidationError m.
Proof.
  unfold LLMDecider.fallback_decision.
  destruct (LLMDecider.choose _) as [dr|]; [| discriminate].
  destruct (Payload.payload_profile payload) as [p|]; cbn [bind]; [| discriminate].
  destruct (LLMDecider.validate_profile p) as [p'|e'] eqn:Ev; cbn [bind];
    [discriminate |].
  intros [= <-]. exists p.
  pose proof Ev as Ev'. unfold LLMDecider.validate_profile in Ev.
  destruct (_ && _) in Ev.
  - destruct (Payload.time_granularity p) as [g|]; [| discriminate].
    destruct (LLMDecider.validate_granularity g); [discriminate |].
    injection Ev as <-. eauto.
  - injection Ev as <-. eauto.
Qed.

(** X16.  The outcomes of [decide].  A decision returned is either the
    validated answer of the model or, when the model call failed, the
    fallback decision, which has score 0.3 and carries the failure message
    in its assumptions.  A model answer that does not validate raises
    [SchemaValidationFailedError] and is never replaced by the fallback.
    A failed model call for which no fallback rule applies raises the
    error of the call itself.  The only other failure is the validation of
    the payload's profile inside the fallback.  Without an API key the
    call fails before the client is used. *)
Theorem decide_outcomes :
  forall (env : ModelEnv) (payload : Payload.t) (prefer_model : option string),
    let call :=
      LLMCall.call_openai env (model_name_of env prefer_model) payload in
    match LLMCall.decide env payload prefer_model with
    | Ok d =>
        (exists response,
            call = Ok response /\ model_validate env response = Some d)
        \/ (exists msg,
               call = Err (ModelDecisionFailedError msg)
               /\ LLMDecider.fallback_decision payload msg = Ok (Some d)
               /\ Chart.score (VisualizationDecision.chart d) = 3 # 10
               /\ In ("Reason: " ++ msg)
                     (or_empty (VisualizationDecision.assumptions d)))
    | Err (SchemaValidationFailedError m) =>
        m = "Invalid decision"
        /\ exists response,
            call = Ok response /\ model_validate env response = None
    | Err (ModelDecisionFailedError msg) =>
        call = Err (ModelDecisionFailedError msg)
        /\ rule_chart (map type_signal (or_empty (Payload.columns payload))) = None
    | Err (ValidationError m) =>
        exists msg p,
          call = Err (ModelDecisionFailedError msg)
          /\ Payload.payload_profile payload = Some p
          /\ LLMDecider.validate_profile p = Err (ValidationError m)
    | Err _ => False
    end
    /\ (truthy_opt_str (openai_api_key env) = false ->
        call = Err (ModelDecisionFailedError "OpenAI API key not configured")).
Proof.
  intros env payload prefer_model call. split.
  - unfold LLMCall.decide. fold (model_name_of env prefer_model). fold call.
    destruct call as [response|e] eqn:Ecall.
    + destruct (model_validate env response) as [d|] eqn:Ev; cbn.
      * left. eauto.
      * split; [reflexivity | eauto].
    + destruct (call_openai_error _ _ _ _ Ecall) as (msg & -> & _).
      destruct (LLMDecider.fallback_decision payload msg) as [[d|]|e] eqn:Ef;
        cbn [bind raise].
      * right. exists msg.
        destruct (fallback_decision_some _ _ _ Ef) as (dr & Hc & Hchart & _ & _ & _ & Ha).
        destruct (choose_consistent _ _ Hc) as (Hs & _).
        split; [reflexivity |]. split; [exact Ef |].
        split; [rewrite Hchart; exact Hs |].
        rewrite Ha. right. left. reflexivity.
      * split; [reflexivity | exact (fallback_decision_none _ _ Ef)].
      * destruct (fallback_decision_error _ _ _ Ef) as (p & m & Hp & Hv & ->).
        exists msg, p. auto.
  - intros Hk. subst call. unfold LLMCall.call_openai. rewrite Hk. reflexivity.
Qed.

Lemma decide_outcomes_witness :
  LLMCall.call_openai model_env_without_key
    (model_name_of model_env_without_key (Some "gpt-5-nano"))
    (Payload.mk None (Some [Payload.mk_column "sales" (Some "quantitative")]))
  = Err (ModelDecisionFailedError "OpenAI API key not configured").
Proof.
  apply (proj2 (decide_outcomes model_env_without_key
                  (Payload.mk None (Some [Payload.mk_column "sales" (Some "quantitative")]))
                  (Some "gpt-5-nano"))).
  reflexivity.
Defined.

(** Without a key, a measure column alone still gets its histogram. *)
Example decide_falls_back_without_key :
  option_map (fun d => Chart.type (VisualizationDecision.chart d))
    (match LLMCall.decide model_env_without_key
             (Payload.mk None (Some [Payload.mk_column "sales" (Some "quantitative")]))
             None with
     | Ok d => Some d
     | Err _ => None
     end)
  = Some ChartType.histogram.
Proof. reflexivity. Qed.

(* ================================================================== *)
(** * Comparison filters *)

Lemma select_rows_comparison (o : pl.CmpOp) (value : scalar) (p : scalar -> bool)
      (j : nat) (rs : list (list scalar)) :
  (forall v c, pl.compare_scalar v value = Ok c ->
               p v = match c with Some c' => pl.cmp_holds o c' | None => false end) ->
  Forall (fun r => comparable (pl.cell j r) value) rs ->
  exists mask,
    pl.map_cells (pl.cmp_cell o value) (map (pl.cell j) rs) = Ok mask
    /\ pl.select_rows mask rs = Ok (filter (fun r => p (pl.cell j r)) rs).
Proof.
  intros Hp Hall. induction Hall as [| r rs [c Hc] _ (mask & Hm & Hs)].
  - exists []. split; reflexivity.
  - exists ((match c with Some c' => VBool (pl.cmp_holds o c') | None => VNull end)
              :: mask).
    cbn [map pl.map_cells filter]. unfold pl.cmp_cell at 1. rewrite Hc. cbn [bind].
    rewrite Hm. cbn [bind]. split; [reflexivity |].
    rewrite (Hp _ _ Hc). cbn [pl.select_rows].
    destruct c as [c'|]; [destruct (pl.cmp_holds o c') |]; rewrite Hs; reflexivity.
Qed.

(** X17.  The six comparison filters.  On a column whose cells can be
    compared with the filter's value, [eq], [ne], [gt], [gte], [lt] and
    [lte] keep exactly the rows whose cell is equal to, different from,
    greater than, at least, less than and at most the value; a null cell
    never passes, and a filter whose value is absent (null) keeps no row. *)
Theorem comparison_filters_keep_matching_rows :
  forall (B : pl.Backend) (lf : pl.LazyFrame) (df : pl.DataFrame)
         (field : string) (op : FilterOp.t) (value : scalar)
         (values : option (list scalar)) (j : nat),
    is_comparison op = true ->
    pl.collect B lf = Ok df ->
    pl.index_of field (pl.columns df) = Some j ->
    Forall (fun r => comparable (pl.cell j r) value) (pl.rows df) ->
    (exists lf',
        TransformExecutor.filter_step lf (FilterSpec.mk field op value values) = Ok lf'
        /\ pl.collect B lf'
           = Ok (pl.mkDataFrame (pl.columns df)
                   (filter (fun r => comparison_holds op (pl.cell j r) value)
                           (pl.rows df))))
    /\ (forall r, pl.cell j r = VNull \/ value = VNull ->
                  comparison_holds op (pl.cell j r) value = false).
Proof.
  intros B lf df field op value values j Hop Hc Hj Hall. split.
  - assert (Hgen : forall o,
               (forall v c, pl.compare_scalar v value = Ok c ->
                            comparison_holds op v value
                            = match c with
                              | Some c' => pl.cmp_holds o c'
                              | None => false
                              end) ->
               pl.collect B (pl.filter lf (pl.cmp o (pl.col field) value))
               = Ok (pl.mkDataFrame (pl.columns df)
                       (filter (fun r => comparison_holds op (pl.cell j r) value)
                               (pl.rows df)))).
    { intros o Ho. cbn [pl.collect]. rewrite Hc. cbn [bind].
      unfold pl.df_filter. cbn [pl.eval]. unfold pl.get_column. rewrite Hj.
      cbn [bind].
      destruct (select_rows_comparison o value (fun v => comparison_holds op v value)
                  j (pl.rows df) Ho Hall) as (mask & Hm & Hs).
      rewrite Hm. cbn [bind]. rewrite Hs. reflexivity. }
    destruct op; try discriminate; eexists; (split; [reflexivity |]);
      apply Hgen; intros v c Hv; unfold comparison_holds; rewrite Hv;
      destruct c as [[| |]|]; reflexivity.
  - intros r [Hn | Hn]; unfold comparison_holds; rewrite Hn.
    + reflexivity.
    + destruct (pl.cell j r); reflexivity.
Qed.

Lemma comparison_filters_keep_matching_rows_witness :
  exists lf',
    TransformExecutor.filter_step (pl.scan_csv "/data/levels.csv" ",")
      (FilterSpec.mk "level" FilterOp.gte (VInt 5) None) = Ok lf'
    /\ pl.collect (backend_of sample_levels) lf'
       = Ok (pl.mkDataFrame (pl.columns sample_levels)
               (filter (fun r => comparison_holds FilterOp.gte (pl.cell 0 r) (VInt 5))
                       (pl.rows sample_levels))).
Proof.
  apply (proj1 (comparison_filters_keep_matching_rows (backend_of sample_levels)
                  (pl.scan_csv "/data/levels.csv" ",") sample_levels "level"
                  FilterOp.gte (VInt 5) None 0%nat eq_refl eq_refl eq_refl
                  ltac:(repeat constructor; eexists; reflexivity))).
Defined.

(* ================================================================== *)
(** * The profile carried by the fallback *)

Lemma time_unit_of_value (s : string) (u : TimeUnit.t) :
  TimeUnit.of_value s = Some u -> TimeUnit.value u = s.
Proof.
  unfold TimeUnit.of_value.
  repeat match goal with
         | |- context [String.eqb s ?k] =>
             destruct (String.eqb_spec s k) as [-> | _];
             [intros [= <-]; reflexivity |]
         end.
  discriminate.
Qed.

Lemma time_unit_value_of_value (u : TimeUnit.t) :
  TimeUnit.of_value (TimeUnit.value u) = Some u.
Proof. destruct u; reflexivity. Qed.

Lemma validate_granularity_strings (g : list (string * string))
      (g' : list (string * TimeUnit.t)) :
  LLMDecider.validate_granularity g = Some g' <-> granularity_strings g' = g.
Proof.
  split.
  - revert g'. induction g as [|[k s] g IH]; intros g'.
    + intros [= <-]. reflexivity.
    + cbn [LLMDecider.validate_granularity].
      destruct (TimeUnit.of_value s) as [u|] eqn:Eu; [| discriminate].
      destruct (LLMDecider.validate_granularity g) as [r|]; [| discriminate].
      intros [= <-]. unfold granularity_strings. cbn [map fst snd]. f_equal.
      * now rewrite (time_unit_of_value s u Eu).
      * exact (IH r eq_refl).
  - intros <-. induction g' as [|[k u] g' IH]; [reflexivity |].
    unfold granularity_strings in *. cbn [map fst snd LLMDecider.validate_granularity].
    rewrite time_unit_value_of_value, IH. reflexivity.
Qed.

(** X18.  The fallback hands the payload's profile on unchanged.  Without
    a profile in the payload the decision has none.  With one, the decision
    carries its row count, its column profiles and its issues as they are,
    and a granularity table that reads back, unit by unit, as the strings of
    the payload; a granularity table validates exactly when it is the
    string form of a table of time units. *)
Theorem fallback_keeps_profile :
  (forall g g', LLMDecider.validate_granularity g = Some g'
                <-> granularity_strings g' = g)
  /\ (forall (payload : Payload.t) (reason : string) (d : VisualizationDecision.t),
         LLMDecider.fallback_decision payload reason = Ok (Some d) ->
         match Payload.payload_profile payload with
         | None => VisualizationDecision.profile d = None
         | Some p =>
             exists p',
               VisualizationDecision.profile d = Some p'
               /\ DatasetProfile.row_count p' = Payload.row_count p
               /\ DatasetProfile.columns p' = Some (Payload.profile_columns p)
               /\ DatasetProfile.issues p' = Payload.issues p
               /\ option_map granularity_strings (DatasetProfile.time_granularity p')
                  = Payload.time_granularity p
         end).
Proof.
  split; [exact validate_granularity_strings |].
  intros payload reason d. unfold LLMDecider.fallback_decision.
  destruct (LLMDecider.choose _) as [dr|]; [| discriminate].
  destruct (Payload.payload_profile payload) as [p|]; cbn [bind].
  - destruct (LLMDecider.validate_profile p) as [p'|] eqn:Ev; cbn [bind];
      [| discriminate].
    intros [= <-]. exists p'. split; [reflexivity |].
    unfold LLMDecider.validate_profile in Ev.
    destruct (_ && _) in Ev; [| discriminate].
    destruct (Payload.time_granularity p) as [g|] eqn:Eg.
    + destruct (LLMDecider.validate_granularity g) as [g'|] eqn:Egg; [| discriminate].
      injection Ev as <-. cbn. repeat split.
      now rewrite (proj1 (validate_granularity_strings g g') Egg).
    + injection Ev as <-. cbn. repeat split.
  - intros [= <-]. reflexivity.
Qed.

Lemma fallback_keeps_profile_witness :
  LLMDecider.validate_granularity [("order_date", "day"); ("shipped", "week")]
  = Some [("order_date", TimeUnit.day); ("shipped", TimeUnit.week)]
  /\ exists d p',
      LLMDecider.fallback_decision
        (Payload.mk
           (Some (Payload.mk_profile (Some 4%Z) [] None (Some [("order_date", "day")])))
           (Some [Payload.mk_column "sales" (Some "quantitative")]))
        "no key" = Ok (Some d)
      /\ VisualizationDecision.profile d = Some p'
      /\ option_map granularity_strings (DatasetProfile.time_granularity p')
         = Some [("order_date", "day")].
Proof.
  split.
  - apply (proj2 (proj1 fallback_keeps_profile _ _)). reflexivity.
  - eexists.
    destruct (proj2 fallback_keeps_profile
                (Payload.mk
                   (Some (Payload.mk_profile (Some 4%Z) [] None
                            (Some [("order_date", "day")])))
                   (Some [Payload.mk_column "sales" (Some "quantitative")]))
                "no key" _ eq_refl) as (p' & Hp & _ & _ & _ & Hg).
    exists p'. split; [reflexivity |]. split; [exact Hp | exact Hg].
Defined.
